(** * ProxyGen: deployment ledger, IP allocator, discovery import,
      provisioning flow and cost model

    A shallow embedding of the state-tracking core of ProxyGen
    (src/lib/ip_manager.py, src/lib/deployment_tracker.py,
    src/lib/cloud_discovery.py, src/lib/cost_estimator.py and the deploy,
    validation and destroy-by-id methods of src/proxygen.py), followed by
    the properties established for it.

    Modelling conventions.
    - A Python [dict] is an insertion-ordered association list
      ([Py.dict]); iteration order is the list order.
    - [datetime.now()] is an argument [now] of every operation that reads
      the clock, and the reads of one call are taken at that one instant;
      timestamps stored with [isoformat()] and read back with
      [fromisoformat()] are kept as [DateTime.t] values.
    - The external tools (Terraform, the remote configuration, the
      terminal) are oracles: records of what each call of them returns or
      raises.
    - [int(time.time())] is an argument [timestamp : Z].
    - A raised exception is the [Py.Raise] outcome.
    - Prices are Python floats in the source; they are exact rationals
      here and [round(x, 2)] is rounding to hundredths, ties to even.
    - A [while] loop is a function with fuel; [None] means the fuel ran
      out before the loop condition became false.
    - [list.sort] is the stable sort, computed by insertion. *)

From Stdlib Require Import String Ascii List ZArith QArith Qround Bool Lia Lqa DecimalString.
From Stdlib Require Import Sorted Permutation.
Import ListNotations.

Open Scope string_scope.
Open Scope Z_scope.

(* ================================================================== *)
(** ** Python values, dictionaries and outcomes *)

Module Py.

Inductive exn : Type :=
| KeyError (key : string)
| TypeError
| ValueError
| AttributeError
| OverflowError
| JSONDecodeError
| ValidationError
| TerraformError
| ConfigurationError
| ProxyGenError.

Inductive outcome (A : Type) : Type :=
| Return (a : A)
| Raise (e : exn).
Arguments Return {A} a.
Arguments Raise {A} e.

Definition bind {A B : Type} (c : outcome A) (k : A -> outcome B) : outcome B :=
  match c with
  | Return a => k a
  | Raise e => Raise e
  end.

(** The values stored under the keys of [resources], [config] and of a
    discovered resource: JSON scalars. *)
Inductive scalar : Type :=
| SNone
| SBool (b : bool)
| SInt (z : Z)
| SStr (s : string).

(** [bool(v)] *)
Definition truthy (v : scalar) : bool :=
  match v with
  | SNone => false
  | SBool b => b
  | SInt z => negb (z =? 0)
  | SStr s => negb (s =? "")%string
  end.

(** [a == b] *)
Definition eqb (a b : scalar) : bool :=
  match a, b with
  | SNone, SNone => true
  | SBool x, SBool y => Bool.eqb x y
  | SBool x, SInt y => (if x then 1 else 0) =? y
  | SInt x, SBool y => x =? (if y then 1 else 0)
  | SInt x, SInt y => x =? y
  | SStr x, SStr y => (x =? y)%string
  | _, _ => false
  end.

(** [str(z)] for an integer *)
Definition str_of_Z (z : Z) : string := NilZero.string_of_int (Z.to_int z).

(** [str(v)], as an f-string formats a value *)
Definition str (v : scalar) : string :=
  match v with
  | SNone => "None"
  | SBool true => "True"
  | SBool false => "False"
  | SInt z => str_of_Z z
  | SStr s => s
  end.

(** The number a value stands for in arithmetic; [None] and strings
    raise [TypeError] when multiplied by a float. *)
Definition number (v : scalar) : outcome Q :=
  match v with
  | SBool b => Return (if b then 1%Q else 0%Q)
  | SInt z => Return (inject_Z z)
  | SNone | SStr _ => Raise TypeError
  end.

Definition dict (V : Type) : Type := list (string * V).

(** [d.get(k)] as an option; [k in d] is [mem] *)
Fixpoint get {V : Type} (k : string) (d : dict V) : option V :=
  match d with
  | [] => None
  | (k', v) :: rest => if (k' =? k)%string then Some v else get k rest
  end.

Definition mem {V : Type} (k : string) (d : dict V) : bool :=
  match get k d with Some _ => true | None => false end.

(** [d.get(k)] with the default [None] of Python *)
Definition get_or_none (k : string) (d : dict scalar) : scalar :=
  match get k d with Some v => v | None => SNone end.

(** [d[k]] *)
Definition item {V : Type} (k : string) (d : dict V) : outcome V :=
  match get k d with Some v => Return v | None => Raise (KeyError k) end.

(** [d[k] = v]: an existing key keeps its position, a new key goes last *)
Fixpoint set {V : Type} (k : string) (v : V) (d : dict V) : dict V :=
  match d with
  | [] => [(k, v)]
  | (k', v') :: rest =>
      if (k' =? k)%string then (k', v) :: rest else (k', v') :: set k v rest
  end.

(** [del d[k]] for a key that is present *)
Fixpoint del {V : Type} (k : string) (d : dict V) : dict V :=
  match d with
  | [] => []
  | (k', v') :: rest =>
      if (k' =? k)%string then rest else (k', v') :: del k rest
  end.

Definition keys {V : Type} (d : dict V) : list string := map fst d.
Definition values {V : Type} (d : dict V) : list V := map snd d.

(** [s in l] for a list of strings *)
Definition str_in (s : string) (l : list string) : bool :=
  existsb (fun x => (x =? s)%string) l.

(** A file that holds a JSON document: it may not exist, and when it
    exists [json.load] either raises [JSONDecodeError] or gives the
    document. *)
Inductive content (A : Type) : Type :=
| Invalid
| Valid (doc : A).
Arguments Invalid {A}.
Arguments Valid {A} doc.

Inductive file (A : Type) : Type :=
| Absent
| Present (c : content A).
Arguments Absent {A}.
Arguments Present {A} c.

End Py.

Notation "x <- c ;; k" := (Py.bind c (fun x => k))
  (at level 61, c at next level, right associativity).

(* ================================================================== *)
(** ** datetime *)

Module DateTime.

Record t : Type := mk {
  year : Z; month : Z; day : Z;
  hour : Z; minute : Z; second : Z; microsecond : Z
}.

(** [year % 4 == 0 and (year % 100 != 0 or year % 400 == 0)] *)
Definition is_leap (y : Z) : bool :=
  (y mod 4 =? 0) && (negb (y mod 100 =? 0) || (y mod 400 =? 0)).

Definition days_in_month (y m : Z) : Z :=
  if m =? 2 then (if is_leap y then 29 else 28)
  else if (m =? 4) || (m =? 6) || (m =? 9) || (m =? 11) then 30
  else 31.

(** The values [datetime] accepts. *)
Definition valid (d : t) : Prop :=
  1 <= year d <= 9999 /\ 1 <= month d <= 12 /\
  1 <= day d <= days_in_month (year d) (month d) /\
  0 <= hour d <= 23 /\ 0 <= minute d <= 59 /\ 0 <= second d <= 59 /\
  0 <= microsecond d <= 999999.

Definition as_list (d : t) : list Z :=
  [year d; month d; day d; hour d; minute d; second d; microsecond d].

Fixpoint lex_ltb (a b : list Z) : bool :=
  match a, b with
  | x :: a', y :: b' => (x <? y) || ((x =? y) && lex_ltb a' b')
  | _, _ => false
  end.

(** [a < b] on naive datetimes *)
Definition ltb (a b : t) : bool := lex_ltb (as_list a) (as_list b).

Definition digit (n : Z) : ascii := ascii_of_nat (48 + Z.to_nat (n mod 10)).

(** [%02d] and [%04d] of a number within the field's range. [%Y] gives
    four digits on every platform for the years from 1000 on. *)
Definition pad2 (n : Z) : string :=
  String (digit (n / 10)) (String (digit n) EmptyString).
Definition pad4 (n : Z) : string :=
  String (digit (n / 1000)) (String (digit (n / 100)) (pad2 n)).

(** [d.strftime('%Y%m%d-%H%M%S')] *)
Definition strftime_Ymd_HMS (d : t) : string :=
  pad4 (year d) ++ pad2 (month d) ++ pad2 (day d) ++ "-" ++
  pad2 (hour d) ++ pad2 (minute d) ++ pad2 (second d).

(** Proleptic Gregorian ordinals, as [datetime] computes them. *)
Definition days_before_year (y : Z) : Z :=
  let p := y - 1 in p * 365 + p / 4 - p / 100 + p / 400.

Definition days_before_month_table (m : Z) : Z :=
  nth (Z.to_nat m) [0; 0; 31; 59; 90; 120; 151; 181; 212; 243; 273; 304; 334] 0.

Definition days_before_month (y m : Z) : Z :=
  days_before_month_table m + (if (2 <? m) && is_leap y then 1 else 0).

Definition ymd2ord (y m d : Z) : Z :=
  days_before_year y + days_before_month y m + d.

Definition ord2ymd (ordinal : Z) : Z * Z * Z :=
  let n := ordinal - 1 in
  let n400 := n / 146097 in
  let n := n mod 146097 in
  let n100 := n / 36524 in
  let n := n mod 36524 in
  let n4 := n / 1461 in
  let n := n mod 1461 in
  let n1 := n / 365 in
  let n := n mod 365 in
  let y := n400 * 400 + 1 + n100 * 100 + n4 * 4 + n1 in
  if (n1 =? 4) || (n100 =? 4) then (y - 1, 12, 31)
  else
    let leapyear := (n1 =? 3) && (negb (n4 =? 24) || (n100 =? 3)) in
    let m := Z.shiftr (n + 50) 5 in
    let preceding :=
      days_before_month_table m + (if (2 <? m) && leapyear then 1 else 0) in
    if n <? preceding then
      let m' := m - 1 in
      let dim :=
        (if m' =? 2 then 28
         else if (m' =? 4) || (m' =? 6) || (m' =? 9) || (m' =? 11) then 30
         else 31) + (if (m' =? 2) && leapyear then 1 else 0) in
      (y, m', n - (preceding - dim) + 1)
    else (y, m, n - preceding + 1).

(** [d - timedelta(days=n)]; out of [datetime]'s range it raises
    [OverflowError]. *)
Definition minus_days (d : t) (n : Z) : Py.outcome t :=
  let o := ymd2ord (year d) (month d) (day d) - n in
  if (Z.abs n <=? 999999999) && (1 <=? o) && (o <=? 3652059) then
    let '(y, m, dd) := ord2ymd o in
    Py.Return (mk y m dd (hour d) (minute d) (second d) (microsecond d))
  else Py.Raise Py.OverflowError.

End DateTime.

(* ================================================================== *)
(** ** IP Allocator (src/lib/ip_manager.py) *)

Module IPManager.
Import Py.

Record ip_info : Type := mk_ip_info {
  public_ip : scalar;
  deployment_id : string;
  provider : string;
  region : string;
  allocated_at : DateTime.t;
  status : string;
  released_at : option DateTime.t;
  avoid_reason : option string
}.

(** The document of [ip_registry.json]. *)
Record registry_doc : Type := mk_registry {
  elastic_ips : dict ip_info;
  server_ips : dict scalar;
  client_subnets : dict string;
  last_updated : DateTime.t
}.

(** An [IPManager] object: its registry in memory and the registry file
    it reads and writes. *)
Record t : Type := mk {
  registry : registry_doc;
  ip_registry : file registry_doc
}.

Definition with_elastic_ips (e : dict ip_info) (r : registry_doc) : registry_doc :=
  mk_registry e (server_ips r) (client_subnets r) (last_updated r).

Definition with_client_subnets (c : dict string) (r : registry_doc) : registry_doc :=
  mk_registry (elastic_ips r) (server_ips r) c (last_updated r).

Definition save_ip_registry (now : DateTime.t) (m : t) : t :=
  let r := registry m in
  let r' := mk_registry (elastic_ips r) (server_ips r) (client_subnets r) now in
  mk r' (Present (Valid r')).

(** [load_ip_registry], as [__init__] calls it on the registry file:
    no [try] surrounds [json.load]. *)
Definition load_ip_registry (now : DateTime.t) (f : file registry_doc) : outcome t :=
  match f with
  | Present (Valid d) => Return (mk d f)
  | Present Invalid => Raise JSONDecodeError
  | Absent => Return (save_ip_registry now (mk (mk_registry [] [] [] now) f))
  end.

Definition init (now : DateTime.t) (f : file registry_doc) : outcome t :=
  load_ip_registry now f.

Definition register_deployment_ip (dep_id prov reg : string) (ip : scalar)
    (now : DateTime.t) (m : t) : t :=
  let key := prov ++ "-" ++ reg ++ "-" ++ dep_id in
  let info := mk_ip_info ip dep_id prov reg now "active" None None in
  let r := with_elastic_ips (set key info (elastic_ips (registry m))) (registry m) in
  save_ip_registry now (mk r (ip_registry m)).

(** The loop of [release_deployment_ip]: the first entry of the
    deployment is marked and the loop breaks. *)
Fixpoint release_first (dep_id : string) (now : DateTime.t)
    (e : dict ip_info) : dict ip_info :=
  match e with
  | [] => []
  | (k, info) :: rest =>
      if (deployment_id info =? dep_id)%string then
        (k, mk_ip_info (public_ip info) (deployment_id info) (provider info)
              (region info) (allocated_at info) "released" (Some now)
              (avoid_reason info)) :: rest
      else (k, info) :: release_first dep_id now rest
  end.

Definition release_deployment_ip (dep_id : string) (now : DateTime.t) (m : t) : t :=
  let r := with_elastic_ips (release_first dep_id now (elastic_ips (registry m)))
             (registry m) in
  save_ip_registry now (mk r (ip_registry m)).

Definition check_ip_conflicts (prov reg : string) (m : t) : list scalar :=
  map (fun kv => public_ip (snd kv))
    (filter (fun kv => (provider (snd kv) =? prov)%string &&
                       (region (snd kv) =? reg)%string &&
                       (status (snd kv) =? "active")%string)
       (elastic_ips (registry m))).

Definition get_deployment_info (dep_id : string) (m : t) : option ip_info :=
  option_map snd
    (find (fun kv => (deployment_id (snd kv) =? dep_id)%string)
       (elastic_ips (registry m))).

(** [f"10.{subnet_base}.{subnet_second}.0/24"] *)
Definition subnet_str (subnet_base subnet_second : Z) : string :=
  "10." ++ str_of_Z subnet_base ++ "." ++ str_of_Z subnet_second ++ ".0/24".

(** [subnet_base = (subnet_base + 1) % 200 + 10] *)
Definition next_base (subnet_base : Z) : Z := (subnet_base + 1) mod 200 + 10.

(** The [while subnet in self.registry["client_subnets"].values()] loop.
    [None]: the condition still held when the fuel ran out. *)
Fixpoint probe (fuel : nat) (used : list string) (subnet_base subnet_second : Z)
    : option string :=
  match fuel with
  | O => None
  | S fuel' =>
      if str_in (subnet_str subnet_base subnet_second) used
      then probe fuel' used (next_base subnet_base) subnet_second
      else Some (subnet_str subnet_base subnet_second)
  end.

Definition generate_client_subnet (fuel : nat) (dep_id : string) (timestamp : Z)
    (now : DateTime.t) (m : t) : option (string * t) :=
  let subnet_base := timestamp mod 200 + 10 in
  let subnet_second := (timestamp / 200) mod 255 in
  match probe fuel (values (client_subnets (registry m))) subnet_base subnet_second with
  | None => None
  | Some subnet =>
      let r := with_client_subnets (set dep_id subnet (client_subnets (registry m)))
                 (registry m) in
      Some (subnet, save_ip_registry now (mk r (ip_registry m)))
  end.

(** The bases that the probe visits *)
Definition in_range (b : Z) : Prop := 10 <= b <= 209.

(** The base after [i] iterations of the loop *)
Fixpoint base_after (i : nat) (b : Z) : Z :=
  match i with
  | O => b
  | S i' => base_after i' (next_base b)
  end.

(** A registry in which every subnet [10.b.second.0/24], [10 <= b <= 209],
    is assigned: deployment [dep-b] holds the subnet of base [b]. *)
Definition exhausted_subnets (subnet_second : Z) : dict string :=
  map (fun i => let b := 10 + Z.of_nat i in
                ("dep-" ++ str_of_Z b, subnet_str b subnet_second))
      (seq 0 200).

(** The test of [cleanup_old_ips] on one entry: its status is
    ["released"], it has a ["released_at"], and that is before the cutoff. *)
Definition stale (cutoff_date : DateTime.t) (info : ip_info) : bool :=
  (status info =? "released")%string &&
  match released_at info with
  | Some at_ => DateTime.ltb at_ cutoff_date
  | None => false
  end.

(** [for key in list(self.registry["elastic_ips"].keys())]: the entry of
    the key is read and, when stale, deleted. *)
Fixpoint cleanup_keys (cutoff_date : DateTime.t) (ks : list string)
    (e : dict ip_info) : outcome (dict ip_info) :=
  match ks with
  | [] => Return e
  | key :: rest =>
      info <- item key e ;;
      cleanup_keys cutoff_date rest (if stale cutoff_date info then del key e else e)
  end.

Definition cleanup_old_ips (max_age_days : Z) (now : DateTime.t) (m : t) : outcome t :=
  cutoff_date <- DateTime.minus_days now max_age_days ;;
  e <- cleanup_keys cutoff_date (keys (elastic_ips (registry m)))
         (elastic_ips (registry m)) ;;
  Return (save_ip_registry now (mk (with_elastic_ips e (registry m)) (ip_registry m))).

(** The entry that [force_new_ip_allocation] changes: the one that
    [get_deployment_info] returns. [None]: there is none. *)
Fixpoint avoid_first (dep_id : string) (e : dict ip_info) : option (dict ip_info) :=
  match e with
  | [] => None
  | (k, info) :: rest =>
      if (deployment_id info =? dep_id)%string then
        Some ((k, mk_ip_info (public_ip info) (deployment_id info) (provider info)
                    (region info) (allocated_at info) "avoid" (released_at info)
                    (Some "forced_new_allocation")) :: rest)
      else option_map (cons (k, info)) (avoid_first dep_id rest)
  end.

Definition force_new_ip_allocation (dep_id : string) (now : DateTime.t) (m : t) : t :=
  match avoid_first dep_id (elastic_ips (registry m)) with
  | Some e => save_ip_registry now (mk (with_elastic_ips e (registry m)) (ip_registry m))
  | None => m
  end.

Record usage_report : Type := mk_report {
  total_ips : nat;
  active_ips : nat;
  released_ips : nat;
  report_client_subnets : nat;
  report_last_updated : DateTime.t
}.

Definition has_status (s : string) (kv : string * ip_info) : bool :=
  (status (snd kv) =? s)%string.

Definition get_ip_usage_report (m : t) : usage_report :=
  let e := elastic_ips (registry m) in
  mk_report (length e)
    (length (filter (has_status "active") e))
    (length (filter (has_status "released") e))
    (length (client_subnets (registry m)))
    (last_updated (registry m)).

End IPManager.

(* ================================================================== *)
(** ** Deployment Ledger (src/lib/deployment_tracker.py) *)

Module DeploymentTracker.
Import Py.

Record cost_dict : Type := mk_cost {
  monthly : Q; yearly : Q; daily : Q; currency : string
}.

Record client_record : Type := mk_client {
  client_name : scalar;
  client_ip_address : scalar;
  client_created_at : DateTime.t;
  client_config_file : scalar;
  client_active : bool
}.

Record deployment : Type := mk_deployment {
  id : string;
  provider : string;
  region : string;
  created_at : DateTime.t;
  status : string;
  resources : dict scalar;
  config : dict scalar;
  tags : dict string;
  cost_estimate : cost_dict;
  clients : list client_record;
  last_modified : option DateTime.t;
  destroyed_at : option DateTime.t
}.

Record metadata_dict : Type := mk_metadata {
  meta_created_at : option DateTime.t;
  meta_last_updated : option DateTime.t;
  meta_version : option string
}.

(** The document of [deployment_inventory.json]:
    provider -> region -> list of deployments. *)
Record inventory_doc : Type := mk_inventory {
  deployments : dict (dict (list deployment));
  metadata : metadata_dict
}.

(** The files under [base_dir / "state"]. *)
Record disk : Type := mk_disk {
  disk_inventory : file inventory_doc;
  disk_inventory_backup : file inventory_doc;
  disk_ip_registry : file IPManager.registry_doc
}.

(** A [DeploymentTracker] object with the files it reads and writes. *)
Record t : Type := mk {
  inventory : inventory_doc;
  inventory_file : file inventory_doc;
  inventory_backup : file inventory_doc;
  ip_manager : IPManager.t
}.

Definition disk_of (tr : t) : disk :=
  mk_disk (inventory_file tr) (inventory_backup tr)
          (IPManager.ip_registry (ip_manager tr)).

Definition save_inventory (now : DateTime.t) (tr : t) : t :=
  let inv := inventory tr in
  let inv' := mk_inventory (deployments inv)
                (mk_metadata (meta_created_at (metadata inv)) (Some now)
                             (meta_version (metadata inv))) in
  let backup := match inventory_file tr with
                | Present _ => inventory_file tr
                | Absent => inventory_backup tr
                end in
  mk inv' (Present (Valid inv')) backup (ip_manager tr).

(** [load_inventory]: [json.JSONDecodeError] is caught and an empty
    inventory replaces the corrupted one. *)
Definition load_inventory (now : DateTime.t) (f backup : file inventory_doc)
    (ipm : IPManager.t) : t :=
  match f with
  | Present (Valid d) => mk d f backup ipm
  | Present Invalid => mk (mk_inventory [] (mk_metadata None None None)) f backup ipm
  | Absent =>
      save_inventory now
        (mk (mk_inventory [] (mk_metadata (Some now) (Some now) (Some "1.0")))
            f backup ipm)
  end.

(** [DeploymentTracker(base_dir)]: the IP manager is built first. *)
Definition init (now : DateTime.t) (d : disk) : outcome t :=
  ipm <- IPManager.init now (disk_ip_registry d) ;;
  Return (load_inventory now (disk_inventory d) (disk_inventory_backup d) ipm).

Definition instance_pricing : dict (dict Q) :=
  [ ("aws", [ ("t3.nano", 3.80); ("t3.micro", 7.60); ("t3.small", 15.20);
              ("t3.medium", 30.40); ("t3.large", 60.80); ("t2.micro", 8.50);
              ("t2.small", 16.80); ("t2.medium", 33.70) ]);
    ("azure", [ ("Standard_B1s", 3.80); ("Standard_B1ms", 7.60);
                ("Standard_B2s", 15.20); ("Standard_B2ms", 30.40);
                ("Standard_B4ms", 60.80); ("Standard_D2s_v3", 70.00) ]);
    ("digitalocean", [ ("s-1vcpu-1gb", 6.00); ("s-1vcpu-2gb", 12.00);
                       ("s-2vcpu-2gb", 18.00); ("s-2vcpu-4gb", 24.00);
                       ("s-4vcpu-8gb", 48.00) ]);
    ("hetzner", [ ("cx11", 3.60); ("cx21", 6.40); ("cx31", 11.60);
                  ("cx41", 22.00); ("cx51", 43.00) ]) ]%Q.

Record additional : Type := mk_additional { ip : Q; storage_per_gb : Q }.

Definition additional_costs : dict additional :=
  [ ("aws", mk_additional 3.60 0.10);
    ("azure", mk_additional 3.60 0.115);
    ("digitalocean", mk_additional 0 0.10);
    ("hetzner", mk_additional 0 0.05) ]%Q.

Definition default_costs : dict Q :=
  [ ("aws", 7.60); ("azure", 7.60); ("digitalocean", 6.00); ("hetzner", 3.60) ]%Q.

(** [min(l)] of a non-empty list of prices *)
Definition min_price (l : list Q) : Q :=
  match l with
  | [] => 0%Q
  | x :: rest => fold_left (fun m y => if Qlt_le_dec y m then y else m) rest x
  end.

(** [round(x)] to the nearest integer, ties to even *)
Definition round_half_even (x : Q) : Z :=
  let f := Qfloor x in
  match Qcompare (x - inject_Z f) (1 # 2) with
  | Lt => f
  | Gt => f + 1
  | Eq => if Z.even f then f else f + 1
  end.

(** [round(x, 2)] *)
Definition round2 (x : Q) : Q := Qmake (round_half_even (x * 100)) 100.

(** The price table is keyed by strings: another value is no key of it. *)
Definition table_get (key : scalar) (table : dict Q) : option Q :=
  match key with
  | SStr s => get s table
  | _ => None
  end.

Definition _estimate_cost (prov : string) (res : dict scalar)
    (conf : option (dict scalar)) : outcome cost_dict :=
  let instance_type :=
    match conf with
    | Some c => match c with
                | [] => SNone
                | _ => get_or_none "instance_type" c
                end
    | None => SNone
    end in
  let base :=
    match truthy instance_type, get prov instance_pricing with
    | true, Some table =>
        match table_get instance_type table with
        | Some p => p
        | None => min_price (values table)
        end
    | _, _ =>
        match get prov default_costs with
        | Some p => p
        | None => 10.00%Q
        end
    end in
  let with_ip :=
    if truthy (get_or_none "public_ip" res) then
      (base + match get prov additional_costs with
              | Some a => ip a
              | None => 3.60
              end)%Q
    else base in
  storage_gb <- number (match get "storage_gb" res with
                        | Some v => v
                        | None => SInt 20
                        end) ;;
  let storage_cost :=
    (storage_gb * match get prov additional_costs with
                  | Some a => storage_per_gb a
                  | None => 0.10
                  end)%Q in
  let monthly_cost := (with_ip + storage_cost)%Q in
  Return (mk_cost (round2 monthly_cost) (round2 (monthly_cost * 12))
                  (round2 (monthly_cost / 30)) "USD").

(** The three steps that store a record:
    [if provider not in ...], [if region not in ...], [append]. *)
Definition store_record (rec : deployment) (deps : dict (dict (list deployment)))
    : dict (dict (list deployment)) :=
  let prov := provider rec in
  let reg := region rec in
  let deps1 := if mem prov deps then deps else set prov [] deps in
  let regions := match get prov deps1 with Some r => r | None => [] end in
  let regions1 := if mem reg regions then regions else set reg [] regions in
  let l := match get reg regions1 with Some l => l | None => [] end in
  set prov (set reg (l ++ [rec])%list regions1) deps1.

(** The id [add_deployment] uses: the one given, or a synthesized one
    when it is empty. *)
Definition make_id (deployment_id prov reg : string) (now : DateTime.t) : string :=
  if (deployment_id =? "")%string
  then prov ++ "-" ++ reg ++ "-" ++ DateTime.strftime_Ymd_HMS now
  else deployment_id.

Definition add_deployment (deployment_id prov reg : string)
    (res : dict scalar) (conf : option (dict scalar))
    (now : DateTime.t) (tr : t) : outcome (string * t) :=
  let deployment_id := make_id deployment_id prov reg now in
  let existing_ips := IPManager.check_ip_conflicts prov reg (ip_manager tr) in
  c <- _estimate_cost prov res conf ;;
  let deployment_record :=
    mk_deployment deployment_id prov reg now "active" res
      (match conf with Some c => c | None => [] end)
      [("managed_by", "proxygen"); ("provider", prov); ("region", reg)]
      c [] None None in
  let ipm :=
    match get "public_ip" res with
    | Some ip_value =>
        IPManager.register_deployment_ip deployment_id prov reg ip_value now
          (ip_manager tr)
    | None => ip_manager tr
    end in
  let inv := mk_inventory (store_record deployment_record (deployments (inventory tr)))
               (metadata (inventory tr)) in
  Return (deployment_id,
          save_inventory now (mk inv (inventory_file tr) (inventory_backup tr) ipm)).

Definition has_id (deployment_id : string) (d : deployment) : bool :=
  (id d =? deployment_id)%string.

(** The innermost loop of [get_deployment] *)
Definition get_in_list (deployment_id : string) (l : list deployment)
    : option deployment :=
  find (has_id deployment_id) l.

(** The loop over the regions of one provider *)
Fixpoint get_in_regions (deployment_id : string) (regions : dict (list deployment))
    : option deployment :=
  match regions with
  | [] => None
  | (_, l) :: rest =>
      match get_in_list deployment_id l with
      | Some d => Some d
      | None => get_in_regions deployment_id rest
      end
  end.

(** The loop over the providers *)
Fixpoint get_in_providers (deployment_id : string)
    (deps : dict (dict (list deployment))) : option deployment :=
  match deps with
  | [] => None
  | (_, regions) :: rest =>
      match get_in_regions deployment_id regions with
      | Some d => Some d
      | None => get_in_providers deployment_id rest
      end
  end.

Definition get_deployment (deployment_id : string) (tr : t) : option deployment :=
  get_in_providers deployment_id (deployments (inventory tr)).

(** The two membership tests and the lookup of
    [get_deployments_by_region] *)
Definition region_list (prov reg : string) (deps : dict (dict (list deployment)))
    : list deployment :=
  match get prov deps with
  | Some regions => match get reg regions with
                    | Some l => l
                    | None => []
                    end
  | None => []
  end.

Definition get_deployments_by_region (prov reg : string) (tr : t) : list deployment :=
  region_list prov reg (deployments (inventory tr)).

Definition list_all (deps : dict (dict (list deployment))) : list deployment :=
  flat_map (fun p => flat_map snd (snd p)) deps.

Definition list_all_deployments (tr : t) : list deployment :=
  list_all (deployments (inventory tr)).

Definition get_active_deployments (tr : t) : list deployment :=
  filter (fun d => (status d =? "active")%string) (list_all_deployments tr).

(** Mutation of the record an id search returns: the first record with
    the id, in the order of the search, is replaced. [None]: no record
    has the id. *)
Fixpoint update_in_list (f : deployment -> deployment) (deployment_id : string)
    (l : list deployment) : option (list deployment) :=
  match l with
  | [] => None
  | d :: rest =>
      if has_id deployment_id d then Some (f d :: rest)
      else option_map (cons d) (update_in_list f deployment_id rest)
  end.

Fixpoint update_in_regions (f : deployment -> deployment) (deployment_id : string)
    (regions : dict (list deployment)) : option (dict (list deployment)) :=
  match regions with
  | [] => None
  | (r, l) :: rest =>
      match update_in_list f deployment_id l with
      | Some l' => Some ((r, l') :: rest)
      | None => option_map (cons (r, l)) (update_in_regions f deployment_id rest)
      end
  end.

Fixpoint update_in_providers (f : deployment -> deployment) (deployment_id : string)
    (deps : dict (dict (list deployment)))
    : option (dict (dict (list deployment))) :=
  match deps with
  | [] => None
  | (p, regions) :: rest =>
      match update_in_regions f deployment_id regions with
      | Some regions' => Some ((p, regions') :: rest)
      | None => option_map (cons (p, regions)) (update_in_providers f deployment_id rest)
      end
  end.

Definition with_deployments (deps : dict (dict (list deployment))) (tr : t) : t :=
  mk (mk_inventory deps (metadata (inventory tr)))
     (inventory_file tr) (inventory_backup tr) (ip_manager tr).

Definition set_status (new_status : string) (now : DateTime.t) (d : deployment)
    : deployment :=
  mk_deployment (id d) (provider d) (region d) (created_at d) new_status
    (resources d) (config d) (tags d) (cost_estimate d) (clients d) (Some now)
    (destroyed_at d).

Definition update_deployment_status (deployment_id new_status : string)
    (now : DateTime.t) (tr : t) : bool * t :=
  match update_in_providers (set_status new_status now) deployment_id
          (deployments (inventory tr)) with
  | Some deps => (true, save_inventory now (with_deployments deps tr))
  | None => (false, tr)
  end.

Definition append_client (client_info : dict scalar) (now : DateTime.t)
    (d : deployment) : deployment :=
  mk_deployment (id d) (provider d) (region d) (created_at d) (status d)
    (resources d) (config d) (tags d) (cost_estimate d)
    (clients d ++ [mk_client (get_or_none "name" client_info)
                     (get_or_none "ip_address" client_info) now
                     (get_or_none "config_file" client_info) true])%list
    (last_modified d) (destroyed_at d).

Definition add_client_to_deployment (deployment_id : string)
    (client_info : dict scalar) (now : DateTime.t) (tr : t) : bool * t :=
  match update_in_providers (append_client client_info now) deployment_id
          (deployments (inventory tr)) with
  | Some deps => (true, save_inventory now (with_deployments deps tr))
  | None => (false, tr)
  end.

Definition mark_destroyed (now : DateTime.t) (d : deployment) : deployment :=
  mk_deployment (id d) (provider d) (region d) (created_at d) "destroyed"
    (resources d) (config d) (tags d) (cost_estimate d) (clients d) (last_modified d)
    (Some now).

(** [remove_deployment]: on the first record with the id, the IP is
    released, the record is marked and the inventory is saved. *)
Definition remove_deployment (deployment_id : string) (now : DateTime.t) (tr : t)
    : bool * t :=
  match update_in_providers (mark_destroyed now) deployment_id
          (deployments (inventory tr)) with
  | Some deps =>
      let ipm := IPManager.release_deployment_ip deployment_id now (ip_manager tr) in
      (true,
       save_inventory now
         (mk (mk_inventory deps (metadata (inventory tr)))
             (inventory_file tr) (inventory_backup tr) ipm))
  | None => (false, tr)
  end.

(** [deployment.get("destroyed_at", deployment["created_at"])] *)
Definition destroyed_since (d : deployment) : DateTime.t :=
  match destroyed_at d with
  | Some at_ => at_
  | None => created_at d
  end.

(** The test under which [cleanup_destroyed_deployments] drops a record *)
Definition expired (cutoff_date : DateTime.t) (d : deployment) : bool :=
  (status d =? "destroyed")%string && DateTime.ltb (destroyed_since d) cutoff_date.

Definition is_empty {A : Type} (l : list A) : bool :=
  match l with [] => true | _ => false end.

(** One provider: every region keeps its unexpired records, and a
    region left empty is deleted. *)
Fixpoint cleanup_regions (cutoff_date : DateTime.t) (regions : dict (list deployment))
    : dict (list deployment) * Z :=
  match regions with
  | [] => ([], 0)
  | (r, l) :: rest =>
      let active_deployments := filter (fun d => negb (expired cutoff_date d)) l in
      let cleaned := Z.of_nat (length (filter (expired cutoff_date) l)) in
      let '(rest', n) := cleanup_regions cutoff_date rest in
      (if is_empty active_deployments then rest'
       else (r, active_deployments) :: rest',
       cleaned + n)
  end.

Fixpoint cleanup_providers (cutoff_date : DateTime.t)
    (deps : dict (dict (list deployment)))
    : dict (dict (list deployment)) * Z :=
  match deps with
  | [] => ([], 0)
  | (p, regions) :: rest =>
      let '(regions', n) := cleanup_regions cutoff_date regions in
      let '(rest', m) := cleanup_providers cutoff_date rest in
      (if is_empty regions' then rest' else (p, regions') :: rest', n + m)
  end.

Definition cleanup_destroyed_deployments (days_old : Z) (now : DateTime.t) (tr : t)
    : outcome (Z * t) :=
  cutoff_date <- DateTime.minus_days now days_old ;;
  let '(deps, cleaned) := cleanup_providers cutoff_date (deployments (inventory tr)) in
  let tr' := with_deployments deps tr in
  Return (cleaned, if 0 <? cleaned then save_inventory now tr' else tr').

(** [tr1] is [tr] with the record [d] appended to the list of its
    provider and region, every other list being the same. *)
Definition appended (d : deployment) (tr tr1 : t) : Prop :=
  get_deployments_by_region (provider d) (region d) tr1
  = (get_deployments_by_region (provider d) (region d) tr ++ [d])%list
  /\ forall prov reg,
       prov <> provider d \/ reg <> region d ->
       get_deployments_by_region prov reg tr1 = get_deployments_by_region prov reg tr.

(** Every region list of [tr] is a prefix of the one of [tr']. *)
Definition extends (tr tr' : t) : Prop :=
  forall prov reg,
    exists suffix,
      get_deployments_by_region prov reg tr'
      = (get_deployments_by_region prov reg tr ++ suffix)%list.

(** The tracker is what [DeploymentTracker(base_dir)] loads from its own
    files: the registry file holds the registry, and the inventory file
    holds the inventory or is corrupted next to an empty inventory. *)
Definition synced (tr : t) : Prop :=
  IPManager.ip_registry (ip_manager tr)
  = Present (Valid (IPManager.registry (ip_manager tr)))
  /\ (inventory_file tr = Present (Valid (inventory tr))
      \/ (inventory_file tr = Present Invalid
          /\ inventory tr = mk_inventory [] (mk_metadata None None None))).

(** The calls that change the inventory, other than
    [cleanup_destroyed_deployments] *)
Inductive call : Type :=
| AddDeployment (deployment_id prov reg : string) (res : dict scalar)
    (conf : option (dict scalar))
| UpdateDeploymentStatus (deployment_id new_status : string)
| AddClientToDeployment (deployment_id : string) (client_info : dict scalar)
| RemoveDeployment (deployment_id : string).

(** The tracker after a call made at [now]; a call that raises leaves
    it as it was. *)
Definition run_call (c : call) (now : DateTime.t) (tr : t) : t :=
  match c with
  | AddDeployment deployment_id prov reg res conf =>
      match add_deployment deployment_id prov reg res conf now tr with
      | Return (_, tr') => tr'
      | Raise _ => tr
      end
  | UpdateDeploymentStatus deployment_id new_status =>
      snd (update_deployment_status deployment_id new_status now tr)
  | AddClientToDeployment deployment_id client_info =>
      snd (add_client_to_deployment deployment_id client_info now tr)
  | RemoveDeployment deployment_id => snd (remove_deployment deployment_id now tr)
  end.

(** A tracker on empty state files *)
Definition empty_disk : disk := mk_disk Absent Absent Absent.

(** A sequence of calls, each made at its own time *)
Definition run_calls (cs : list (call * DateTime.t)) (tr : t) : t :=
  fold_left (fun tr' c => run_call (fst c) (snd c) tr') cs tr.

End DeploymentTracker.

(* ================================================================== *)
(** ** Resource Discovery Bridge (src/lib/cloud_discovery.py) *)

Module CloudDiscovery.
Import Py.

(** A discovered resource, as the [discover_*_deployments] methods build
    it: ["provider"] and ["region"] are always set; [fields] holds the
    other keys that the import reads. *)
Record discovered : Type := mk_discovered {
  d_provider : string;
  d_region : string;
  fields : dict scalar
}.

(** The test of the [for existing_dep in existing] loop *)
Definition same_resource (prov : string) (existing_dep : DeploymentTracker.deployment)
    (dep : discovered) : bool :=
  let res := DeploymentTracker.resources existing_dep in
  if (prov =? "aws")%string &&
     eqb (get_or_none "instance_id" res) (get_or_none "instance_id" (fields dep))
  then true
  else if (prov =? "azure")%string &&
          eqb (get_or_none "vm_name" res) (get_or_none "vm_name" (fields dep))
  then true
  else if str_in prov ["digitalocean"; "hetzner"] &&
          eqb (get_or_none "instance_name" res)
              (get_or_none "instance_name" (fields dep))
  then true
  else false.

(** [exists] after the loop with its [break] *)
Fixpoint already_tracked (prov : string) (existing : list DeploymentTracker.deployment)
    (dep : discovered) : bool :=
  match existing with
  | [] => false
  | existing_dep :: rest =>
      if same_resource prov existing_dep dep then true
      else already_tracked prov rest dep
  end.

(** [s.split("T")[0]] *)
Fixpoint before_T (s : string) : string :=
  match s with
  | EmptyString => EmptyString
  | String c rest => if (c =? "T")%char then EmptyString else String c (before_T rest)
  end.

(** [s.replace("-", "")] *)
Fixpoint drop_dashes (s : string) : string :=
  match s with
  | EmptyString => EmptyString
  | String c rest =>
      if (c =? "-")%char then drop_dashes rest else String c (drop_dashes rest)
  end.

Definition _generate_deployment_id (dep : discovered) : outcome string :=
  let prov := d_provider dep in
  let reg := d_region dep in
  let uid := match get "deployment_uid" (fields dep) with
             | Some v => v
             | None => SStr ""
             end in
  if truthy uid then Return (prov ++ "-" ++ reg ++ "-" ++ str uid)
  else
    let timestamp :=
      match get "created_at" (fields dep) with
      | Some v => v
      | None => match get "discovered_at" (fields dep) with
                | Some v => v
                | None => SStr ""
                end
      end in
    if truthy timestamp then
      match timestamp with
      | SStr s =>
          Return (prov ++ "-" ++ reg ++ "-" ++ drop_dashes (before_T s) ++ "-discovered")
      | _ => Raise AttributeError
      end
    else Return (prov ++ "-" ++ reg ++ "-discovered").

(** The [resources] dictionary of an imported record *)
Definition import_resources (prov : string) (dep : discovered) : outcome (dict scalar) :=
  let res := [("public_ip", get_or_none "public_ip" (fields dep));
              ("discovered", SBool true)] in
  if (prov =? "aws")%string then
    instance_id <- item "instance_id" (fields dep) ;;
    Return (set "instance_id" instance_id res)
  else if (prov =? "azure")%string then
    vm_name <- item "vm_name" (fields dep) ;;
    resource_group <- item "resource_group" (fields dep) ;;
    Return (set "resource_group" resource_group (set "vm_name" vm_name res))
  else if str_in prov ["digitalocean"; "hetzner"] then
    instance_name <- item "instance_name" (fields dep) ;;
    instance_id <- item "instance_id" (fields dep) ;;
    Return (set "instance_id" instance_id (set "instance_name" instance_name res))
  else Return res.

(** The body of the inner loop: the tracker after it and whether the
    resource was imported. *)
Definition import_one (prov : string) (dep : discovered) (now : DateTime.t)
    (tr : DeploymentTracker.t) : outcome (DeploymentTracker.t * bool) :=
  let existing :=
    DeploymentTracker.get_deployments_by_region (d_provider dep) (d_region dep) tr in
  if already_tracked prov existing dep then Return (tr, false)
  else
    deployment_id <- _generate_deployment_id dep ;;
    res <- import_resources prov dep ;;
    let conf := [("instance_type", get_or_none "instance_type" (fields dep));
                 ("deployment_uid", get_or_none "deployment_uid" (fields dep))] in
    r <- DeploymentTracker.add_deployment deployment_id (d_provider dep)
           (d_region dep) res (Some conf) now tr ;;
    Return (snd r, true).

(** The state of the two loops; [raised] is set when an exception left
    them for the [except Exception] handler. *)
Record loop_state : Type := mk_loop {
  tracker : DeploymentTracker.t;
  imported_count : Z;
  raised : bool
}.

Fixpoint import_list (prov : string) (l : list discovered) (now : DateTime.t)
    (st : loop_state) : loop_state :=
  match l with
  | [] => st
  | dep :: rest =>
      if raised st then st
      else
        match import_one prov dep now (tracker st) with
        | Raise _ => mk_loop (tracker st) (imported_count st) true
        | Return (tr, imported) =>
            import_list prov rest now
              (mk_loop tr (if imported then imported_count st + 1
                           else imported_count st) false)
        end
  end.

Fixpoint import_all (ds : dict (list discovered)) (now : DateTime.t)
    (st : loop_state) : loop_state :=
  match ds with
  | [] => st
  | (prov, provider_deployments) :: rest =>
      if raised st then st
      else import_all rest now (import_list prov provider_deployments now st)
  end.

(** [import_discovered_deployments] on the state files of [base_dir]:
    the imported count and the files afterwards. *)
Definition import_discovered_deployments (ds : dict (list discovered))
    (now : DateTime.t) (d : DeploymentTracker.disk) : Z * DeploymentTracker.disk :=
  match DeploymentTracker.init now d with
  | Raise _ => (0, d)
  | Return tr =>
      let st := import_all ds now (mk_loop tr 0 false) in
      (imported_count st, DeploymentTracker.disk_of (tracker st))
  end.

Definition known_provider (prov : string) : bool :=
  str_in prov ["aws"; "azure"; "digitalocean"; "hetzner"].

(** The natural key of a provider's resources, in the words of the
    specification: the instance id for AWS, the VM name for Azure, the
    instance name for DigitalOcean and Hetzner. *)
Definition natural_key (prov : string) : option string :=
  if (prov =? "aws")%string then Some "instance_id"
  else if (prov =? "azure")%string then Some "vm_name"
  else if (prov =? "digitalocean")%string || (prov =? "hetzner")%string
  then Some "instance_name"
  else None.

(** An entry of the Ledger matches a discovered resource on the natural
    key of the provider. *)
Definition matches_natural_key (prov : string)
    (existing_dep : DeploymentTracker.deployment) (dep : discovered) : bool :=
  match natural_key prov with
  | Some key => eqb (get_or_none key (DeploymentTracker.resources existing_dep))
                    (get_or_none key (fields dep))
  | None => false
  end.

(** The resource is found in the Ledger [tr]. *)
Definition covered (prov : string) (dep : discovered) (tr : DeploymentTracker.t)
    : bool :=
  already_tracked prov
    (DeploymentTracker.get_deployments_by_region (d_provider dep) (d_region dep) tr)
    dep.

(** What the four [discover_*_deployments] methods return when they are
    called, by provider: each of them catches the errors of its cloud
    tool and returns a list. *)
Definition cloud : Type := string -> list discovered.

(** [if found: discoveries[prov] = found] *)
Definition add_found (prov : string) (found : list discovered)
    (discoveries : dict (list discovered)) : dict (list discovered) :=
  match found with
  | [] => discoveries
  | _ => set prov found discoveries
  end.

Definition discover_all_deployments (c : cloud) : dict (list discovered) :=
  let discoveries := add_found "aws" (c "aws") [] in
  let discoveries := add_found "azure" (c "azure") discoveries in
  let discoveries := add_found "digitalocean" (c "digitalocean") discoveries in
  add_found "hetzner" (c "hetzner") discoveries.

(** The dictionary that [sync_with_cloud] returns *)
Record sync_results : Type := mk_results {
  results_discovered : Z;
  results_imported : Z;
  results_already_known : Z;
  results_deployments : dict (list discovered)
}.

(** [for provider_deps in all_deployments.values():
       results["discovered"] += len(provider_deps)] *)
Definition count_discovered (ds : dict (list discovered)) : Z :=
  fold_left (fun n provider_deps => n + Z.of_nat (length provider_deps)) (values ds) 0.

(** [sync_with_cloud] on the state files of [base_dir]: the results and
    the files afterwards. *)
Definition sync_with_cloud (provider : option string) (c : cloud)
    (now : DateTime.t) (d : DeploymentTracker.disk)
    : outcome (sync_results * DeploymentTracker.disk) :=
  let sync_all :=
    let all_deployments := discover_all_deployments c in
    let discovered := count_discovered all_deployments in
    let '(imported, d') := import_discovered_deployments all_deployments now d in
    Return (mk_results discovered imported (discovered - imported) all_deployments, d') in
  match provider with
  | None => sync_all
  | Some prov =>
      if (prov =? "")%string then sync_all
      else if (prov =? "aws")%string || (prov =? "azure")%string ||
              (prov =? "digitalocean")%string || (prov =? "hetzner")%string
      then
        let deployments := c prov in
        let discovered := Z.of_nat (length deployments) in
        let '(imported, d') :=
          import_discovered_deployments [(prov, deployments)] now d in
        Return (mk_results discovered imported (discovered - imported)
                  [(prov, deployments)], d')
      else Raise ValueError
  end.

End CloudDiscovery.

(* ================================================================== *)
(** ** Provisioning State Machine (src/proxygen.py) *)

Module ProxyGen.
Import Py.

Set Warnings "-register-all".

(** What [json.loads] gives. *)
Inductive json : Type :=
| JNull
| JBool (b : bool)
| JInt (z : Z)
| JFloat (q : Q)
| JStr (s : string)
| JArr (l : list json)
| JObj (d : list (string * json)).

(** [bool(v)] *)
Definition json_truthy (v : json) : bool :=
  match v with
  | JNull => false
  | JBool b => b
  | JInt z => negb (z =? 0)
  | JFloat q => negb (Qeq_bool q 0)
  | JStr s => negb (s =? "")%string
  | JArr l => negb (DeploymentTracker.is_empty l)
  | JObj d => negb (DeploymentTracker.is_empty d)
  end.

(** What [_validate_terraform_deployment] observes of the outside: the
    state file ([None]: it does not exist; otherwise its size), the
    [terraform init] run, and the [terraform output -json] run with its
    return code and its standard output as [json.loads] reads it. *)
Record tf_probe : Type := mk_probe {
  state_file_size : option Z;
  init_run : outcome unit;
  output_run : outcome (Z * content json)
}.

Definition required_outputs : list string := ["public_ip"; "private_key_path"].

(** The two tests on one required output. [.get] on a value that is no
    object raises [AttributeError]. *)
Definition output_present (outputs : dict json) (output : string) : outcome bool :=
  match get output outputs with
  | None => Return false
  | Some (JObj o) =>
      Return (json_truthy (match get "value" o with Some v => v | None => JNull end))
  | Some _ => Raise AttributeError
  end.

(** [for output in required_outputs] *)
Fixpoint check_outputs (required : list string) (outputs : dict json) : outcome bool :=
  match required with
  | [] => Return true
  | output :: rest =>
      ok <- output_present outputs output ;;
      if ok then check_outputs rest outputs else Return false
  end.

Definition validate_body (p : tf_probe) : outcome bool :=
  match state_file_size p with
  | None => Return false
  | Some size =>
      if size <? 1024 then Return false
      else
        _ <- init_run p ;;
        result <- output_run p ;;
        if negb (fst result =? 0) then Return false
        else
          match snd result with
          | Invalid => Return false
          | Valid (JObj outputs) => check_outputs required_outputs outputs
          | Valid _ =>
              (* not an object: [output not in outputs] holds and the
                 function returns False, or the test or the indexing
                 raises [TypeError] *)
              Raise TypeError
          end
  end.

(** [_validate_terraform_deployment]: [except Exception] returns False. *)
Definition _validate_terraform_deployment (p : tf_probe) : bool :=
  match validate_body p with
  | Return b => b
  | Raise _ => false
  end.

(** A required output is present with a value that is not empty. *)
Definition present_non_empty (outputs : dict json) (output : string) : Prop :=
  exists o v,
    get output outputs = Some (JObj o) /\ get "value" o = Some v /\
    json_truthy v = true.

(** The probe [p] with [outputs] as the object that
    [terraform output -json] prints *)
Definition with_outputs (outputs : dict json) (p : tf_probe) : tf_probe :=
  mk_probe (state_file_size p) (init_run p) (Return (0, Valid (JObj outputs))).

Inductive tf_cmd : Type := Init | Plan | Apply.

(** The ["value"] of the three outputs that [get_terraform_output]
    reads; an output that is missing reads as [None]. *)
Record tf_outputs : Type := mk_outputs {
  out_public_ip : scalar;
  out_private_key_path : scalar;
  out_instance_id : scalar
}.

(** What one region's provisioning meets outside the program. *)
Record region_run : Type := mk_run {
  preflight : outcome bool;
    (* the part of [run_terraform] before its commands: the validators
       and the directory test raise, a missing API token returns False *)
  init_cmd : outcome unit;
  plan_cmd : outcome unit;
  apply_cmd : outcome unit;
  probe : tf_probe;
  terraform_output : outcome tf_outputs;
    (* [get_terraform_output]: it raises, or returns the three values *)
  configure_run : outcome bool;
    (* [configure_wireguard] after its test of the public IP *)
  tracked_at : DateTime.t
}.

Inductive event : Type :=
| EvRunTerraform (i : nat) (region : string)
| EvCommand (c : tf_cmd) (region : string)
| EvCleanup (target : string)
| EvOutput (region : string)
| EvConfigure (region : string)
| EvTrack (deployment_id : string).

Definition cmd_run (w : region_run) (c : tf_cmd) : outcome unit :=
  match c with
  | Init => init_cmd w
  | Plan => plan_cmd w
  | Apply => apply_cmd w
  end.

Definition is_plan (c : tf_cmd) : bool := match c with Plan => true | _ => false end.
Definition is_apply (c : tf_cmd) : bool := match c with Apply => true | _ => false end.

Definition commands (dry_run : bool) : list tf_cmd :=
  if dry_run then [Init; Plan] else [Init; Plan; Apply].

(** [for cmd in commands]: a failed command, or a failed validation
    after apply, cleans up and raises [TerraformError]. *)
Fixpoint run_commands (cmds : list tf_cmd) (dry_run : bool)
    (prov reg uid : string) (w : region_run) : outcome unit * list event :=
  match cmds with
  | [] => (Return tt, [])
  | c :: rest =>
      if negb dry_run || is_plan c then
        let target := prov ++ "-" ++ reg ++ "-" ++ uid in
        match cmd_run w c with
        | Raise _ => (Raise TerraformError, [EvCommand c reg; EvCleanup target])
        | Return _ =>
            if is_apply c && negb dry_run &&
               negb (_validate_terraform_deployment (probe w))
            then (Raise TerraformError, [EvCommand c reg; EvCleanup target])
            else
              let '(r, evs) := run_commands rest dry_run prov reg uid w in
              (r, EvCommand c reg :: evs)
        end
      else run_commands rest dry_run prov reg uid w
  end.

(** The wrapper of [@validate_input]: an exception that is no
    [ValidationError] is raised again as one. *)
Definition validate_input {A : Type} (r : outcome A) : outcome A :=
  match r with
  | Raise ValidationError => Raise ValidationError
  | Raise _ => Raise ValidationError
  | Return a => Return a
  end.

(** [run_terraform(provider, region, "apply", dry_run, instance_type,
    deployment_uid)], called for the [i]-th region of a deploy *)
Definition run_terraform (i : nat) (prov reg : string) (dry_run : bool)
    (uid : string) (w : region_run) : outcome bool * list event :=
  match preflight w with
  | Raise e => (validate_input (Raise e), [EvRunTerraform i reg])
  | Return false => (Return false, [EvRunTerraform i reg])
  | Return true =>
      let '(r, evs) := run_commands (commands dry_run) dry_run prov reg uid w in
      (validate_input (_ <- r ;; Return true), EvRunTerraform i reg :: evs)
  end.

(** The dictionary that [get_terraform_output] returns *)
Definition get_terraform_output (w : region_run) : outcome (dict scalar) :=
  o <- terraform_output w ;;
  Return [("public_ip", out_public_ip o);
          ("private_key_path", out_private_key_path o);
          ("instance_id", out_instance_id o)].

(** [f"{provider}-{region}-{datetime.now().strftime('%Y%m%d-%H%M%S')}"] *)
Definition deploy_id (prov reg : string) (now : DateTime.t) : string :=
  prov ++ "-" ++ reg ++ "-" ++ DateTime.strftime_Ymd_HMS now.

(** [configure_wireguard] *)
Definition configure_wireguard (server_info : dict scalar) (w : region_run)
    : outcome bool :=
  if negb (truthy (get_or_none "public_ip" server_info))
  then Raise ConfigurationError
  else configure_run w.

Record config : Type := mk_config {
  config_regions : dict (list string);
    (* [self.config["regions"]]: provider -> region names *)
  wireguard_port : scalar;
  server_subnet : scalar
}.

Record env : Type := mk_env {
  user_response : string;   (* [input(...).lower().strip()] *)
  token_hex : string;       (* [secrets.token_hex(3)] *)
  runs : nat -> region_run  (* the run of the i-th region of the call *)
}.

Definition default_types : dict string :=
  [("aws", "t3.nano"); ("azure", "Standard_B1s");
   ("digitalocean", "s-1vcpu-1gb"); ("hetzner", "cx11")].

(** The regions that the first loop of step 3 accepts *)
Definition all_valid (valid_regions regions : list string) : bool :=
  forallb (fun r => str_in r valid_regions) regions.

(** What a call of [deploy] gives: its result, the tracker after it and
    the events of the call in order. *)
Definition deploy_result : Type := outcome bool * DeploymentTracker.t * list event.

(** [for i, region in enumerate(regions)], from index [i] on *)
Fixpoint deploy_regions (e : env) (cfg : config) (prov : string) (dry_run : bool)
    (instance_type uid : string) (i : nat) (regions : list string)
    (tr : DeploymentTracker.t) : deploy_result :=
  match regions with
  | [] => (Return true, tr, [])
  | reg :: rest =>
      let w := runs e i in
      let '(applied, evs1) := run_terraform i prov reg dry_run uid w in
      match applied with
      | Raise ex => (Raise ex, tr, evs1)
      | Return false => (Return false, tr, evs1)
      | Return true =>
          match get_terraform_output w with
          | Raise ex => (Raise ex, tr, evs1 ++ [EvOutput reg])%list
          | Return server_info =>
              let tracked := negb dry_run && negb (DeploymentTracker.is_empty server_info) in
              let evs2 := (evs1 ++ [EvOutput reg])%list in
              match (if tracked then configure_wireguard server_info w
                     else Return true) with
              | Raise ex => (Raise ex, tr, evs2 ++ [EvConfigure reg])%list
              | Return false => (Return false, tr, evs2 ++ [EvConfigure reg])%list
              | Return true =>
                  let evs3 := if tracked then (evs2 ++ [EvConfigure reg])%list else evs2 in
                  if tracked then
                    let deployment_id := deploy_id prov reg (tracked_at w) in
                    match DeploymentTracker.add_deployment deployment_id prov reg
                            server_info
                            (Some [("instance_type", SStr instance_type);
                                   ("wireguard_port", wireguard_port cfg);
                                   ("subnet", server_subnet cfg)])
                            (tracked_at w) tr with
                    | Raise ex => (Raise ex, tr, evs3)
                    | Return (_, tr') =>
                        let '(r, tr'', evs) :=
                          deploy_regions e cfg prov dry_run instance_type uid
                            (S i) rest tr' in
                        (r, tr'', evs3 ++ EvTrack deployment_id :: evs)%list
                    end
                  else
                    let '(r, tr'', evs) :=
                      deploy_regions e cfg prov dry_run instance_type uid
                        (S i) rest tr in
                    (r, tr'', evs3 ++ evs)%list
              end
          end
      end
  end.

(** Every [run_terraform] event of [evs] is the one of index [i] and
    region [reg]. *)
Definition only_apply_of (i : nat) (reg : string) (evs : list event) : Prop :=
  forall j r, In (EvRunTerraform j r) evs -> j = i /\ r = reg.

(** [deploy(provider, regions, dry_run, instance_type)] *)
Definition deploy (e : env) (cfg : config) (prov : string) (regions : list string)
    (dry_run : bool) (instance_type : option string)
    (tr : DeploymentTracker.t) : deploy_result :=
  if negb (str_in prov ["aws"; "azure"; "digitalocean"; "hetzner"])
  then (Return false, tr, [])
  else if str_in prov ["hetzner"; "digitalocean"] &&
          negb (str_in (user_response e) ["yes"; "y"])
  then (Return false, tr, [])
  else
    match item prov (config_regions cfg) with
    | Raise ex => (Raise ex, tr, [])
    | Return valid_regions =>
        if negb (all_valid valid_regions regions) then (Return false, tr, [])
        else
          match (match instance_type with
                 | Some i => Return i
                 | None => item prov default_types
                 end) with
          | Raise ex => (Raise ex, tr, [])
          | Return instance_type =>
              deploy_regions e cfg prov dry_run instance_type (token_hex e)
                0 regions tr
          end
    end.

(** The ids under which a call tracked deployments, in order *)
Definition tracked_ids (evs : list event) : list string :=
  flat_map (fun ev => match ev with EvTrack deployment_id => [deployment_id] | _ => [] end)
           evs.

(** What [destroy_by_id] meets outside the program. *)
Record destroy_env : Type := mk_destroy_env {
  confirmation : string;
    (* [input("Type 'yes' to confirm destruction: ").lower()] *)
  destroy_run : outcome bool;
    (* [run_terraform(provider, region, "destroy")] *)
  unlink_configs : outcome unit
    (* the loop that unlinks the files [configs/{provider}-{region}*] *)
}.

Inductive destroy_event : Type :=
| EvPrompt
| EvDestroy (prov region : string)
| EvUnlinkConfigs (prefix : string).

(** [destroy_by_id(deployment_id, force)] *)
Definition destroy_by_id (e : destroy_env) (deployment_id : string) (force : bool)
    (now : DateTime.t) (tr : DeploymentTracker.t)
    : outcome bool * DeploymentTracker.t * list destroy_event :=
  match DeploymentTracker.get_deployment deployment_id tr with
  | None => (Return false, tr, [])
  | Some deployment =>
      if negb (DeploymentTracker.status deployment =? "active")%string
      then (Return false, tr, [])
      else if negb force && negb (confirmation e =? "yes")%string
      then (Return false, tr, [EvPrompt])
      else
        let prov := DeploymentTracker.provider deployment in
        let reg := DeploymentTracker.region deployment in
        let evs := ((if force then [] else [EvPrompt]) ++ [EvDestroy prov reg])%list in
        match destroy_run e with
        | Raise ex => (Raise ex, tr, evs)
        | Return false => (Return false, tr, evs)
        | Return true =>
            let tr' := snd (DeploymentTracker.update_deployment_status deployment_id
                              "destroyed" now tr) in
            let evs' := (evs ++ [EvUnlinkConfigs (prov ++ "-" ++ reg)])%list in
            match unlink_configs e with
            | Raise ex => (Raise ex, tr', evs')
            | Return _ => (Return true, tr', evs')
            end
        end
  end.

End ProxyGen.

(* ================================================================== *)
(** ** Cost Model (src/lib/cost_estimator.py) *)

Module CostEstimator.
Import Py.

Record provider_pricing : Type := mk_pricing {
  instances : dict Q;   (* USD per hour *)
  bandwidth : dict Q;   (* USD per GB *)
  storage : dict Q;     (* USD per GB per month *)
  ip : Q;               (* USD per hour *)
  regions : dict Q      (* regional multiplier *)
}.

Definition pricing : dict provider_pricing :=
  [ ("aws",
     mk_pricing
       [ ("t3.micro", 0.0104); ("t3.small", 0.0208); ("t3.medium", 0.0416);
         ("t3.large", 0.0832); ("t3.xlarge", 0.1664); ("t4g.micro", 0.0084);
         ("t4g.small", 0.0168); ("t4g.medium", 0.0336) ]
       [ ("first_10tb", 0.09); ("next_40tb", 0.085); ("next_100tb", 0.07);
         ("over_150tb", 0.05) ]
       [ ("gp3", 0.08); ("gp2", 0.10) ]
       0.005
       [ ("us-east-1", 1.0); ("us-west-2", 1.0); ("eu-west-1", 1.1);
         ("eu-central-1", 1.15); ("ap-southeast-1", 1.2);
         ("ap-northeast-1", 1.25); ("sa-east-1", 1.4) ]);
    ("azure",
     mk_pricing
       [ ("Standard_B1s", 0.0104); ("Standard_B1ms", 0.0207);
         ("Standard_B2s", 0.0416); ("Standard_B2ms", 0.0832);
         ("Standard_B4ms", 0.1664); ("Standard_D2s_v5", 0.096);
         ("Standard_D4s_v5", 0.192) ]
       [ ("first_5gb", 0.0); ("next_10tb", 0.087); ("next_40tb", 0.083);
         ("next_100tb", 0.07); ("over_150tb", 0.05) ]
       [ ("standard_ssd", 0.12); ("premium_ssd", 0.20) ]
       0.004
       [ ("eastus", 1.0); ("westus2", 1.0); ("westeurope", 1.1);
         ("northeurope", 1.08); ("southeastasia", 1.15); ("japaneast", 1.25);
         ("brazilsouth", 1.35) ]);
    ("digitalocean",
     mk_pricing
       [ ("s-1vcpu-1gb", 0.00833); ("s-1vcpu-2gb", 0.01667);
         ("s-2vcpu-2gb", 0.02500); ("s-2vcpu-4gb", 0.03333);
         ("s-4vcpu-8gb", 0.06667); ("c-2", 0.04167); ("c-4", 0.08333) ]
       [ ("first_1000gb", 0.0); ("over_1000gb", 0.01) ]
       [ ("standard", 0.10) ]
       0.0
       [ ("nyc1", 1.0); ("nyc3", 1.0); ("sfo1", 1.0); ("sfo2", 1.0);
         ("sfo3", 1.0); ("ams2", 1.0); ("ams3", 1.0); ("sgp1", 1.0);
         ("lon1", 1.0); ("fra1", 1.0); ("tor1", 1.0); ("blr1", 1.0);
         ("syd1", 1.0) ]);
    ("hetzner",
     mk_pricing
       [ ("cx11", 0.00500); ("cx21", 0.00889); ("cx31", 0.01611);
         ("cx41", 0.03056); ("cx51", 0.05958); ("cpx11", 0.00639);
         ("cpx21", 0.01139); ("cpx31", 0.02083) ]
       [ ("first_20tb", 0.0); ("over_20tb", 0.001) ]
       [ ("standard", 0.05) ]
       0.0
       [ ("fsn1", 1.0); ("nbg1", 1.0); ("hel1", 1.0); ("ash", 1.1);
         ("hil", 1.1) ]) ]%Q.

(** [bandwidth_pricing[tier]] of a tier the table has *)
Definition tier (bandwidth_pricing : dict Q) (name : string) : Q :=
  match get name bandwidth_pricing with Some p => p | None => 0%Q end.

(** The tiers of [calculate_bandwidth_cost]; a provider other than the
    four leaves the cost at 0.0, and so does Azure above 51205 GB. *)
Definition bandwidth_tiers (prov : string) (bandwidth_pricing : dict Q)
    (bandwidth_gb : Q) : Q :=
  let t := tier bandwidth_pricing in
  (if (prov =? "aws")%string then
     if Qle_bool bandwidth_gb 10240 then bandwidth_gb * t "first_10tb"
     else if Qle_bool bandwidth_gb 51200 then
       10240 * t "first_10tb" + (bandwidth_gb - 10240) * t "next_40tb"
     else if Qle_bool bandwidth_gb 153600 then
       10240 * t "first_10tb" + 40960 * t "next_40tb"
       + (bandwidth_gb - 51200) * t "next_100tb"
     else
       10240 * t "first_10tb" + 40960 * t "next_40tb" + 102400 * t "next_100tb"
       + (bandwidth_gb - 153600) * t "over_150tb"
   else if (prov =? "azure")%string then
     if Qle_bool bandwidth_gb 5 then 0
     else if Qle_bool bandwidth_gb 10245 then (bandwidth_gb - 5) * t "next_10tb"
     else if Qle_bool bandwidth_gb 51205 then
       10240 * t "next_10tb" + (bandwidth_gb - 10245) * t "next_40tb"
     else 0
   else if (prov =? "digitalocean")%string then
     if Qle_bool bandwidth_gb 1000 then 0
     else (bandwidth_gb - 1000) * t "over_1000gb"
   else if (prov =? "hetzner")%string then
     if Qle_bool bandwidth_gb 20480 then 0
     else ((bandwidth_gb - 20480) / 1024) * 1000 * t "over_20tb"
   else 0)%Q.

(** [calculate_bandwidth_cost]: [self.pricing[provider]] raises
    [KeyError] for a provider that the table does not have. *)
Definition calculate_bandwidth_cost (prov : string) (bandwidth_gb : Q) : outcome Q :=
  pp <- item prov pricing ;;
  Return (bandwidth_tiers prov (bandwidth pp) bandwidth_gb).

Record breakdown : Type := mk_breakdown {
  b_instance : Q; b_ip_address : Q; b_bandwidth : Q; b_storage : Q
}.

Record estimate : Type := mk_estimate {
  e_provider : string;
  e_region : string;
  e_instance_type : string;
  e_breakdown : breakdown;
  total_monthly : Q;
  total_yearly : Q;
  e_currency : string;
  estimated_at : DateTime.t
}.

Definition round2 : Q -> Q := DeploymentTracker.round2.

(** [estimate_monthly_cost]; an unknown provider or instance type raises
    [ValueError]. *)
Definition estimate_monthly_cost (prov instance_type reg : string)
    (bandwidth_gb storage_gb hours_per_month : Q) (now : DateTime.t)
    : outcome estimate :=
  match get prov pricing with
  | None => Raise ValueError
  | Some pp =>
      match get instance_type (instances pp) with
      | None => Raise ValueError
      | Some instance_hourly =>
          let region_modifier :=
            match get reg (regions pp) with Some m => m | None => 1.0%Q end in
          let instance_hourly := (instance_hourly * region_modifier)%Q in
          let instance_cost := (instance_hourly * hours_per_month)%Q in
          let ip_cost := (ip pp * hours_per_month)%Q in
          bandwidth_cost <- calculate_bandwidth_cost prov bandwidth_gb ;;
          let storage_cost :=
            (match storage pp with
             | (_, price) :: _ => price
             | [] => 0
             end * storage_gb)%Q in
          let total_cost :=
            (instance_cost + ip_cost + bandwidth_cost + storage_cost)%Q in
          Return (mk_estimate prov reg instance_type
                    (mk_breakdown (round2 instance_cost) (round2 ip_cost)
                       (round2 bandwidth_cost) (round2 storage_cost))
                    (round2 total_cost) (round2 (total_cost * 12)) "USD" now)
      end
  end.

(** The instance types for which [estimate_monthly_cost] does not raise *)
Definition known_instance (prov instance_type : string) : bool :=
  match get prov pricing with
  | Some pp => mem instance_type (instances pp)
  | None => false
  end.

(** [l.sort(key=key)]: the sort of Python is stable, and the stable
    ascending order of a list is unique; it is computed here by insertion,
    an element going behind the elements whose key is not greater. With
    [reverse=True] the order is descending and still stable, which is
    the ascending order of the negated key. *)
Fixpoint insert_by {A : Type} (key : A -> Q) (x : A) (l : list A) : list A :=
  match l with
  | [] => [x]
  | y :: rest =>
      if Qle_bool (key y) (key x) then y :: insert_by key x rest
      else x :: y :: rest
  end.

Definition sort_by {A : Type} (key : A -> Q) (l : list A) : list A :=
  fold_left (fun sorted x => insert_by key x sorted) l [].

(** The order of a list sorted by [key] *)
Definition by_key {A : Type} (key : A -> Q) : A -> A -> Prop :=
  fun a b => (key a <= key b)%Q.



(** [self.pricing[provider]["instances"][i]] for a key [i] of the table *)
Definition instance_price (pp : provider_pricing) (i : string) : Q :=
  match get i (instances pp) with Some p => p | None => 0%Q end.

Definition Qlt_bool (x y : Q) : bool := negb (Qle_bool y x).

Definition get_smaller_instances (prov current : string) : outcome (list string) :=
  pp <- item prov pricing ;;
  let names := keys (instances pp) in
  current_price <- item current (instances pp) ;;
  let smaller := filter (fun i => Qlt_bool (instance_price pp i) current_price) names in
  Return (sort_by (fun i => - instance_price pp i)%Q smaller).

Definition get_larger_instances (prov current : string) : outcome (list string) :=
  pp <- item prov pricing ;;
  let names := keys (instances pp) in
  current_price <- item current (instances pp) ;;
  let larger := filter (fun i => Qlt_bool current_price (instance_price pp i)) names in
  Return (sort_by (instance_price pp) larger).

End CostEstimator.

(* ================================================================== *)
(** ** Patterns of identifiers *)

Module Pattern.

(** The regular expressions used for identifiers are sequences of
    literal characters and digit classes, matched against the whole
    string. *)
Inductive atom : Type :=
| Lit (c : ascii)
| Digit.

Definition is_digit (c : ascii) : bool :=
  ((48 <=? nat_of_ascii c) && (nat_of_ascii c <=? 57))%nat.

Definition is_hex (c : ascii) : bool :=
  is_digit c || ((97 <=? nat_of_ascii c) && (nat_of_ascii c <=? 102))%nat.

Definition atom_matches (a : atom) (c : ascii) : bool :=
  match a with
  | Lit c' => (c' =? c)%char
  | Digit => is_digit c
  end.

Fixpoint fullmatch (p : list atom) (s : string) : bool :=
  match p, s with
  | [], EmptyString => true
  | a :: p', String c s' => atom_matches a c && fullmatch p' s'
  | _, _ => false
  end.

Fixpoint lits (s : string) : list atom :=
  match s with
  | EmptyString => []
  | String c s' => Lit c :: lits s'
  end.

(** [^aws-us-east-1-\d{8}-\d{6}$] *)
Definition aws_us_east_1_id : list atom :=
  (lits "aws-us-east-1-" ++ repeat Digit 8 ++ [Lit "-"%char] ++ repeat Digit 6)%list.

Fixpoint all_hex (s : string) : bool :=
  match s with
  | EmptyString => true
  | String c s' => is_hex c && all_hex s'
  end.

(** A 6-hex-character token, as [secrets.token_hex(3)] gives *)
Definition is_uid (s : string) : bool :=
  (String.length s =? 6)%nat && all_hex s.

End Pattern.

(* ================================================================== *)
(** ** Concrete states and inputs *)

Module Sample.
Import Py.

Definition noon : DateTime.t := DateTime.mk 2024 1 15 12 0 0 0.
(** half a second after [noon] *)
Definition noon_and_a_half : DateTime.t := DateTime.mk 2024 1 15 12 0 0 500000.

(** An IP manager in whose registry the deployments [dep-10] ... [dep-209]
    hold the subnets [10.10.85.0/24] ... [10.209.85.0/24]. *)
Definition full_manager : IPManager.t :=
  let r := IPManager.mk_registry [] [] (IPManager.exhausted_subnets 85) noon in
  IPManager.mk r (Present (Valid r)).

(** The tracker that [DeploymentTracker(base_dir)] builds at [noon] on an
    empty state directory. *)
Definition fresh_tracker : DeploymentTracker.t :=
  DeploymentTracker.load_inventory noon Absent Absent
    (IPManager.save_ip_registry noon
       (IPManager.mk (IPManager.mk_registry [] [] [] noon) Absent)).

(** The arguments of the documented scenario *)
Definition scenario_resources : dict scalar := [("public_ip", SStr "1.2.3.4")].
Definition scenario_config : dict scalar := [("instance_type", SStr "t3.micro")].

(** A state file of 4 KB and the outputs of a finished apply, without
    [instance_id] *)
Definition outputs_without_instance_id : dict ProxyGen.json :=
  [("public_ip", ProxyGen.JObj [("value", ProxyGen.JStr "203.0.113.7")]);
   ("private_key_path",
    ProxyGen.JObj [("value", ProxyGen.JStr "state/aws-us-east-1-a1b2c3.pem")])].

Definition probe_without_instance_id : ProxyGen.tf_probe :=
  ProxyGen.mk_probe (Some 4096) (Return tt)
    (Return (0, Valid (ProxyGen.JObj outputs_without_instance_id))).

(** What the provisioning of a region meets when every step succeeds,
    tracked at [at_]; and the same with a failing [terraform apply]. *)
Definition good_run (ip_ : string) (at_ : DateTime.t) : ProxyGen.region_run :=
  ProxyGen.mk_run (Return true) (Return tt) (Return tt) (Return tt)
    probe_without_instance_id
    (Return (ProxyGen.mk_outputs (SStr ip_)
               (SStr "state/aws-a1b2c3.pem") (SStr "i-0abc")))
    (Return true) at_.

Definition failing_run (at_ : DateTime.t) : ProxyGen.region_run :=
  ProxyGen.mk_run (Return true) (Return tt) (Return tt) (Raise ProxyGenError)
    probe_without_instance_id (Raise TerraformError) (Return true) at_.

Definition aws_config : ProxyGen.config :=
  ProxyGen.mk_config [("aws", ["us-east-1"; "us-west-2"; "eu-west-1"])]
    (SInt 51820) (SStr "10.0.0.0/24").

(** The first region succeeds, the apply of the second fails. *)
Definition second_fails : ProxyGen.env :=
  ProxyGen.mk_env "" "a1b2c3"
    (fun i => match i with
              | O => good_run "203.0.113.7" noon
              | _ => failing_run noon_and_a_half
              end).

(** Every region succeeds, all within the second of [noon]. *)
Definition all_succeed : ProxyGen.env :=
  ProxyGen.mk_env "" "a1b2c3" (fun _ => good_run "203.0.113.7" noon).

(** The Ledger after the call of the concrete scenario at [noon] *)
Definition tracked : DeploymentTracker.t :=
  DeploymentTracker.run_call
    (DeploymentTracker.AddDeployment "" "aws" "us-east-1" scenario_resources
       (Some scenario_config))
    noon fresh_tracker.

Definition tracked_id : string := "aws-us-east-1-20240115-120000".

(** Forty days after [noon], and twenty *)
Definition forty_days_later : DateTime.t := DateTime.mk 2024 2 24 12 0 0 0.
Definition twenty_days_later : DateTime.t := DateTime.mk 2024 2 4 12 0 0 0.

(** Two discovered resources *)
Definition discovered_aws : CloudDiscovery.discovered :=
  CloudDiscovery.mk_discovered "aws" "us-east-1"
    [("instance_id", SStr "i-0abc"); ("instance_name", SStr "proxygen-us-east-1-a1b2c3-proxy");
     ("public_ip", SStr "203.0.113.7"); ("instance_type", SStr "t3.micro");
     ("deployment_uid", SStr "a1b2c3"); ("created_at", SStr "2024-01-15T11:00:00")].

Definition discovered_hetzner : CloudDiscovery.discovered :=
  CloudDiscovery.mk_discovered "hetzner" "fsn1"
    [("instance_name", SStr "proxygen-fsn1-d4e5f6"); ("instance_id", SStr "4711");
     ("public_ip", SNone); ("instance_type", SStr "cx11");
     ("deployment_uid", SStr "d4e5f6"); ("created_at", SStr "2024-01-15T11:30:00")].

Definition discoveries : dict (list CloudDiscovery.discovered) :=
  [("aws", [discovered_aws]); ("hetzner", [discovered_hetzner])].

(** An IP manager on an empty state directory, and the same after two
    registrations, the second of them released, all at [noon]. *)
Definition empty_manager : IPManager.t :=
  IPManager.save_ip_registry noon
    (IPManager.mk (IPManager.mk_registry [] [] [] noon) Absent).

Definition two_ips : IPManager.t :=
  IPManager.release_deployment_ip "dep-b" noon
    (IPManager.register_deployment_ip "dep-b" "aws" "us-west-2" (SStr "198.51.100.9") noon
       (IPManager.register_deployment_ip "dep-a" "aws" "us-east-1" (SStr "203.0.113.7")
          noon empty_manager)).

(** A cloud in which the two resources of [discoveries] are found *)
Definition cloud_of_two : CloudDiscovery.cloud :=
  fun prov =>
    if (prov =? "aws")%string then [discovered_aws]
    else if (prov =? "hetzner")%string then [discovered_hetzner]
    else [].

End Sample.

(* ================================================================== *)
(** * Properties *)

Import Py.

(** ** The model on concrete inputs *)

Example strftime_noon :
  DateTime.strftime_Ymd_HMS Sample.noon = "20240115-120000".
Proof. reflexivity. Qed.

Example minus_days_over_leap_day :
  DateTime.minus_days (DateTime.mk 2024 3 1 8 30 0 0) 1
  = Return (DateTime.mk 2024 2 29 8 30 0 0).
Proof. reflexivity. Qed.

Example minus_days_thirty :
  DateTime.minus_days Sample.forty_days_later 30
  = Return (DateTime.mk 2024 1 25 12 0 0 0).
Proof. reflexivity. Qed.

Example minus_days_out_of_range :
  DateTime.minus_days Sample.noon 1000000 = Raise OverflowError.
Proof. reflexivity. Qed.

Example subnet_of_timestamp :
  option_map fst
    (IPManager.generate_client_subnet 1 "d" 1700000000 Sample.noon
       (DeploymentTracker.ip_manager Sample.fresh_tracker))
  = Some "10.10.85.0/24".
Proof. reflexivity. Qed.

Example next_base_stride : IPManager.next_base 10 = 21 /\ IPManager.next_base 205 = 16.
Proof. split; reflexivity. Qed.

Example generated_id_with_uid :
  CloudDiscovery._generate_deployment_id Sample.discovered_aws
  = Return "aws-us-east-1-a1b2c3".
Proof. reflexivity. Qed.

Example generated_id_without_uid :
  CloudDiscovery._generate_deployment_id
    (CloudDiscovery.mk_discovered "azure" "westeurope"
       [("vm_name", SStr "proxygen-vm"); ("deployment_uid", SStr "");
        ("created_at", SStr "2024-01-15T11:00:00+00:00")])
  = Return "azure-westeurope-20240115-discovered".
Proof. reflexivity. Qed.

Example estimate_aws_default :
  exists e,
    CostEstimator.estimate_monthly_cost "aws" "t3.micro" "us-east-1" 100 20 730
      Sample.noon = Return e
    /\ (CostEstimator.total_monthly e == 21.84)%Q
    /\ (CostEstimator.b_bandwidth (CostEstimator.e_breakdown e) == 9.00)%Q.
Proof. eexists. split; [vm_compute; reflexivity|]. split; vm_compute; reflexivity. Qed.

Example estimate_unknown_instance :
  CostEstimator.estimate_monthly_cost "aws" "m5.large" "us-east-1" 100 20 730
    Sample.noon = Raise ValueError.
Proof. reflexivity. Qed.

Example azure_bandwidth_above_tiers :
  CostEstimator.calculate_bandwidth_cost "azure" 60000 = Return 0%Q.
Proof. reflexivity. Qed.

Example round2_ties_to_even :
  (DeploymentTracker.round2 0.125 == 0.12)%Q /\ (DeploymentTracker.round2 0.375 == 0.38)%Q.
Proof. split; vm_compute; reflexivity. Qed.

Example fresh_tracker_is_init :
  DeploymentTracker.init Sample.noon DeploymentTracker.empty_disk
  = Return Sample.fresh_tracker.
Proof. reflexivity. Qed.

(** ** Dictionaries *)

Lemma get_set_same {V : Type} (k : string) (v : V) (d : dict V) :
  get k (set k v d) = Some v.
Proof.
  induction d as [|[k' v'] d IH]; simpl.
  - now rewrite String.eqb_refl.
  - destruct (k' =? k)%string eqn:E; simpl; rewrite E; auto.
Qed.

Lemma get_set_other {V : Type} (k k' : string) (v : V) (d : dict V) :
  k <> k' -> get k' (set k v d) = get k' d.
Proof.
  intros Hne. induction d as [|[k0 v0] d IH]; simpl.
  - destruct (k =? k')%string eqn:E; auto.
    apply String.eqb_eq in E. contradiction.
  - destruct (k0 =? k)%string eqn:E; simpl.
    + apply String.eqb_eq in E. subst k0.
      destruct (k =? k')%string eqn:E'; auto.
      apply String.eqb_eq in E'. contradiction.
    + destruct (k0 =? k')%string; auto.
Qed.

Lemma str_in_true (s : string) (l : list string) :
  str_in s l = true <-> In s l.
Proof.
  unfold str_in. rewrite existsb_exists. split.
  - intros [x [Hin Heq]]. apply String.eqb_eq in Heq. now subst.
  - intros Hin. exists s. split; auto. apply String.eqb_refl.
Qed.

(** ** IP Allocator: the subnet probe *)

Section Probe.
Variable used : list string.
Variable subnet_second : Z.

Lemma next_base_in_range (b : Z) : IPManager.in_range (IPManager.next_base b).
Proof.
  unfold IPManager.in_range, IPManager.next_base.
  pose proof (Z.mod_pos_bound (b + 1) 200). lia.
Qed.

(** When every subnet of the range is assigned, the loop condition holds
    at every iteration: no amount of fuel ends the loop. *)
Lemma probe_exhausted :
  (forall b, IPManager.in_range b ->
             str_in (IPManager.subnet_str b subnet_second) used = true) ->
  forall fuel b, IPManager.in_range b ->
                 IPManager.probe fuel used b subnet_second = None.
Proof.
  intros Hall fuel. induction fuel as [|fuel IH]; intros b Hb; simpl.
  - reflexivity.
  - rewrite (Hall b Hb). apply IH, next_base_in_range.
Qed.

Lemma base_after_closed (i : nat) (b : Z) :
  IPManager.in_range b -> IPManager.base_after i b = (b - 10 + 11 * Z.of_nat i) mod 200 + 10.
Proof.
  revert b. induction i as [|i IH]; intros b Hb.
  - simpl. unfold IPManager.in_range in Hb. rewrite Z.add_0_r, Z.mod_small; lia.
  - cbn [IPManager.base_after]. rewrite IH by apply next_base_in_range.
    unfold IPManager.next_base. f_equal.
    replace ((b + 1) mod 200 + 10 - 10 + 11 * Z.of_nat i)
      with ((b + 1) mod 200 + 11 * Z.of_nat i) by lia.
    rewrite Zplus_mod_idemp_l. f_equal. lia.
Qed.

(** The loop returns the first candidate that is not assigned. *)
Lemma probe_first_free (i : nat) :
  forall b fuel,
    (forall j, (j < i)%nat ->
       str_in (IPManager.subnet_str (IPManager.base_after j b) subnet_second) used = true) ->
    str_in (IPManager.subnet_str (IPManager.base_after i b) subnet_second) used = false ->
    (i < fuel)%nat ->
    IPManager.probe fuel used b subnet_second
    = Some (IPManager.subnet_str (IPManager.base_after i b) subnet_second).
Proof.
  induction i as [|i IH]; intros b fuel Hbefore Hfree Hfuel.
  - destruct fuel; [lia|]. simpl in *. now rewrite Hfree.
  - destruct fuel; [lia|]. simpl.
    pose proof (Hbefore O ltac:(lia)) as H0. simpl in H0. rewrite H0.
    simpl in Hfree.
    apply IH; auto; try lia.
    intros j Hj. apply (Hbefore (S j)). lia.
Qed.

(** Every base of the range is reached within 200 iterations. *)
Lemma base_reached (b target : Z) :
  IPManager.in_range b -> IPManager.in_range target ->
  exists i, (i < 200)%nat /\ IPManager.base_after i b = target.
Proof.
  intros Hb Ht. unfold IPManager.in_range in *.
  exists (Z.to_nat ((91 * (target - b)) mod 200)).
  pose proof (Z.mod_pos_bound (91 * (target - b)) 200 ltac:(lia)) as Hm.
  split; [lia|].
  rewrite base_after_closed by exact Hb.
  rewrite Z2Nat.id by lia.
  rewrite Zplus_mod, Zmult_mod, Zmod_mod, <- Zmult_mod, <- Zplus_mod.
  replace (b - 10 + 11 * (91 * (target - b)))
    with ((target - 10) + (5 * (target - b)) * 200) by lia.
  rewrite Z_mod_plus_full, Z.mod_small; lia.
Qed.

(** With one subnet of the range free, the loop ends within 200
    iterations with a subnet that is not assigned. *)
Lemma probe_terminates (b : Z) :
  IPManager.in_range b ->
  (exists target, IPManager.in_range target /\
     str_in (IPManager.subnet_str target subnet_second) used = false) ->
  exists subnet,
    IPManager.probe 200 used b subnet_second = Some subnet /\
    str_in subnet used = false.
Proof.
  intros Hb [target [Ht Hfree]].
  destruct (base_reached b target Hb Ht) as [i [Hi Hreach]].
  (* the least index whose candidate is free *)
  assert (Hleast : forall n, (n <= 200)%nat ->
            (forall j, (j < n)%nat ->
               str_in (IPManager.subnet_str (IPManager.base_after j b) subnet_second) used
               = true) \/
            exists k, (k < n)%nat /\
              (forall j, (j < k)%nat ->
                 str_in (IPManager.subnet_str (IPManager.base_after j b) subnet_second) used
                 = true) /\
              str_in (IPManager.subnet_str (IPManager.base_after k b) subnet_second) used
              = false).
  { induction n as [|n IHn]; intros Hn.
    - left. intros j Hj. lia.
    - destruct IHn as [Hall | [k [Hk [Hbef Hk']]]]; [lia| |].
      + destruct (str_in (IPManager.subnet_str (IPManager.base_after n b) subnet_second) used)
          eqn:E.
        * left. intros j Hj. destruct (Nat.eq_dec j n); [now subst|].
          apply Hall. lia.
        * right. exists n. repeat split; auto.
      + right. exists k. repeat split; auto. }
  destruct (Hleast 200%nat (Nat.le_refl _)) as [Hall | [k [Hk [Hbef Hk']]]].
  - rewrite <- Hreach in Hfree. rewrite (Hall i Hi) in Hfree. discriminate.
  - exists (IPManager.subnet_str (IPManager.base_after k b) subnet_second). split; auto.
    apply probe_first_free; auto.
Qed.

End Probe.

Lemma timestamp_base_in_range (timestamp : Z) : IPManager.in_range (timestamp mod 200 + 10).
Proof.
  unfold IPManager.in_range. pose proof (Z.mod_pos_bound timestamp 200). lia.
Qed.

Lemma exhausted_subnets_full (subnet_second b : Z) :
  IPManager.in_range b ->
  str_in (IPManager.subnet_str b subnet_second)
         (values (IPManager.exhausted_subnets subnet_second)) = true.
Proof.
  intros Hb. unfold IPManager.in_range in Hb. apply str_in_true.
  unfold values, IPManager.exhausted_subnets. rewrite map_map.
  apply in_map_iff. exists (Z.to_nat (b - 10)). split.
  - cbv beta zeta. cbn [snd]. f_equal. lia.
  - apply in_seq. lia.
Qed.

(** X1: A free subnet of the probed range is found, whatever else the registry
    holds. *)
Lemma generate_client_subnet_returns (dep_id : string) (timestamp : Z)
    (now : DateTime.t) (m : IPManager.t) :
  (exists target, IPManager.in_range target /\
     str_in (IPManager.subnet_str target ((timestamp / 200) mod 255))
            (values (IPManager.client_subnets (IPManager.registry m))) = false) ->
  exists subnet m',
    IPManager.generate_client_subnet 200 dep_id timestamp now m = Some (subnet, m') /\
    str_in subnet (values (IPManager.client_subnets (IPManager.registry m))) = false /\
    get dep_id (IPManager.client_subnets (IPManager.registry m')) = Some subnet.
Proof.
  intros Hfree.
  destruct (probe_terminates _ _ _ (timestamp_base_in_range timestamp) Hfree)
    as [subnet [Hp Hs]].
  unfold IPManager.generate_client_subnet. rewrite Hp.
  eexists. eexists. split; [reflexivity|]. split; auto.
  simpl. apply get_set_same.
Qed.

Lemma generate_client_subnet_returns_witness :
  exists subnet m',
    IPManager.generate_client_subnet 200 "aws-us-east-1-20240115-120000" 1700000000
      Sample.noon (DeploymentTracker.ip_manager Sample.fresh_tracker)
    = Some (subnet, m') /\
    str_in subnet
      (values (IPManager.client_subnets
                 (IPManager.registry (DeploymentTracker.ip_manager Sample.fresh_tracker))))
    = false /\
    get "aws-us-east-1-20240115-120000"
        (IPManager.client_subnets (IPManager.registry m')) = Some subnet.
Proof.
  apply generate_client_subnet_returns.
  exists 10. split; [unfold IPManager.in_range; lia | reflexivity].
Defined.

(** With the 200 subnets of the probed range assigned, the loop of
    [generate_client_subnet] has no exit. *)
Lemma generate_client_subnet_loops (dep_id : string) (timestamp : Z)
    (now : DateTime.t) (m : IPManager.t) :
  (forall b, IPManager.in_range b ->
     str_in (IPManager.subnet_str b ((timestamp / 200) mod 255))
            (values (IPManager.client_subnets (IPManager.registry m))) = true) ->
  forall fuel, IPManager.generate_client_subnet fuel dep_id timestamp now m = None.
Proof.
  intros Hall fuel. unfold IPManager.generate_client_subnet.
  rewrite probe_exhausted; auto. apply timestamp_base_in_range.
Qed.

(** C3 (the code departs from it): at the registry [Sample.full_manager],
    where the subnets [10.10.85.0/24] to [10.209.85.0/24] are assigned,
    and the timestamp 1700000000, whose third octet is 85,
    [generate_client_subnet] never returns: the loop runs out of any
    amount of fuel. *)
Theorem generate_client_subnet_exhausted_never_returns :
  forall fuel,
    IPManager.generate_client_subnet fuel "aws-us-east-1-20240115-120000"
      1700000000 Sample.noon Sample.full_manager = None.
Proof.
  apply generate_client_subnet_loops.
  intros b Hb. change ((1700000000 / 200) mod 255) with 85.
  apply (exhausted_subnets_full 85 b Hb).
Qed.

(** ** Strings *)

Lemma length_append (a b : string) :
  String.length (a ++ b) = (String.length a + String.length b)%nat.
Proof. induction a; simpl; auto. Qed.

Lemma append_assoc (a b c : string) : ((a ++ b) ++ c = a ++ (b ++ c))%string.
Proof. induction a; simpl; auto. now rewrite IHa. Qed.

(** Two concatenations with suffixes of the same length agree part by
    part. *)
Lemma append_inj_suffix (a b s t : string) :
  String.length s = String.length t -> (a ++ s = b ++ t)%string -> a = b /\ s = t.
Proof.
  revert b. induction a as [|c a IH]; intros [|c' b] Hlen Heq; simpl in *.
  - auto.
  - subst s. simpl in Hlen. rewrite length_append in Hlen. lia.
  - subst t. simpl in Hlen. rewrite length_append in Hlen. lia.
  - injection Heq as Hc Hrest. subst c'.
    destruct (IH b Hlen Hrest) as [-> ->]. auto.
Qed.

Lemma append_inj_prefix (a s t : string) : (a ++ s = a ++ t)%string -> s = t.
Proof. induction a; simpl; intros H; auto. injection H as H. auto. Qed.

(** ** Timestamps in identifiers *)

Lemma digit_is_digit (n : Z) : Pattern.is_digit (DateTime.digit n) = true.
Proof.
  unfold Pattern.is_digit, DateTime.digit.
  pose proof (Z.mod_pos_bound n 10 ltac:(lia)) as Hm.
  rewrite nat_ascii_embedding by lia.
  apply andb_true_iff. split; apply Nat.leb_le; lia.
Qed.

Lemma digit_inj (a b : Z) :
  DateTime.digit a = DateTime.digit b -> a mod 10 = b mod 10.
Proof.
  unfold DateTime.digit. intros H.
  pose proof (Z.mod_pos_bound a 10 ltac:(lia)).
  pose proof (Z.mod_pos_bound b 10 ltac:(lia)).
  apply (f_equal nat_of_ascii) in H.
  rewrite !nat_ascii_embedding in H by lia. lia.
Qed.

Lemma pad2_inj (a b : Z) :
  0 <= a <= 99 -> 0 <= b <= 99 -> DateTime.pad2 a = DateTime.pad2 b -> a = b.
Proof.
  unfold DateTime.pad2. intros Ha Hb H. injection H as H1 H0.
  apply digit_inj in H1. apply digit_inj in H0.
  rewrite (Z.mod_small (a / 10)) in H1
    by (split; [apply Z.div_pos; lia | apply Z.div_lt_upper_bound; lia]).
  rewrite (Z.mod_small (b / 10)) in H1
    by (split; [apply Z.div_pos; lia | apply Z.div_lt_upper_bound; lia]).
  rewrite (Z.div_mod a 10), (Z.div_mod b 10) by lia. lia.
Qed.

Lemma pad4_inj (a b : Z) :
  0 <= a <= 9999 -> 0 <= b <= 9999 -> DateTime.pad4 a = DateTime.pad4 b -> a = b.
Proof.
  unfold DateTime.pad4, DateTime.pad2. intros Ha Hb H.
  injection H as H3 H2 H1 H0.
  apply digit_inj in H3, H2, H1, H0.
  assert (Hq : forall x, 0 <= x <= 9999 ->
             x = 1000 * ((x / 1000) mod 10) + 100 * ((x / 100) mod 10)
                 + 10 * ((x / 10) mod 10) + x mod 10).
  { intros x Hx.
    pose proof (Z.div_mod x 10 ltac:(lia)).
    pose proof (Z.div_mod (x / 10) 10 ltac:(lia)).
    pose proof (Z.div_mod (x / 10 / 10) 10 ltac:(lia)).
    rewrite Z.div_div in * by lia.
    change (10 * 10) with 100 in *.
    rewrite (Z.mod_small (x / 1000))
      by (split; [apply Z.div_pos; lia | apply Z.div_lt_upper_bound; lia]).
    assert (x / 100 / 10 = x / 1000) by (rewrite Z.div_div by lia; reflexivity).
    lia. }
  rewrite (Hq a Ha), (Hq b Hb). lia.
Qed.

Lemma strftime_length (d : DateTime.t) :
  String.length (DateTime.strftime_Ymd_HMS d) = 15%nat.
Proof. reflexivity. Qed.

(** The stamp determines the instant up to its second. *)
Lemma strftime_inj (d1 d2 : DateTime.t) :
  DateTime.valid d1 -> DateTime.valid d2 ->
  DateTime.strftime_Ymd_HMS d1 = DateTime.strftime_Ymd_HMS d2 ->
  DateTime.year d1 = DateTime.year d2 /\ DateTime.month d1 = DateTime.month d2 /\
  DateTime.day d1 = DateTime.day d2 /\ DateTime.hour d1 = DateTime.hour d2 /\
  DateTime.minute d1 = DateTime.minute d2 /\ DateTime.second d1 = DateTime.second d2.
Proof.
  intros V1 V2 H.
  destruct V1 as (Hy1 & Hm1 & Hd1 & Hh1 & Hmi1 & Hs1 & _).
  destruct V2 as (Hy2 & Hm2 & Hd2 & Hh2 & Hmi2 & Hs2 & _).
  assert (Hdim : forall y m, DateTime.days_in_month y m <= 31).
  { intros y m. unfold DateTime.days_in_month.
    destruct (m =? 2); [destruct (DateTime.is_leap y); lia|].
    destruct ((m =? 4) || (m =? 6) || (m =? 9) || (m =? 11))%bool; lia. }
  pose proof (Hdim (DateTime.year d1) (DateTime.month d1)).
  pose proof (Hdim (DateTime.year d2) (DateTime.month d2)).
  unfold DateTime.strftime_Ymd_HMS in H.
  apply append_inj_suffix in H; [|reflexivity]. destruct H as [Hy H].
  apply append_inj_suffix in H; [|reflexivity]. destruct H as [Hm H].
  apply append_inj_suffix in H; [|reflexivity]. destruct H as [Hd H].
  apply append_inj_prefix in H.
  apply append_inj_suffix in H; [|reflexivity]. destruct H as [Hh H].
  apply append_inj_suffix in H; [|reflexivity]. destruct H as [Hmi Hs].
  apply pad4_inj in Hy; [|lia|lia].
  apply pad2_inj in Hm; [|lia|lia].
  apply pad2_inj in Hd; [|lia|lia].
  apply pad2_inj in Hh; [|lia|lia].
  apply pad2_inj in Hmi; [|lia|lia].
  apply pad2_inj in Hs; [|lia|lia].
  repeat split; assumption.
Qed.

(** ** Deployment Ledger: storing a record *)

Lemma region_list_store_same (rec : DeploymentTracker.deployment)
    (deps : dict (dict (list DeploymentTracker.deployment))) :
  DeploymentTracker.region_list (DeploymentTracker.provider rec)
    (DeploymentTracker.region rec) (DeploymentTracker.store_record rec deps)
  = (DeploymentTracker.region_list (DeploymentTracker.provider rec)
       (DeploymentTracker.region rec) deps ++ [rec])%list.
Proof.
  unfold DeploymentTracker.region_list, DeploymentTracker.store_record, mem.
  rewrite get_set_same, get_set_same.
  destruct (get (DeploymentTracker.provider rec) deps) as [regions|] eqn:Ep.
  - rewrite Ep.
    destruct (get (DeploymentTracker.region rec) regions) as [l|] eqn:Er.
    + now rewrite Er.
    + now rewrite get_set_same.
  - rewrite get_set_same. simpl. now rewrite String.eqb_refl.
Qed.

Lemma region_list_store_other (rec : DeploymentTracker.deployment)
    (deps : dict (dict (list DeploymentTracker.deployment))) (prov reg : string) :
  prov <> DeploymentTracker.provider rec \/ reg <> DeploymentTracker.region rec ->
  DeploymentTracker.region_list prov reg (DeploymentTracker.store_record rec deps)
  = DeploymentTracker.region_list prov reg deps.
Proof.
  intros Hne.
  unfold DeploymentTracker.region_list, DeploymentTracker.store_record, mem.
  destruct (string_dec (DeploymentTracker.provider rec) prov) as [Hp|Hp].
  - subst prov. destruct Hne as [Hne|Hne]; [contradiction|].
    rewrite get_set_same.
    destruct (get (DeploymentTracker.provider rec) deps) as [regions|] eqn:Ep.
    + rewrite Ep.
      destruct (get (DeploymentTracker.region rec) regions) as [l|] eqn:Er.
      * rewrite get_set_other by congruence. reflexivity.
      * rewrite get_set_other by congruence. rewrite get_set_other by congruence.
        reflexivity.
    + rewrite get_set_same. simpl. rewrite String.eqb_refl. simpl.
      destruct (DeploymentTracker.region rec =? reg)%string eqn:E; auto.
      apply String.eqb_eq in E. congruence.
  - rewrite get_set_other by exact Hp.
    destruct (get (DeploymentTracker.provider rec) deps) as [regions|] eqn:Ep.
    + reflexivity.
    + rewrite get_set_other by exact Hp. reflexivity.
Qed.

(** ** Loading the state files *)

(** C10: a registry file with invalid JSON makes [load_ip_registry] raise
    the parse error, and with it the constructor of the Deployment Ledger,
    whatever the inventory file holds; a corrupted inventory file, next to
    a registry file that loads or is yet to be created, gives a Ledger with
    an empty inventory. *)
Theorem corrupted_registry_blocks_ledger :
  forall (now : DateTime.t)
         (inventory_file backup : file DeploymentTracker.inventory_doc)
         (registry : IPManager.registry_doc),
    IPManager.load_ip_registry now (Present Invalid) = Raise JSONDecodeError
    /\ DeploymentTracker.init now
         (DeploymentTracker.mk_disk inventory_file backup (Present Invalid))
       = Raise JSONDecodeError
    /\ (exists tr,
          DeploymentTracker.init now
            (DeploymentTracker.mk_disk (Present Invalid) backup (Present (Valid registry)))
          = Return tr
          /\ DeploymentTracker.deployments (DeploymentTracker.inventory tr) = []
          /\ IPManager.registry (DeploymentTracker.ip_manager tr) = registry)
    /\ (exists tr,
          DeploymentTracker.init now
            (DeploymentTracker.mk_disk (Present Invalid) backup Absent)
          = Return tr
          /\ DeploymentTracker.deployments (DeploymentTracker.inventory tr) = []).
Proof.
  intros now inventory_file backup registry.
  split; [reflexivity|]. split; [reflexivity|]. split.
  - eexists. split; [reflexivity|]. split; reflexivity.
  - eexists. split; reflexivity.
Qed.

(** ** Deployment Ledger: synthesized identifiers *)

(** C1 (the code departs from it): two calls of [add_deployment] with an
    empty id for the same provider and region, half a second apart within
    one clock second, both succeed and return the same id; the Ledger then
    holds two records under it. *)
Theorem add_deployment_same_second_same_id :
  exists id tr1 tr2,
    DeploymentTracker.add_deployment "" "aws" "us-east-1" [] None
      Sample.noon Sample.fresh_tracker = Return (id, tr1)
    /\ DeploymentTracker.add_deployment "" "aws" "us-east-1" [] None
         Sample.noon_and_a_half tr1 = Return (id, tr2)
    /\ map DeploymentTracker.id
         (DeploymentTracker.get_deployments_by_region "aws" "us-east-1" tr2)
       = [id; id].
Proof.
  eexists. eexists. eexists.
  split; [vm_compute; reflexivity|].
  split; [vm_compute; reflexivity|].
  vm_compute. reflexivity.
Qed.

(** Calls in different clock seconds synthesize different ids. *)
Lemma make_id_distinct_seconds (prov reg : string) (now1 now2 : DateTime.t) :
  DateTime.valid now1 -> DateTime.valid now2 ->
  DeploymentTracker.make_id "" prov reg now1
  = DeploymentTracker.make_id "" prov reg now2 ->
  DateTime.strftime_Ymd_HMS now1 = DateTime.strftime_Ymd_HMS now2.
Proof.
  intros _ _ H. unfold DeploymentTracker.make_id in H. simpl in H.
  apply append_inj_prefix in H.
  change (String "-" (reg ++ String "-" (DateTime.strftime_Ymd_HMS now1)))
    with ("-" ++ reg ++ "-" ++ DateTime.strftime_Ymd_HMS now1)%string in H.
  change (String "-" (reg ++ String "-" (DateTime.strftime_Ymd_HMS now2)))
    with ("-" ++ reg ++ "-" ++ DateTime.strftime_Ymd_HMS now2)%string in H.
  do 3 apply append_inj_prefix in H. exact H.
Qed.

(** ** The concrete scenario *)

Lemma scenario_cost :
  exists c,
    DeploymentTracker._estimate_cost "aws" Sample.scenario_resources
      (Some Sample.scenario_config) = Return c
    /\ (DeploymentTracker.monthly c == 7.60 + 3.60 + 2.00)%Q
    /\ (DeploymentTracker.monthly c == 13.20)%Q.
Proof.
  eexists. split; [vm_compute; reflexivity|].
  split; vm_compute; reflexivity.
Qed.

Lemma scenario_id_matches (now : DateTime.t) :
  Pattern.fullmatch Pattern.aws_us_east_1_id
    (DeploymentTracker.make_id "" "aws" "us-east-1" now) = true.
Proof.
  unfold DeploymentTracker.make_id, DateTime.strftime_Ymd_HMS,
    DateTime.pad4, DateTime.pad2.
  cbn -[DateTime.digit Pattern.is_digit].
  rewrite !digit_is_digit. reflexivity.
Qed.

(** C8: at any valid instant [now] of a four-digit year and on any Ledger,
    the call [add("", "aws", "us-east-1", {public_ip: "1.2.3.4"},
    {instance_type: "t3.micro"})] returns an id that matches
    [^aws-us-east-1-\\d{8}-\\d{6}$]; the record it appends to the region,
    which bears that id, has status ["active"] and a monthly cost estimate
    of 7.60 + 3.60 + 2.00 = 13.20. *)
Theorem scenario_add (now : DateTime.t) (tr : DeploymentTracker.t) :
  DateTime.valid now -> 1000 <= DateTime.year now ->
  exists deployment_id tr' d,
    DeploymentTracker.add_deployment "" "aws" "us-east-1"
      Sample.scenario_resources (Some Sample.scenario_config) now tr
    = Return (deployment_id, tr')
    /\ Pattern.fullmatch Pattern.aws_us_east_1_id deployment_id = true
    /\ DeploymentTracker.get_deployments_by_region "aws" "us-east-1" tr'
       = (DeploymentTracker.get_deployments_by_region "aws" "us-east-1" tr ++ [d])%list
    /\ DeploymentTracker.id d = deployment_id
    /\ DeploymentTracker.status d = "active"
    /\ (DeploymentTracker.monthly (DeploymentTracker.cost_estimate d) == 7.60 + 3.60 + 2.00)%Q
    /\ (DeploymentTracker.monthly (DeploymentTracker.cost_estimate d) == 13.20)%Q.
Proof.
  intros _ _.
  destruct scenario_cost as [c [Hc [Hsum Hm]]].
  unfold DeploymentTracker.add_deployment. rewrite Hc. cbn [bind].
  eexists. eexists. eexists.
  split; [reflexivity|].
  split; [apply scenario_id_matches|].
  split.
  - unfold DeploymentTracker.get_deployments_by_region.
    cbn [DeploymentTracker.save_inventory DeploymentTracker.inventory
         DeploymentTracker.deployments].
    apply (region_list_store_same
             (DeploymentTracker.mk_deployment _ "aws" "us-east-1" _ _ _ _ _ _ _ _ _)).
  - cbn [DeploymentTracker.id DeploymentTracker.status DeploymentTracker.cost_estimate].
    auto.
Qed.

Lemma scenario_add_witness :
  DateTime.valid Sample.noon /\ 1000 <= DateTime.year Sample.noon /\
  exists deployment_id tr' d,
    DeploymentTracker.add_deployment "" "aws" "us-east-1"
      Sample.scenario_resources (Some Sample.scenario_config)
      Sample.noon Sample.fresh_tracker
    = Return (deployment_id, tr')
    /\ Pattern.fullmatch Pattern.aws_us_east_1_id deployment_id = true
    /\ DeploymentTracker.get_deployments_by_region "aws" "us-east-1" tr'
       = (DeploymentTracker.get_deployments_by_region "aws" "us-east-1"
            Sample.fresh_tracker ++ [d])%list
    /\ DeploymentTracker.id d = deployment_id
    /\ DeploymentTracker.status d = "active"
    /\ (DeploymentTracker.monthly (DeploymentTracker.cost_estimate d) == 7.60 + 3.60 + 2.00)%Q
    /\ (DeploymentTracker.monthly (DeploymentTracker.cost_estimate d) == 13.20)%Q.
Proof.
  assert (V : DateTime.valid Sample.noon).
  { repeat split; vm_compute; discriminate. }
  assert (Y : 1000 <= DateTime.year Sample.noon) by (simpl; lia).
  split; [exact V|]. split; [exact Y|].
  exact (scenario_add Sample.noon Sample.fresh_tracker V Y).
Defined.

(** ** Rounding to cents *)

Lemma round_half_even_bounds (x : Q) :
  Qfloor x <= DeploymentTracker.round_half_even x <= Qfloor x + 1.
Proof.
  unfold DeploymentTracker.round_half_even.
  destruct (Qcompare (x - inject_Z (Qfloor x)) (1 # 2)); [|lia|lia].
  destruct (Z.even (Qfloor x)); lia.
Qed.

Lemma round_half_even_mono (x y : Q) :
  (x <= y)%Q ->
  DeploymentTracker.round_half_even x <= DeploymentTracker.round_half_even y.
Proof.
  intros Hxy.
  pose proof (Qfloor_resp_le x y Hxy) as Hf.
  destruct (Z.eq_dec (Qfloor x) (Qfloor y)) as [Heq|Hne].
  - unfold DeploymentTracker.round_half_even. rewrite <- Heq.
    destruct (Qcompare (x - inject_Z (Qfloor x)) (1 # 2)) eqn:Cx;
      destruct (Qcompare (y - inject_Z (Qfloor x)) (1 # 2)) eqn:Cy;
      try (destruct (Z.even (Qfloor x)); lia); try lia; exfalso.
    + apply Qeq_alt in Cx. apply Qlt_alt in Cy. lra.
    + apply Qgt_alt in Cx. apply Qeq_alt in Cy. lra.
    + apply Qgt_alt in Cx. apply Qlt_alt in Cy. lra.
  - pose proof (round_half_even_bounds x). pose proof (round_half_even_bounds y). lia.
Qed.

Lemma round2_mono (x y : Q) :
  (x <= y)%Q -> (DeploymentTracker.round2 x <= DeploymentTracker.round2 y)%Q.
Proof.
  intros Hxy. unfold DeploymentTracker.round2, Qle. simpl.
  apply Z.mul_le_mono_nonneg_r; [lia|].
  apply round_half_even_mono. lra.
Qed.

(** ** Cost Model *)

Lemma bandwidth_cost_100_200 (prov : string) (pp : CostEstimator.provider_pricing) :
  CloudDiscovery.known_provider prov = true ->
  get prov CostEstimator.pricing = Some pp ->
  (CostEstimator.bandwidth_tiers prov (CostEstimator.bandwidth pp) 100
   <= CostEstimator.bandwidth_tiers prov (CostEstimator.bandwidth pp) 200)%Q.
Proof.
  intros Hk Hp. apply str_in_true in Hk. simpl in Hk.
  destruct Hk as [<-|[<-|[<-|[<-|[]]]]];
    vm_compute in Hp; injection Hp as <-; vm_compute; discriminate.
Qed.

(** C9: for each of the four providers and each instance type of the
    provider's price table, with region, storage and hours fixed, the
    estimates for 100 GB and for 200 GB of bandwidth are both returned and
    the second has a [total_monthly] at least that of the first. *)
Theorem estimate_bandwidth_monotone
    (prov instance_type reg : string) (storage_gb hours_per_month : Q)
    (now : DateTime.t) :
  CloudDiscovery.known_provider prov = true ->
  CostEstimator.known_instance prov instance_type = true ->
  exists e100 e200,
    CostEstimator.estimate_monthly_cost prov instance_type reg 100 storage_gb
      hours_per_month now = Return e100
    /\ CostEstimator.estimate_monthly_cost prov instance_type reg 200 storage_gb
         hours_per_month now = Return e200
    /\ (CostEstimator.total_monthly e100 <= CostEstimator.total_monthly e200)%Q.
Proof.
  intros Hk Hi. unfold CostEstimator.known_instance in Hi.
  destruct (get prov CostEstimator.pricing) as [pp|] eqn:Hp; [|discriminate].
  pose proof (bandwidth_cost_100_200 prov pp Hk Hp) as Hbw.
  unfold CostEstimator.estimate_monthly_cost, CostEstimator.calculate_bandwidth_cost, item.
  rewrite Hp. unfold mem in Hi.
  destruct (get instance_type (CostEstimator.instances pp)) as [hourly|]; [|discriminate].
  cbn [bind].
  eexists. eexists. split; [reflexivity|]. split; [reflexivity|].
  cbn [CostEstimator.total_monthly]. apply round2_mono.
  set (bw100 := CostEstimator.bandwidth_tiers prov _ 100) in *.
  set (bw200 := CostEstimator.bandwidth_tiers prov _ 200) in *.
  lra.
Qed.

Lemma estimate_bandwidth_monotone_witness :
  CloudDiscovery.known_provider "azure" = true /\
  CostEstimator.known_instance "azure" "Standard_B1s" = true /\
  exists e100 e200,
    CostEstimator.estimate_monthly_cost "azure" "Standard_B1s" "westeurope" 100 20 730
      Sample.noon = Return e100
    /\ CostEstimator.estimate_monthly_cost "azure" "Standard_B1s" "westeurope" 200 20 730
         Sample.noon = Return e200
    /\ (CostEstimator.total_monthly e100 <= CostEstimator.total_monthly e200)%Q.
Proof.
  split; [reflexivity|]. split; [reflexivity|].
  apply (estimate_bandwidth_monotone "azure" "Standard_B1s" "westeurope" 20 730
           Sample.noon); reflexivity.
Defined.

(** An unknown provider or instance type raises for every bandwidth. *)
Lemma estimate_raises_alike (prov instance_type reg : string)
    (bw1 bw2 storage_gb hours_per_month : Q) (now : DateTime.t) :
  CostEstimator.estimate_monthly_cost prov instance_type reg bw1 storage_gb
    hours_per_month now = Raise ValueError ->
  CostEstimator.estimate_monthly_cost prov instance_type reg bw2 storage_gb
    hours_per_month now = Raise ValueError.
Proof.
  unfold CostEstimator.estimate_monthly_cost, CostEstimator.calculate_bandwidth_cost, item.
  destruct (get prov CostEstimator.pricing) as [pp|]; auto.
  destruct (get instance_type (CostEstimator.instances pp)); auto. discriminate.
Qed.

(** ** Validation after apply *)

Lemma get_del_other {V : Type} (k k' : string) (d : dict V) :
  k <> k' -> get k' (del k d) = get k' d.
Proof.
  intros Hne. induction d as [|[k0 v0] d IH]; simpl; auto.
  destruct (k0 =? k)%string eqn:E; simpl.
  - apply String.eqb_eq in E. subst k0.
    destruct (k =? k')%string eqn:E'; auto.
    apply String.eqb_eq in E'. contradiction.
  - destruct (k0 =? k')%string; auto.
Qed.

Lemma output_present_true (outputs : dict ProxyGen.json) (output : string) :
  ProxyGen.output_present outputs output = Return true
  <-> ProxyGen.present_non_empty outputs output.
Proof.
  unfold ProxyGen.output_present, ProxyGen.present_non_empty. split.
  - destruct (get output outputs) as [[| | | | | |o]|] eqn:E; try discriminate.
    intros H. injection H as H.
    destruct (get "value" o) as [v|] eqn:Ev; [|discriminate].
    exists o, v. auto.
  - intros [o [v [Ho [Hv Ht]]]]. rewrite Ho, Hv, Ht. reflexivity.
Qed.

Lemma check_outputs_true (outputs : dict ProxyGen.json) :
  ProxyGen.check_outputs ProxyGen.required_outputs outputs = Return true
  <-> ProxyGen.present_non_empty outputs "public_ip"
      /\ ProxyGen.present_non_empty outputs "private_key_path".
Proof.
  unfold ProxyGen.required_outputs, ProxyGen.check_outputs. split.
  - intros H.
    destruct (ProxyGen.output_present outputs "public_ip") as [[|]|] eqn:E1;
      cbn [bind] in H; try discriminate.
    destruct (ProxyGen.output_present outputs "private_key_path") as [[|]|] eqn:E2;
      cbn [bind] in H; try discriminate.
    split; apply output_present_true; assumption.
  - intros [Ha Hb]. apply output_present_true in Ha, Hb.
    rewrite Ha. cbn [bind]. rewrite Hb. reflexivity.
Qed.

(** C6 as the code has it: the validation after apply returns success
    exactly when the state file exists with at least 1024 bytes, the two
    external runs succeed with return code 0 and a JSON object, and
    [public_ip] and [private_key_path] are both present in it with a value
    that is not empty; [instance_id] is not looked at. A failed validation
    after a successful apply makes [run_terraform] clean up the region's
    files and raise. *)
Theorem validation_requires_two_outputs :
  (forall p,
     ProxyGen._validate_terraform_deployment p = true
     <-> (exists size, ProxyGen.state_file_size p = Some size /\ 1024 <= size)
         /\ (exists u, ProxyGen.init_run p = Return u)
         /\ (exists outputs,
               ProxyGen.output_run p = Return (0, Valid (ProxyGen.JObj outputs))
               /\ ProxyGen.present_non_empty outputs "public_ip"
               /\ ProxyGen.present_non_empty outputs "private_key_path"))
  /\ (forall p outputs v,
        ProxyGen._validate_terraform_deployment
          (ProxyGen.with_outputs (set "instance_id" v outputs) p)
        = ProxyGen._validate_terraform_deployment (ProxyGen.with_outputs outputs p)
        /\ ProxyGen._validate_terraform_deployment
             (ProxyGen.with_outputs (del "instance_id" outputs) p)
           = ProxyGen._validate_terraform_deployment (ProxyGen.with_outputs outputs p))
  /\ (forall i prov reg uid w,
        ProxyGen.preflight w = Return true ->
        ProxyGen.init_cmd w = Return tt ->
        ProxyGen.plan_cmd w = Return tt ->
        ProxyGen.apply_cmd w = Return tt ->
        ProxyGen._validate_terraform_deployment (ProxyGen.probe w) = false ->
        exists e evs,
          ProxyGen.run_terraform i prov reg false uid w = (Raise e, evs)
          /\ In (ProxyGen.EvCleanup (prov ++ "-" ++ reg ++ "-" ++ uid)) evs).
Proof.
  split; [|split].
  - intros p. unfold ProxyGen._validate_terraform_deployment, ProxyGen.validate_body.
    split.
    + intros H.
      destruct (ProxyGen.state_file_size p) as [size|]; [|discriminate].
      destruct (size <? 1024) eqn:Es; [discriminate|].
      apply Z.ltb_ge in Es.
      destruct (ProxyGen.init_run p) as [u|]; [|discriminate]. cbn [bind] in H.
      destruct (ProxyGen.output_run p) as [[rc out]|]; [|discriminate].
      cbn [bind fst snd] in H.
      destruct (rc =? 0) eqn:Erc; [|discriminate]. apply Z.eqb_eq in Erc. subst rc.
      cbn [negb] in H.
      destruct out as [|[| | | | | |outputs]]; try discriminate.
      destruct (ProxyGen.check_outputs ProxyGen.required_outputs outputs)
        as [[|]|] eqn:Ec; try discriminate.
      apply check_outputs_true in Ec.
      split; [exists size; auto|]. split; [exists u; auto|].
      exists outputs. tauto.
    + intros [[size [Hs Hsz]] [[u Hu] [outputs [Ho Hc]]]].
      rewrite Hs, Hu, Ho. cbn [bind fst snd].
      apply Z.ltb_ge in Hsz. rewrite Hsz. cbn [Z.eqb negb].
      apply check_outputs_true in Hc. now rewrite Hc.
  - intros p outputs v.
    unfold ProxyGen._validate_terraform_deployment, ProxyGen.validate_body,
      ProxyGen.with_outputs. cbn [ProxyGen.state_file_size ProxyGen.init_run
                                  ProxyGen.output_run].
    destruct (ProxyGen.state_file_size p) as [size|]; auto.
    destruct (size <? 1024); auto.
    destruct (ProxyGen.init_run p); auto. cbn.
    unfold ProxyGen.output_present.
    rewrite !get_set_other, !get_del_other by discriminate. auto.
  - intros i prov reg uid w Hpre Hinit Hplan Happly Hval.
    unfold ProxyGen.run_terraform. rewrite Hpre.
    cbn [ProxyGen.commands ProxyGen.run_commands negb orb andb ProxyGen.is_plan
         ProxyGen.is_apply ProxyGen.cmd_run].
    rewrite Hinit, Hplan, Happly, Hval. cbn.
    eexists. eexists. split; [reflexivity|]. simpl. auto 10.
Qed.

Lemma validation_requires_two_outputs_witness :
  ProxyGen._validate_terraform_deployment Sample.probe_without_instance_id = true
  /\ ProxyGen._validate_terraform_deployment
       (ProxyGen.with_outputs [] Sample.probe_without_instance_id) = false.
Proof.
  destruct validation_requires_two_outputs as [Hiff _].
  split.
  - apply (Hiff Sample.probe_without_instance_id).
    split; [exists 4096; split; [reflexivity | lia]|].
    split; [exists tt; reflexivity|].
    exists Sample.outputs_without_instance_id.
    split; [reflexivity|].
    split; eexists; eexists; (split; [reflexivity|]); split; reflexivity.
  - reflexivity.
Defined.

(** C6 as stated fails: the outputs of [Sample.probe_without_instance_id]
    have no [instance_id], and the validation succeeds. *)
Lemma validation_ignores_instance_id :
  ~ (forall p outputs,
       ProxyGen.output_run p = Return (0, Valid (ProxyGen.JObj outputs)) ->
       (exists output,
          In output ["public_ip"; "instance_id"; "private_key_path"] /\
          ~ ProxyGen.present_non_empty outputs output) ->
       ProxyGen._validate_terraform_deployment p = false).
Proof.
  intros H.
  specialize (H Sample.probe_without_instance_id Sample.outputs_without_instance_id
                eq_refl).
  assert (Hv : ProxyGen._validate_terraform_deployment Sample.probe_without_instance_id
               = true) by reflexivity.
  rewrite H in Hv; [discriminate|].
  exists "instance_id". split; [simpl; auto|].
  intros [o [v [Hget _]]]. discriminate.
Qed.

(** ** Deployment Ledger: adding a record *)

Lemma estimate_cost_returns (prov : string) (res : dict scalar)
    (conf : option (dict scalar)) :
  get "storage_gb" res = None ->
  exists c, DeploymentTracker._estimate_cost prov res conf = Return c.
Proof.
  intros H. unfold DeploymentTracker._estimate_cost. rewrite H.
  cbn [number bind]. eexists. reflexivity.
Qed.

Lemma add_deployment_appends (deployment_id prov reg : string) (res : dict scalar)
    (conf : option (dict scalar)) (now : DateTime.t)
    (tr tr1 : DeploymentTracker.t) (id' : string) :
  DeploymentTracker.add_deployment deployment_id prov reg res conf now tr
  = Return (id', tr1) ->
  exists d,
    DeploymentTracker.appended d tr tr1
    /\ id' = DeploymentTracker.make_id deployment_id prov reg now
    /\ DeploymentTracker.id d = id'
    /\ DeploymentTracker.provider d = prov
    /\ DeploymentTracker.region d = reg
    /\ DeploymentTracker.status d = "active"
    /\ DeploymentTracker.resources d = res
    /\ DeploymentTracker.created_at d = now.
Proof.
  unfold DeploymentTracker.add_deployment.
  destruct (DeploymentTracker._estimate_cost prov res conf) as [c|]; [|discriminate].
  cbn [bind]. intros H. injection H as Hid Htr.
  match type of Htr with
  | context [DeploymentTracker.store_record ?r _] => exists r
  end.
  subst id' tr1. split; [|repeat split; reflexivity].
  unfold DeploymentTracker.appended, DeploymentTracker.get_deployments_by_region.
  cbn [DeploymentTracker.save_inventory DeploymentTracker.inventory
       DeploymentTracker.deployments DeploymentTracker.provider
       DeploymentTracker.region].
  split.
  - apply (region_list_store_same
             (DeploymentTracker.mk_deployment _ prov reg _ _ _ _ _ _ _ _ _)).
  - intros p r Hne.
    apply (region_list_store_other
             (DeploymentTracker.mk_deployment _ prov reg _ _ _ _ _ _ _ _ _)).
    exact Hne.
Qed.

Lemma deploy_id_not_empty (prov reg : string) (now : DateTime.t) :
  DeploymentTracker.make_id (ProxyGen.deploy_id prov reg now) prov reg now
  = ProxyGen.deploy_id prov reg now.
Proof.
  unfold DeploymentTracker.make_id, ProxyGen.deploy_id.
  destruct prov; reflexivity.
Qed.

(** ** Provisioning: the events of one region *)

Lemma run_commands_no_apply_event (cmds : list ProxyGen.tf_cmd) (dry_run : bool)
    (prov reg uid : string) (w : ProxyGen.region_run) (j : nat) (r : string) :
  ~ In (ProxyGen.EvRunTerraform j r)
       (snd (ProxyGen.run_commands cmds dry_run prov reg uid w)).
Proof.
  induction cmds as [|c cmds IH]; cbn [ProxyGen.run_commands].
  - simpl. auto.
  - destruct (negb dry_run || ProxyGen.is_plan c); [|exact IH].
    destruct (ProxyGen.cmd_run w c).
    + destruct (ProxyGen.is_apply c && negb dry_run &&
                negb (ProxyGen._validate_terraform_deployment (ProxyGen.probe w))).
      * simpl. intros [H|[H|[]]]; discriminate.
      * destruct (ProxyGen.run_commands cmds dry_run prov reg uid w) as [r0 evs].
        simpl in *. intros [H|H]; [discriminate | auto].
    + simpl. intros [H|[H|[]]]; discriminate.
Qed.

Lemma run_terraform_events (i : nat) (prov reg : string) (dry_run : bool)
    (uid : string) (w : ProxyGen.region_run) :
  ProxyGen.only_apply_of i reg (snd (ProxyGen.run_terraform i prov reg dry_run uid w)).
Proof.
  unfold ProxyGen.only_apply_of, ProxyGen.run_terraform. intros j r.
  destruct (ProxyGen.preflight w) as [[|]|].
  - pose proof (run_commands_no_apply_event (ProxyGen.commands dry_run) dry_run
                  prov reg uid w j r) as Hno.
    destruct (ProxyGen.run_commands (ProxyGen.commands dry_run) dry_run prov reg uid w)
      as [r0 evs].
    simpl in *. intros [H|H]; [injection H as <- <-; auto | contradiction].
  - simpl. intros [H|[]]. injection H as <- <-; auto.
  - simpl. intros [H|[]]. injection H as <- <-; auto.
Qed.

Lemma only_apply_app (i : nat) (reg : string) (a b : list ProxyGen.event) :
  ProxyGen.only_apply_of i reg a -> ProxyGen.only_apply_of i reg b ->
  ProxyGen.only_apply_of i reg (a ++ b).
Proof.
  unfold ProxyGen.only_apply_of. intros Ha Hb j r Hin.
  apply in_app_or in Hin. destruct Hin; auto.
Qed.

Lemma only_apply_output (i : nat) (reg r : string) :
  ProxyGen.only_apply_of i reg [ProxyGen.EvOutput r].
Proof. intros j r' [H|[]]. discriminate. Qed.

Lemma only_apply_configure (i : nat) (reg r : string) :
  ProxyGen.only_apply_of i reg [ProxyGen.EvConfigure r].
Proof. intros j r' [H|[]]. discriminate. Qed.

Lemma only_apply_track (i : nat) (reg x : string) :
  ProxyGen.only_apply_of i reg [ProxyGen.EvTrack x].
Proof. intros j r' [H|[]]. discriminate. Qed.

Create HintDb deploy.

#[local] Hint Resolve only_apply_app only_apply_output only_apply_configure
  only_apply_track run_terraform_events : deploy.

(** The turn ends the call: the Ledger is as it was. *)
Ltac stops_here :=
  let H := fresh "H" in
  intros H; injection H as <- <- <-; left;
  split; [discriminate|]; split; [reflexivity|];
  split; [auto 10 with deploy | intros Hn; try reflexivity; congruence].

(** One turn of the loop of [deploy]: it stops the call at this region
    with the Ledger untouched, or it tracks the region and goes on, or (in
    a dry run) it goes on without tracking. *)
Lemma deploy_regions_turn (e : ProxyGen.env) (cfg : ProxyGen.config) (prov : string)
    (dry_run : bool) (instance_type uid : string) (i : nat) (reg : string)
    (rest : list string) (tr tr' : DeploymentTracker.t) (res : outcome bool)
    (evs : list ProxyGen.event) :
  ProxyGen.deploy_regions e cfg prov dry_run instance_type uid i (reg :: rest) tr
  = (res, tr', evs) ->
  (res <> Return true /\ tr' = tr /\ ProxyGen.only_apply_of i reg evs
   /\ (fst (ProxyGen.run_terraform i prov reg dry_run uid (ProxyGen.runs e i))
       <> Return true ->
       res = fst (ProxyGen.run_terraform i prov reg dry_run uid (ProxyGen.runs e i))))
  \/ (fst (ProxyGen.run_terraform i prov reg dry_run uid (ProxyGen.runs e i))
      = Return true
      /\ exists evsA evs1,
        evs = (evsA ++ evs1)%list /\ ProxyGen.only_apply_of i reg evsA
        /\ ((dry_run = false
             /\ exists d tr1,
               DeploymentTracker.appended d tr tr1
               /\ DeploymentTracker.id d
                  = ProxyGen.deploy_id prov reg (ProxyGen.tracked_at (ProxyGen.runs e i))
               /\ DeploymentTracker.provider d = prov
               /\ DeploymentTracker.region d = reg
               /\ DeploymentTracker.status d = "active"
               /\ ProxyGen.deploy_regions e cfg prov dry_run instance_type uid
                    (S i) rest tr1 = (res, tr', evs1))
            \/ (dry_run = true
                /\ ProxyGen.deploy_regions e cfg prov dry_run instance_type uid
                     (S i) rest tr = (res, tr', evs1)))).
Proof.
  cbn [ProxyGen.deploy_regions].
  pose proof (run_terraform_events i prov reg dry_run uid (ProxyGen.runs e i)) as Hev.
  destruct (ProxyGen.run_terraform i prov reg dry_run uid (ProxyGen.runs e i))
    as [applied evs1].
  cbn [fst snd] in *.
  destruct applied as [[|]|ex].
  2: { stops_here. }
  2: { stops_here. }
  unfold ProxyGen.get_terraform_output.
  destruct (ProxyGen.terraform_output (ProxyGen.runs e i)) as [o|ex]; cbn [bind].
  2: { stops_here. }
  cbn [DeploymentTracker.is_empty negb andb].
  destruct dry_run; cbn [negb andb].
  - (* dry run: nothing is tracked *)
    destruct (ProxyGen.deploy_regions e cfg prov true instance_type uid (S i) rest tr)
      as [[r0 t0] ev0] eqn:Erest.
    intros H. injection H as <- <- <-. right. split; [reflexivity|].
    eexists. eexists. split; [reflexivity|]. split; [auto with deploy|].
    right. auto.
  - destruct (ProxyGen.configure_wireguard _ (ProxyGen.runs e i)) as [[|]|ex].
    2: { stops_here. }
    2: { stops_here. }
    destruct (DeploymentTracker.add_deployment _ prov reg _ _ _ tr)
      as [[id' tr1]|ex] eqn:Eadd.
    2: { stops_here. }
    destruct (ProxyGen.deploy_regions e cfg prov false instance_type uid (S i) rest tr1)
      as [[r0 t0] ev0] eqn:Erest.
    intros H. injection H as <- <- <-. right. split; [reflexivity|].
    apply add_deployment_appends in Eadd.
    destruct Eadd as [d (Happ & Hid' & Hid & Hp & Hr & Hs & _)].
    rewrite deploy_id_not_empty in Hid'. subst id'.
    exists ((evs1 ++ [ProxyGen.EvOutput reg]) ++ [ProxyGen.EvConfigure reg]
            ++ [ProxyGen.EvTrack (ProxyGen.deploy_id prov reg
                                    (ProxyGen.tracked_at (ProxyGen.runs e i)))])%list.
    exists ev0. split.
    { rewrite <- !app_assoc. reflexivity. }
    split; [auto 10 with deploy|].
    left. split; [reflexivity|]. exists d, tr1. repeat split; auto; apply Happ.
Qed.

Lemma deploy_regions_apply_indices (e : ProxyGen.env) (cfg : ProxyGen.config)
    (prov : string) (dry_run : bool) (instance_type uid : string)
    (regions : list string) :
  forall (i : nat) (tr tr' : DeploymentTracker.t) (res : outcome bool)
         (evs : list ProxyGen.event),
    ProxyGen.deploy_regions e cfg prov dry_run instance_type uid i regions tr
    = (res, tr', evs) ->
    forall j r, In (ProxyGen.EvRunTerraform j r) evs ->
                (i <= j)%nat /\ nth_error regions (j - i) = Some r.
Proof.
  induction regions as [|reg rest IH]; intros i tr tr' res evs Hrun j r Hin.
  - simpl in Hrun. injection Hrun as <- <- <-. destruct Hin.
  - apply deploy_regions_turn in Hrun.
    destruct Hrun as [(_ & _ & Honly & _) | (_ & evsA & evs1 & -> & Honly & Hnext)].
    + destruct (Honly j r Hin) as [-> ->]. rewrite Nat.sub_diag. auto.
    + apply in_app_or in Hin. destruct Hin as [Hin|Hin].
      * destruct (Honly j r Hin) as [-> ->]. rewrite Nat.sub_diag. auto.
      * assert (Hrest : exists t, ProxyGen.deploy_regions e cfg prov dry_run
                                     instance_type uid (S i) rest t = (res, tr', evs1)).
        { destruct Hnext as [(_ & d & tr1 & _ & _ & _ & _ & _ & H) | (_ & H)];
            eexists; exact H. }
        destruct Hrest as [t Hrest].
        destruct (IH (S i) t tr' res evs1 Hrest j r Hin) as [Hle Hnth].
        split; [lia|].
        replace (j - i)%nat with (S (j - S i)) by lia. exact Hnth.
Qed.

(** A record that a deploy leaves in the Ledger was there before, or is
    the record of one of the call's regions, with the id stamped when the
    region was tracked. *)
Lemma deploy_regions_ledger (e : ProxyGen.env) (cfg : ProxyGen.config)
    (prov : string) (dry_run : bool) (instance_type uid : string)
    (regions : list string) :
  forall (i : nat) (tr tr' : DeploymentTracker.t) (res : outcome bool)
         (evs : list ProxyGen.event),
    ProxyGen.deploy_regions e cfg prov dry_run instance_type uid i regions tr
    = (res, tr', evs) ->
    forall p r d,
      In d (DeploymentTracker.get_deployments_by_region p r tr') ->
      In d (DeploymentTracker.get_deployments_by_region p r tr)
      \/ (p = prov
          /\ exists k,
            nth_error regions k = Some r
            /\ DeploymentTracker.id d
               = ProxyGen.deploy_id prov r (ProxyGen.tracked_at (ProxyGen.runs e (i + k)))
            /\ DeploymentTracker.provider d = prov
            /\ DeploymentTracker.region d = r).
Proof.
  induction regions as [|reg rest IH]; intros i tr tr' res evs Hrun p r d Hin.
  - simpl in Hrun. injection Hrun as <- <- <-. auto.
  - apply deploy_regions_turn in Hrun.
    destruct Hrun as [(_ & -> & _) | (_ & evsA & evs1 & _ & _ & Hnext)]; [auto|].
    destruct Hnext as [(_ & d0 & tr1 & [Hsame Hother] & Hid & Hp & Hr & _ & Hrest)
                      | (_ & Hrest)].
    + destruct (IH (S i) tr1 tr' res evs1 Hrest p r d Hin)
        as [Hin1 | (-> & k & Hk & Hidk & Hpk & Hrk)].
      * destruct (string_dec p (DeploymentTracker.provider d0)) as [Ep|Ep];
          [destruct (string_dec r (DeploymentTracker.region d0)) as [Er|Er]|].
        -- subst p r. rewrite Hsame in Hin1. apply in_app_or in Hin1.
           destruct Hin1 as [Hin1|[<-|[]]]; [auto|].
           right. split; [exact Hp|]. exists O. rewrite Nat.add_0_r, Hr.
           repeat split; auto.
        -- rewrite Hother in Hin1 by auto. auto.
        -- rewrite Hother in Hin1 by auto. auto.
      * right. split; [reflexivity|]. exists (S k).
        rewrite Nat.add_succ_r. repeat split; auto.
    + destruct (IH (S i) tr tr' res evs1 Hrest p r d Hin)
        as [Hin1 | (-> & k & Hk & Hidk & Hpk & Hrk)]; [auto|].
      right. split; [reflexivity|]. exists (S k).
      rewrite Nat.add_succ_r. repeat split; auto.
Qed.

(** Before its loop, [deploy] either returns with nothing done or enters
    the loop at the first region. *)
Lemma deploy_enters_loop (e : ProxyGen.env) (cfg : ProxyGen.config) (prov : string)
    (regions : list string) (dry_run : bool) (instance_type : option string)
    (tr tr' : DeploymentTracker.t) (res : outcome bool) (evs : list ProxyGen.event) :
  ProxyGen.deploy e cfg prov regions dry_run instance_type tr = (res, tr', evs) ->
  (res <> Return true /\ tr' = tr /\ evs = [])
  \/ exists it,
      ProxyGen.deploy_regions e cfg prov dry_run it (ProxyGen.token_hex e) 0 regions tr
      = (res, tr', evs).
Proof.
  unfold ProxyGen.deploy.
  destruct (negb (str_in prov ["aws"; "azure"; "digitalocean"; "hetzner"])).
  { intros H. injection H as <- <- <-. left. repeat split; auto. discriminate. }
  destruct (str_in prov ["hetzner"; "digitalocean"] &&
            negb (str_in (ProxyGen.user_response e) ["yes"; "y"])).
  { intros H. injection H as <- <- <-. left. repeat split; auto. discriminate. }
  destruct (item prov (ProxyGen.config_regions cfg)) as [valid_regions|ex].
  2: { intros H. injection H as <- <- <-. left. repeat split; auto. discriminate. }
  destruct (negb (ProxyGen.all_valid valid_regions regions)).
  { intros H. injection H as <- <- <-. left. repeat split; auto. discriminate. }
  destruct (match instance_type with
            | Some i => Return i
            | None => item prov ProxyGen.default_types
            end) as [it|ex].
  2: { intros H. injection H as <- <- <-. left. repeat split; auto. discriminate. }
  intros H. right. exists it. exact H.
Qed.

(** C5: in a call of [deploy] (not a dry run) on at least two regions in
    which the apply of the second region is attempted and fails, the call
    reports that failure, the Ledger is the one before the call with the
    first region's record appended, that record has status ["active"], and
    no apply is attempted for a later region. *)
Theorem deploy_fail_fast (e : ProxyGen.env) (cfg : ProxyGen.config) (prov : string)
    (r1 r2 : string) (rest : list string) (instance_type : option string)
    (tr tr' : DeploymentTracker.t) (res : outcome bool) (evs : list ProxyGen.event) :
  ProxyGen.deploy e cfg prov (r1 :: r2 :: rest) false instance_type tr
  = (res, tr', evs) ->
  In (ProxyGen.EvRunTerraform 1 r2) evs ->
  fst (ProxyGen.run_terraform 1 prov r2 false (ProxyGen.token_hex e) (ProxyGen.runs e 1))
  <> Return true ->
  res <> Return true
  /\ res = fst (ProxyGen.run_terraform 1 prov r2 false (ProxyGen.token_hex e)
                  (ProxyGen.runs e 1))
  /\ (exists d,
        DeploymentTracker.appended d tr tr'
        /\ In d (DeploymentTracker.get_deployments_by_region prov r1 tr')
        /\ DeploymentTracker.id d
           = ProxyGen.deploy_id prov r1 (ProxyGen.tracked_at (ProxyGen.runs e 0))
        /\ DeploymentTracker.provider d = prov
        /\ DeploymentTracker.region d = r1
        /\ DeploymentTracker.status d = "active")
  /\ (forall j r, In (ProxyGen.EvRunTerraform j r) evs -> (j <= 1)%nat).
Proof.
  intros Hrun Hin Hfail.
  apply deploy_enters_loop in Hrun.
  destruct Hrun as [(_ & _ & ->) | [it Hrun]]; [destruct Hin|].
  apply deploy_regions_turn in Hrun.
  destruct Hrun as [(_ & _ & Honly & _) | (_ & evsA & evs1 & -> & Honly & Hnext)].
  { destruct (Honly _ _ Hin) as [Habs _]. discriminate. }
  destruct Hnext as [(_ & d & tr1 & Happ & Hid & Hp & Hr & Hs & Hrest) | (Habs & _)];
    [|discriminate].
  apply deploy_regions_turn in Hrest.
  destruct Hrest as [(Hres & -> & Honly1 & Hsame) | (Hok & _)]; [|contradiction].
  split; [exact Hres|]. split; [exact (Hsame Hfail)|]. split.
  - exists d. repeat split; auto; try apply Happ.
    destruct Happ as [Hlist _]. rewrite Hp, Hr in Hlist. rewrite Hlist.
    apply in_or_app. right. simpl. auto.
  - intros j r Hj. apply in_app_or in Hj. destruct Hj as [Hj|Hj].
    + destruct (Honly _ _ Hj) as [-> _]. lia.
    + destruct (Honly1 _ _ Hj) as [-> _]. lia.
Qed.

Lemma deploy_fail_fast_witness :
  let run := ProxyGen.deploy Sample.second_fails Sample.aws_config "aws"
               ["us-east-1"; "us-west-2"; "eu-west-1"] false None
               Sample.fresh_tracker in
  fst (fst run) <> Return true
  /\ (exists d,
        In d (DeploymentTracker.get_deployments_by_region "aws" "us-east-1"
                (snd (fst run)))
        /\ DeploymentTracker.id d = "aws-us-east-1-20240115-120000"
        /\ DeploymentTracker.status d = "active")
  /\ (forall j r, In (ProxyGen.EvRunTerraform j r) (snd run) -> (j <= 1)%nat).
Proof.
  intros run.
  destruct (deploy_fail_fast Sample.second_fails Sample.aws_config "aws"
              "us-east-1" "us-west-2" ["eu-west-1"] None Sample.fresh_tracker
              (snd (fst run)) (fst (fst run)) (snd run))
    as (Hres & _ & (d & _ & Hin & Hid & _ & _ & Hs) & Hlater).
  - vm_compute. reflexivity.
  - vm_compute. auto 10.
  - vm_compute. discriminate.
  - split; [exact Hres|]. split; [|exact Hlater].
    exists d. repeat split; auto.
Defined.

(** ** Identifiers of the deploy flow *)

Lemma deploy_id_split (prov reg : string) (now : DateTime.t) :
  ProxyGen.deploy_id prov reg now
  = ((prov ++ "-" ++ reg ++ "-") ++ DateTime.strftime_Ymd_HMS now)%string.
Proof.
  unfold ProxyGen.deploy_id.
  rewrite !append_assoc. reflexivity.
Qed.

Lemma provider_region_inj (p1 r1 p2 r2 : string) :
  CloudDiscovery.known_provider p1 = true ->
  CloudDiscovery.known_provider p2 = true ->
  (p1 ++ "-" ++ r1 ++ "-" = p2 ++ "-" ++ r2 ++ "-")%string ->
  p1 = p2 /\ r1 = r2.
Proof.
  intros H1 H2 Heq.
  apply str_in_true in H1. apply str_in_true in H2. simpl in H1, H2.
  assert (Hsame : forall p, (p ++ "-" ++ r1 ++ "-" = p ++ "-" ++ r2 ++ "-")%string ->
                            r1 = r2).
  { intros p H. do 2 apply append_inj_prefix in H.
    apply append_inj_suffix in H; [tauto | reflexivity]. }
  destruct H1 as [<-|[<-|[<-|[<-|[]]]]]; destruct H2 as [<-|[<-|[<-|[<-|[]]]]];
    try (split; [reflexivity | eapply Hsame; exact Heq]);
    simpl in Heq; discriminate.
Qed.

(** Two ids of the deploy flow agree only for the same provider, the same
    region and the same clock second. *)
Lemma deploy_id_inj (p1 r1 p2 r2 : string) (t1 t2 : DateTime.t) :
  CloudDiscovery.known_provider p1 = true ->
  CloudDiscovery.known_provider p2 = true ->
  DateTime.valid t1 -> DateTime.valid t2 ->
  ProxyGen.deploy_id p1 r1 t1 = ProxyGen.deploy_id p2 r2 t2 ->
  p1 = p2 /\ r1 = r2
  /\ DateTime.year t1 = DateTime.year t2 /\ DateTime.month t1 = DateTime.month t2
  /\ DateTime.day t1 = DateTime.day t2 /\ DateTime.hour t1 = DateTime.hour t2
  /\ DateTime.minute t1 = DateTime.minute t2
  /\ DateTime.second t1 = DateTime.second t2.
Proof.
  intros K1 K2 V1 V2 H. rewrite !deploy_id_split in H.
  apply append_inj_suffix in H; [|now rewrite !strftime_length].
  destruct H as [Hpr Hts].
  destruct (provider_region_inj _ _ _ _ K1 K2 Hpr) as [-> ->].
  split; [reflexivity|]. split; [reflexivity|].
  apply strftime_inj; assumption.
Qed.

(** What the deploy flow records: a record that a call of [deploy] adds to
    the Ledger bears the id [{provider}-{region}-{YYYYmmdd}-{HHMMSS}],
    stamped with the clock at the time the region is tracked (the 6-hex
    token of the call is no part of it); two such ids are equal only when
    provider, region and clock second are the same. *)
Lemma deploy_ids_are_timestamps :
  (forall (e : ProxyGen.env) (cfg : ProxyGen.config) (prov : string)
          (regions : list string) (dry_run : bool) (instance_type : option string)
          (tr tr' : DeploymentTracker.t) (res : outcome bool)
          (evs : list ProxyGen.event),
     ProxyGen.deploy e cfg prov regions dry_run instance_type tr = (res, tr', evs) ->
     forall p r d,
       In d (DeploymentTracker.get_deployments_by_region p r tr') ->
       In d (DeploymentTracker.get_deployments_by_region p r tr)
       \/ (p = prov
           /\ exists k,
             nth_error regions k = Some r
             /\ DeploymentTracker.id d
                = ProxyGen.deploy_id prov r (ProxyGen.tracked_at (ProxyGen.runs e k))
             /\ DeploymentTracker.provider d = prov
             /\ DeploymentTracker.region d = r))
  /\ (forall (p1 r1 p2 r2 : string) (t1 t2 : DateTime.t),
        CloudDiscovery.known_provider p1 = true ->
        CloudDiscovery.known_provider p2 = true ->
        DateTime.valid t1 -> DateTime.valid t2 ->
        ProxyGen.deploy_id p1 r1 t1 = ProxyGen.deploy_id p2 r2 t2 ->
        p1 = p2 /\ r1 = r2
        /\ DateTime.year t1 = DateTime.year t2 /\ DateTime.month t1 = DateTime.month t2
        /\ DateTime.day t1 = DateTime.day t2 /\ DateTime.hour t1 = DateTime.hour t2
        /\ DateTime.minute t1 = DateTime.minute t2
        /\ DateTime.second t1 = DateTime.second t2).
Proof.
  split.
  - intros e cfg prov regions dry_run instance_type tr tr' res evs Hrun p r d Hin.
    apply deploy_enters_loop in Hrun.
    destruct Hrun as [(_ & -> & _) | [it Hrun]]; [auto|].
    exact (deploy_regions_ledger e cfg prov dry_run it (ProxyGen.token_hex e) regions
             0 tr tr' res evs Hrun p r d Hin).
  - exact deploy_id_inj.
Qed.

Lemma deploy_ids_are_timestamps_at_noon :
  let run := ProxyGen.deploy Sample.all_succeed Sample.aws_config "aws"
               ["us-east-1"] false None Sample.fresh_tracker in
  exists d,
    In d (DeploymentTracker.get_deployments_by_region "aws" "us-east-1" (snd (fst run)))
    /\ DeploymentTracker.id d = ProxyGen.deploy_id "aws" "us-east-1" Sample.noon
    /\ DeploymentTracker.id d = "aws-us-east-1-20240115-120000".
Proof.
  intros run.
  destruct (DeploymentTracker.get_deployments_by_region "aws" "us-east-1" (snd (fst run)))
    as [|d l] eqn:El; [vm_compute in El; discriminate|].
  destruct deploy_ids_are_timestamps as [Hformat _].
  destruct (Hformat Sample.all_succeed Sample.aws_config "aws" ["us-east-1"] false None
              Sample.fresh_tracker (snd (fst run)) (fst (fst run)) (snd run)
              ltac:(vm_compute; reflexivity) "aws" "us-east-1" d
              ltac:(rewrite El; simpl; auto))
    as [Hold | (_ & k & Hk & Hid & _)].
  - vm_compute in Hold. destruct Hold.
  - exists d. split; [simpl; auto|]. split; [exact Hid | rewrite Hid; reflexivity].
Defined.

(** Not every id of the deploy flow is the provider, the region and a
    6-hex token: the deploy of one region at [Sample.noon] with the token
    [a1b2c3] records the id [aws-us-east-1-20240115-120000]. *)
Lemma deploy_id_is_not_uid :
  ~ (forall (e : ProxyGen.env) (cfg : ProxyGen.config) (prov : string)
            (regions : list string) (dry_run : bool) (instance_type : option string)
            (tr tr' : DeploymentTracker.t) (res : outcome bool)
            (evs : list ProxyGen.event),
       ProxyGen.deploy e cfg prov regions dry_run instance_type tr = (res, tr', evs) ->
       forall p r d,
         In d (DeploymentTracker.get_deployments_by_region p r tr') ->
         ~ In d (DeploymentTracker.get_deployments_by_region p r tr) ->
         exists uid,
           Pattern.is_uid uid = true
           /\ DeploymentTracker.id d
              = (DeploymentTracker.provider d ++ "-" ++ DeploymentTracker.region d
                 ++ "-" ++ uid)%string).
Proof.
  intros H.
  pose (run := ProxyGen.deploy Sample.all_succeed Sample.aws_config "aws"
                 ["us-east-1"] false None Sample.fresh_tracker).
  destruct (DeploymentTracker.get_deployments_by_region "aws" "us-east-1" (snd (fst run)))
    as [|d l] eqn:El; [vm_compute in El; discriminate|].
  destruct (H Sample.all_succeed Sample.aws_config "aws" ["us-east-1"] false None
              Sample.fresh_tracker (snd (fst run)) (fst (fst run)) (snd run)
              ltac:(vm_compute; reflexivity) "aws" "us-east-1" d)
    as [uid [Huid Hid]].
  - rewrite El. simpl. auto.
  - vm_compute. auto.
  - vm_compute in El. injection El as <- _.
    cbn in Hid. injection Hid as <-. vm_compute in Huid. discriminate.
Qed.

(** C7 (the code departs from it): the deploy of [us-east-1] on AWS at
    [Sample.noon], with the token [a1b2c3] drawn for the call, succeeds
    and records the id [aws-us-east-1-20240115-120000]: the stamp of the
    clock stands where the 6-hex token should, and no 6-hex token makes
    the id [aws-us-east-1-{uid}]. Deployed twice within that second, the
    region gets the same id twice. *)
Theorem deploy_records_timestamp_id :
  let run := ProxyGen.deploy Sample.all_succeed Sample.aws_config "aws"
               ["us-east-1"] false None Sample.fresh_tracker in
  let twice := ProxyGen.deploy Sample.all_succeed Sample.aws_config "aws"
                 ["us-east-1"; "us-east-1"] false None Sample.fresh_tracker in
  fst (fst run) = Return true
  /\ ProxyGen.token_hex Sample.all_succeed = "a1b2c3"
  /\ map DeploymentTracker.id
       (DeploymentTracker.get_deployments_by_region "aws" "us-east-1" (snd (fst run)))
     = ["aws-us-east-1-20240115-120000"]
  /\ (forall uid,
        Pattern.is_uid uid = true ->
        "aws-us-east-1-20240115-120000" <> ("aws" ++ "-" ++ "us-east-1" ++ "-" ++ uid)%string)
  /\ fst (fst twice) = Return true
  /\ map DeploymentTracker.id
       (DeploymentTracker.get_deployments_by_region "aws" "us-east-1" (snd (fst twice)))
     = ["aws-us-east-1-20240115-120000"; "aws-us-east-1-20240115-120000"].
Proof.
  cbv zeta.
  split; [vm_compute; reflexivity|]. split; [reflexivity|].
  split; [vm_compute; reflexivity|]. split.
  - intros uid Huid Heq. cbn in Heq. injection Heq as <-.
    vm_compute in Huid. discriminate.
  - split; vm_compute; reflexivity.
Qed.

(** Two regions tracked within one clock second under the same name get
    the same id: the Ledger does not check ids. *)
Lemma deploy_same_region_twice :
  let run := ProxyGen.deploy Sample.all_succeed Sample.aws_config "aws"
               ["us-east-1"; "us-east-1"] false None Sample.fresh_tracker in
  fst (fst run) = Return true
  /\ map DeploymentTracker.id
       (DeploymentTracker.get_deployments_by_region "aws" "us-east-1" (snd (fst run)))
     = ["aws-us-east-1-20240115-120000"; "aws-us-east-1-20240115-120000"].
Proof. vm_compute. auto. Qed.

(** ** Deployment Ledger: search, update and cleanup *)

Lemma find_app {A : Type} (f : A -> bool) (a b : list A) :
  find f (a ++ b) = match find f a with Some x => Some x | None => find f b end.
Proof. induction a as [|x a IH]; simpl; auto. destruct (f x); auto. Qed.

Lemma get_in_regions_find (deployment_id : string)
    (regions : dict (list DeploymentTracker.deployment)) :
  DeploymentTracker.get_in_regions deployment_id regions
  = find (DeploymentTracker.has_id deployment_id) (flat_map snd regions).
Proof.
  induction regions as [|[r l] rest IH]; simpl; auto.
  rewrite find_app. unfold DeploymentTracker.get_in_list.
  destruct (find (DeploymentTracker.has_id deployment_id) l); auto.
Qed.

(** The nested loops of [get_deployment] return the first record with the
    id in the order of [list_all_deployments]. *)
Lemma get_deployment_find (deployment_id : string) (tr : DeploymentTracker.t) :
  DeploymentTracker.get_deployment deployment_id tr
  = find (DeploymentTracker.has_id deployment_id)
         (DeploymentTracker.list_all_deployments tr).
Proof.
  unfold DeploymentTracker.get_deployment, DeploymentTracker.list_all_deployments.
  induction (DeploymentTracker.deployments (DeploymentTracker.inventory tr))
    as [|[p regions] rest IH]; simpl; auto.
  rewrite find_app, <- get_in_regions_find.
  destruct (DeploymentTracker.get_in_regions deployment_id regions); auto.
Qed.

Lemma get_deployment_present (deployment_id : string) (tr : DeploymentTracker.t) :
  DeploymentTracker.get_deployment deployment_id tr <> None
  <-> exists d, In d (DeploymentTracker.list_all_deployments tr)
                /\ DeploymentTracker.id d = deployment_id.
Proof.
  rewrite get_deployment_find. split.
  - destruct (find _ _) as [d|] eqn:E; [|congruence]. intros _.
    apply find_some in E. destruct E as [Hin Hid].
    exists d. split; auto. now apply String.eqb_eq in Hid.
  - intros [d [Hin Hid]] Hnone.
    pose proof (find_none _ _ Hnone d Hin) as Hf.
    unfold DeploymentTracker.has_id in Hf. rewrite Hid, String.eqb_refl in Hf.
    discriminate.
Qed.

Section Update.
Variable f : DeploymentTracker.deployment -> DeploymentTracker.deployment.
Variable deployment_id : string.
Hypothesis f_keeps_id : forall d, DeploymentTracker.id (f d) = DeploymentTracker.id d.

Lemma update_in_list_spec (l : list DeploymentTracker.deployment) :
  match DeploymentTracker.update_in_list f deployment_id l with
  | Some l' =>
      exists d, find (DeploymentTracker.has_id deployment_id) l = Some d
                /\ find (DeploymentTracker.has_id deployment_id) l' = Some (f d)
                /\ map DeploymentTracker.id l' = map DeploymentTracker.id l
  | None => find (DeploymentTracker.has_id deployment_id) l = None
  end.
Proof.
  induction l as [|x l IH]; simpl; auto.
  destruct (DeploymentTracker.has_id deployment_id x) eqn:Ex.
  - exists x. simpl. unfold DeploymentTracker.has_id in *.
    rewrite f_keeps_id, Ex. auto.
  - destruct (DeploymentTracker.update_in_list f deployment_id l) as [l'|]; simpl; auto.
    destruct IH as [d (H1 & H2 & H3)]. exists d. rewrite Ex, H3. auto.
Qed.

Lemma update_in_regions_spec (regions : dict (list DeploymentTracker.deployment)) :
  match DeploymentTracker.update_in_regions f deployment_id regions with
  | Some regions' =>
      exists d,
        find (DeploymentTracker.has_id deployment_id) (flat_map snd regions) = Some d
        /\ find (DeploymentTracker.has_id deployment_id) (flat_map snd regions')
           = Some (f d)
        /\ map DeploymentTracker.id (flat_map snd regions')
           = map DeploymentTracker.id (flat_map snd regions)
  | None =>
      find (DeploymentTracker.has_id deployment_id) (flat_map snd regions) = None
  end.
Proof.
  induction regions as [|[r l] rest IH]; simpl; auto.
  pose proof (update_in_list_spec l) as Hl.
  destruct (DeploymentTracker.update_in_list f deployment_id l) as [l'|].
  - destruct Hl as [d (H1 & H2 & H3)]. exists d. simpl.
    rewrite !find_app, !map_app, H1, H2, H3. auto.
  - destruct (DeploymentTracker.update_in_regions f deployment_id rest) as [rest'|];
      simpl.
    + destruct IH as [d (H1 & H2 & H3)]. exists d.
      rewrite !find_app, !map_app, Hl, H1, H2, H3. auto.
    + rewrite find_app, Hl. exact IH.
Qed.

Lemma update_in_providers_spec
    (deps : dict (dict (list DeploymentTracker.deployment))) :
  match DeploymentTracker.update_in_providers f deployment_id deps with
  | Some deps' =>
      exists d,
        find (DeploymentTracker.has_id deployment_id) (DeploymentTracker.list_all deps)
        = Some d
        /\ find (DeploymentTracker.has_id deployment_id)
                (DeploymentTracker.list_all deps') = Some (f d)
        /\ map DeploymentTracker.id (DeploymentTracker.list_all deps')
           = map DeploymentTracker.id (DeploymentTracker.list_all deps)
  | None =>
      find (DeploymentTracker.has_id deployment_id) (DeploymentTracker.list_all deps)
      = None
  end.
Proof.
  unfold DeploymentTracker.list_all.
  induction deps as [|[p regions] rest IH]; simpl; auto.
  pose proof (update_in_regions_spec regions) as Hr.
  destruct (DeploymentTracker.update_in_regions f deployment_id regions)
    as [regions'|].
  - destruct Hr as [d (H1 & H2 & H3)]. exists d. simpl.
    rewrite !find_app, !map_app, H1, H2, H3. auto.
  - destruct (DeploymentTracker.update_in_providers f deployment_id rest) as [rest'|];
      simpl.
    + destruct IH as [d (H1 & H2 & H3)]. exists d.
      rewrite !find_app, !map_app, Hr, H1, H2, H3. auto.
    + rewrite find_app, Hr. exact IH.
Qed.

End Update.

Lemma present_by_ids (tr tr' : DeploymentTracker.t) (deployment_id : string) :
  (forall x, In x (map DeploymentTracker.id (DeploymentTracker.list_all_deployments tr)) ->
             In x (map DeploymentTracker.id (DeploymentTracker.list_all_deployments tr'))) ->
  DeploymentTracker.get_deployment deployment_id tr <> None ->
  DeploymentTracker.get_deployment deployment_id tr' <> None.
Proof.
  intros Hincl H. apply get_deployment_present in H. destruct H as [d [Hin Hid]].
  apply get_deployment_present.
  assert (Hx : In deployment_id
                 (map DeploymentTracker.id (DeploymentTracker.list_all_deployments tr'))).
  { apply Hincl. apply in_map_iff. exists d. auto. }
  apply in_map_iff in Hx. destruct Hx as [d' [Hid' Hin']]. exists d'. auto.
Qed.

(** Dictionaries: what [set] does to the entries *)

Lemma get_in {V : Type} (k : string) (v : V) (d : dict V) :
  get k d = Some v -> In (k, v) d.
Proof.
  induction d as [|[k0 v0] d IH]; simpl; [discriminate|].
  destruct (k0 =? k)%string eqn:E.
  - apply String.eqb_eq in E. subst. intros H. injection H as <-. auto.
  - auto.
Qed.

Lemma in_set_cases {V : Type} (k k' : string) (v v' : V) (d : dict V) :
  In (k', v') d -> In (k', v') (set k v d) \/ (k' = k /\ get k d = Some v').
Proof.
  induction d as [|[k0 v0] d IH]; simpl; [tauto|].
  intros [H|H].
  - injection H as -> ->. destruct (k' =? k)%string eqn:E.
    + right. apply String.eqb_eq in E. auto.
    + left. simpl. auto.
  - destruct (k0 =? k)%string eqn:E.
    + left. simpl. auto.
    + destruct (IH H) as [H'|H']; [left; simpl; auto | right; auto].
Qed.

Lemma in_set_new {V : Type} (k : string) (v : V) (d : dict V) : In (k, v) (set k v d).
Proof. apply get_in, get_set_same. Qed.

Lemma in_set_absent {V : Type} (k k' : string) (v v' : V) (d : dict V) :
  mem k d = false -> In (k', v') d -> In (k', v') (set k v d).
Proof.
  unfold mem. intros Hm Hin.
  destruct (in_set_cases k k' v v' d Hin) as [H|[_ H]]; auto.
  rewrite H in Hm. discriminate.
Qed.

Lemma in_list_all (deps : dict (dict (list DeploymentTracker.deployment)))
    (d : DeploymentTracker.deployment) :
  In d (DeploymentTracker.list_all deps)
  <-> exists p regions r l, In (p, regions) deps /\ In (r, l) regions /\ In d l.
Proof.
  unfold DeploymentTracker.list_all. rewrite in_flat_map. split.
  - intros [[p regions] [Hp Hin]]. simpl in Hin. apply in_flat_map in Hin.
    destruct Hin as [[r l] [Hr Hl]]. exists p, regions, r, l. auto.
  - intros (p & regions & r & l & Hp & Hr & Hl).
    exists (p, regions). split; auto. simpl. apply in_flat_map.
    exists (r, l). auto.
Qed.

(** [add_deployment] keeps every record. *)
Lemma store_record_keeps (rec d : DeploymentTracker.deployment)
    (deps : dict (dict (list DeploymentTracker.deployment))) :
  In d (DeploymentTracker.list_all deps) ->
  In d (DeploymentTracker.list_all (DeploymentTracker.store_record rec deps)).
Proof.
  rewrite !in_list_all. intros (p & regions & r & l & Hp & Hr & Hl).
  unfold DeploymentTracker.store_record.
  set (prov := DeploymentTracker.provider rec).
  set (reg := DeploymentTracker.region rec).
  set (deps1 := if mem prov deps then deps else set prov [] deps).
  set (regions0 := match get prov deps1 with Some r0 => r0 | None => [] end).
  set (regions1 := if mem reg regions0 then regions0 else set reg [] regions0).
  set (l0 := match get reg regions1 with Some l1 => l1 | None => [] end).
  assert (Hp1 : In (p, regions) deps1).
  { unfold deps1. destruct (mem prov deps) eqn:Em; auto.
    apply in_set_absent; auto. }
  destruct (in_set_cases prov p (set reg (l0 ++ [rec])%list regions1) regions deps1 Hp1)
    as [Hstay | [-> Hget]].
  { exists p, regions, r, l. auto. }
  assert (H0 : regions0 = regions) by (unfold regions0; now rewrite Hget).
  assert (Hr1 : In (r, l) regions1).
  { unfold regions1. rewrite H0. destruct (mem reg regions) eqn:Em; auto.
    apply in_set_absent; auto. }
  destruct (in_set_cases reg r (l0 ++ [rec])%list l regions1 Hr1) as [Hstay | [-> Hgetr]].
  - exists prov, (set reg (l0 ++ [rec])%list regions1), r, l.
    split; [apply in_set_new|]. auto.
  - exists prov, (set reg (l0 ++ [rec])%list regions1), reg, (l0 ++ [rec])%list.
    split; [apply in_set_new|]. split; [apply in_set_new|].
    apply in_or_app. left. unfold l0. now rewrite Hgetr.
Qed.

(** No call other than the cleanup makes an id disappear. *)
Lemma run_call_keeps_ids (c : DeploymentTracker.call) (now : DateTime.t)
    (tr : DeploymentTracker.t) (deployment_id : string) :
  DeploymentTracker.get_deployment deployment_id tr <> None ->
  DeploymentTracker.get_deployment deployment_id (DeploymentTracker.run_call c now tr)
  <> None.
Proof.
  apply present_by_ids. intros x.
  unfold DeploymentTracker.list_all_deployments.
  destruct c as [did prov reg res conf | did st | did info | did];
    cbn [DeploymentTracker.run_call].
  - unfold DeploymentTracker.add_deployment.
    destruct (DeploymentTracker._estimate_cost prov res conf); cbn [bind]; auto.
    cbn [DeploymentTracker.save_inventory DeploymentTracker.inventory
         DeploymentTracker.deployments].
    rewrite !in_map_iff. intros [d [Hid Hin]]. exists d. split; auto.
    now apply store_record_keeps.
  - unfold DeploymentTracker.update_deployment_status.
    pose proof (update_in_providers_spec (DeploymentTracker.set_status st now) did
                  (fun _ => eq_refl)
                  (DeploymentTracker.deployments (DeploymentTracker.inventory tr))) as H.
    destruct (DeploymentTracker.update_in_providers _ did _) as [deps|]; cbn [snd]; auto.
    destruct H as [d (_ & _ & H)].
    cbn [DeploymentTracker.save_inventory DeploymentTracker.with_deployments
         DeploymentTracker.inventory DeploymentTracker.deployments].
    now rewrite H.
  - unfold DeploymentTracker.add_client_to_deployment.
    pose proof (update_in_providers_spec (DeploymentTracker.append_client info now) did
                  (fun _ => eq_refl)
                  (DeploymentTracker.deployments (DeploymentTracker.inventory tr))) as H.
    destruct (DeploymentTracker.update_in_providers _ did _) as [deps|]; cbn [snd]; auto.
    destruct H as [d (_ & _ & H)].
    cbn [DeploymentTracker.save_inventory DeploymentTracker.with_deployments
         DeploymentTracker.inventory DeploymentTracker.deployments].
    now rewrite H.
  - unfold DeploymentTracker.remove_deployment.
    pose proof (update_in_providers_spec (DeploymentTracker.mark_destroyed now) did
                  (fun _ => eq_refl)
                  (DeploymentTracker.deployments (DeploymentTracker.inventory tr))) as H.
    destruct (DeploymentTracker.update_in_providers _ did _) as [deps|]; cbn [snd]; auto.
    destruct H as [d (_ & _ & H)].
    cbn [DeploymentTracker.save_inventory DeploymentTracker.inventory
         DeploymentTracker.deployments].
    now rewrite H.
Qed.

Lemma cleanup_regions_flat (cutoff_date : DateTime.t)
    (regions : dict (list DeploymentTracker.deployment)) :
  flat_map snd (fst (DeploymentTracker.cleanup_regions cutoff_date regions))
  = filter (fun d => negb (DeploymentTracker.expired cutoff_date d))
           (flat_map snd regions).
Proof.
  induction regions as [|[r l] rest IH]; simpl; auto.
  destruct (DeploymentTracker.cleanup_regions cutoff_date rest) as [rest' n].
  simpl in *. rewrite filter_app, <- IH.
  destruct (filter (fun d => negb (DeploymentTracker.expired cutoff_date d)) l);
    reflexivity.
Qed.

(** The cleanup keeps exactly the records that are not expired. *)
Lemma cleanup_providers_flat (cutoff_date : DateTime.t)
    (deps : dict (dict (list DeploymentTracker.deployment))) :
  DeploymentTracker.list_all (fst (DeploymentTracker.cleanup_providers cutoff_date deps))
  = filter (fun d => negb (DeploymentTracker.expired cutoff_date d))
           (DeploymentTracker.list_all deps).
Proof.
  unfold DeploymentTracker.list_all.
  induction deps as [|[p regions] rest IH]; simpl; auto.
  pose proof (cleanup_regions_flat cutoff_date regions) as Hr.
  destruct (DeploymentTracker.cleanup_regions cutoff_date regions) as [regions' n].
  destruct (DeploymentTracker.cleanup_providers cutoff_date rest) as [rest' m].
  simpl in *. rewrite filter_app, <- IH, <- Hr.
  destruct regions'; reflexivity.
Qed.

Lemma find_filter_kept {A : Type} (p keep : A -> bool) (l : list A) (x : A) :
  find p l = Some x -> keep x = true -> find p (filter keep l) = Some x.
Proof.
  induction l as [|y l IH]; simpl; [discriminate|].
  destruct (p y) eqn:Ep.
  - intros H Hk. injection H as ->. rewrite Hk. simpl. now rewrite Ep.
  - intros H Hk. destruct (keep y); simpl; [rewrite Ep|]; auto.
Qed.

(** ** IP Allocator: release *)

Lemma release_first_find (dep_id : string) (now : DateTime.t)
    (e : dict IPManager.ip_info) :
  find (fun kv => (IPManager.deployment_id (snd kv) =? dep_id)%string)
       (IPManager.release_first dep_id now e)
  = option_map
      (fun kv =>
         (fst kv,
          IPManager.mk_ip_info (IPManager.public_ip (snd kv))
            (IPManager.deployment_id (snd kv)) (IPManager.provider (snd kv))
            (IPManager.region (snd kv)) (IPManager.allocated_at (snd kv))
            "released" (Some now) (IPManager.avoid_reason (snd kv))))
      (find (fun kv => (IPManager.deployment_id (snd kv) =? dep_id)%string) e).
Proof.
  induction e as [|[k info] e IH]; simpl; auto.
  destruct (IPManager.deployment_id info =? dep_id)%string eqn:E; simpl; rewrite E; auto.
Qed.

(** The registration that the allocator finds for a deployment is
    released by [release_deployment_ip]. *)
Lemma release_deployment_ip_info (dep_id : string) (now : DateTime.t)
    (m : IPManager.t) (info : IPManager.ip_info) :
  IPManager.get_deployment_info dep_id m = Some info ->
  exists info',
    IPManager.get_deployment_info dep_id (IPManager.release_deployment_ip dep_id now m)
    = Some info'
    /\ IPManager.status info' = "released"
    /\ IPManager.released_at info' = Some now
    /\ IPManager.public_ip info' = IPManager.public_ip info
    /\ IPManager.deployment_id info' = IPManager.deployment_id info.
Proof.
  unfold IPManager.get_deployment_info, IPManager.release_deployment_ip.
  cbn [IPManager.save_ip_registry IPManager.registry IPManager.elastic_ips
       IPManager.with_elastic_ips].
  rewrite release_first_find.
  destruct (find _ (IPManager.elastic_ips (IPManager.registry m))) as [[k i]|];
    [|discriminate].
  simpl. intros H. injection H as <-. eexists. split; [reflexivity|]. auto.
Qed.

(** ** The soft delete *)

(** C2: for an id that the Ledger holds, [remove_deployment] returns true;
    afterwards [get_deployment] returns the record, marked ["destroyed"] and
    stamped with the time of the call, and the IP registration that the
    allocator finds for the deployment is released. No other call of the
    Ledger makes an id irretrievable; [cleanup_destroyed_deployments] keeps
    the record unless the stamp is older than its cutoff, and drops it when
    it is. *)
Theorem soft_delete (tr : DeploymentTracker.t) (deployment_id : string)
    (now : DateTime.t) :
  DeploymentTracker.get_deployment deployment_id tr <> None ->
  exists d0 tr',
    DeploymentTracker.get_deployment deployment_id tr = Some d0
    /\ DeploymentTracker.remove_deployment deployment_id now tr = (true, tr')
    /\ (exists d,
          DeploymentTracker.get_deployment deployment_id tr' = Some d
          /\ DeploymentTracker.status d = "destroyed"
          /\ DeploymentTracker.destroyed_at d = Some now
          /\ d = DeploymentTracker.mark_destroyed now d0)
    /\ (forall info,
          IPManager.get_deployment_info deployment_id (DeploymentTracker.ip_manager tr)
          = Some info ->
          exists info',
            IPManager.get_deployment_info deployment_id (DeploymentTracker.ip_manager tr')
            = Some info'
            /\ IPManager.status info' = "released"
            /\ IPManager.released_at info' = Some now
            /\ IPManager.public_ip info' = IPManager.public_ip info)
    /\ (forall c at_ t id',
          DeploymentTracker.get_deployment id' t <> None ->
          DeploymentTracker.get_deployment id' (DeploymentTracker.run_call c at_ t)
          <> None)
    /\ (forall days_old at_ cleaned tr'',
          DeploymentTracker.cleanup_destroyed_deployments days_old at_ tr'
          = Return (cleaned, tr'') ->
          exists cutoff_date,
            DateTime.minus_days at_ days_old = Return cutoff_date
            /\ (DateTime.ltb now cutoff_date = false ->
                DeploymentTracker.get_deployment deployment_id tr''
                = Some (DeploymentTracker.mark_destroyed now d0))
            /\ (DateTime.ltb now cutoff_date = true ->
                ~ In (DeploymentTracker.mark_destroyed now d0)
                     (DeploymentTracker.list_all_deployments tr''))).
Proof.
  intros Hpresent.
  pose proof (update_in_providers_spec (DeploymentTracker.mark_destroyed now)
                deployment_id (fun _ => eq_refl)
                (DeploymentTracker.deployments (DeploymentTracker.inventory tr))) as Hup.
  rewrite get_deployment_find in Hpresent.
  unfold DeploymentTracker.list_all_deployments in Hpresent.
  destruct (DeploymentTracker.update_in_providers _ deployment_id _) as [deps|] eqn:Eup;
    [|contradiction].
  destruct Hup as [d0 (Hbefore & Hafter & _)].
  exists d0. eexists.
  split; [rewrite get_deployment_find; exact Hbefore|].
  split; [unfold DeploymentTracker.remove_deployment; rewrite Eup; reflexivity|].
  assert (Hget : DeploymentTracker.get_deployment deployment_id
                   (DeploymentTracker.save_inventory now
                      (DeploymentTracker.mk
                         (DeploymentTracker.mk_inventory deps
                            (DeploymentTracker.metadata (DeploymentTracker.inventory tr)))
                         (DeploymentTracker.inventory_file tr)
                         (DeploymentTracker.inventory_backup tr)
                         (IPManager.release_deployment_ip deployment_id now
                            (DeploymentTracker.ip_manager tr))))
                 = Some (DeploymentTracker.mark_destroyed now d0)).
  { rewrite get_deployment_find. exact Hafter. }
  split; [exists (DeploymentTracker.mark_destroyed now d0); auto|].
  split.
  { intros info Hinfo. cbn [DeploymentTracker.save_inventory DeploymentTracker.ip_manager].
    destruct (release_deployment_ip_info deployment_id now _ info Hinfo)
      as [info' (H1 & H2 & H3 & H4 & _)].
    exists info'. auto. }
  split; [intros c at_ t id'; apply run_call_keeps_ids|].
  intros days_old at_ cleaned tr'' Hclean.
  unfold DeploymentTracker.cleanup_destroyed_deployments in Hclean.
  destruct (DateTime.minus_days at_ days_old) as [cutoff_date|]; [|discriminate].
  cbn [bind] in Hclean. exists cutoff_date. split; [reflexivity|].
  cbn [DeploymentTracker.save_inventory DeploymentTracker.inventory
       DeploymentTracker.deployments] in Hclean.
  pose proof (cleanup_providers_flat cutoff_date deps) as Hflat.
  destruct (DeploymentTracker.cleanup_providers cutoff_date deps) as [deps'' n].
  cbn [fst] in Hflat.
  assert (Hall : DeploymentTracker.list_all_deployments tr''
                 = filter (fun d => negb (DeploymentTracker.expired cutoff_date d))
                          (DeploymentTracker.list_all deps)).
  { injection Hclean as _ <-. rewrite <- Hflat.
    destruct (0 <? n); reflexivity. }
  assert (Hexp : DeploymentTracker.expired cutoff_date
                   (DeploymentTracker.mark_destroyed now d0)
                 = DateTime.ltb now cutoff_date) by reflexivity.
  split.
  - intros Hlt. rewrite get_deployment_find, Hall.
    apply find_filter_kept; [exact Hafter|]. now rewrite Hexp, Hlt.
  - intros Hlt Hin. rewrite Hall in Hin. apply filter_In in Hin.
    destruct Hin as [_ Hkeep]. rewrite Hexp, Hlt in Hkeep. discriminate.
Qed.

Lemma soft_delete_witness :
  DeploymentTracker.get_deployment Sample.tracked_id Sample.tracked <> None
  /\ exists d tr' cleaned20 tr20 cleaned40 tr40,
       DeploymentTracker.remove_deployment Sample.tracked_id Sample.noon_and_a_half
         Sample.tracked = (true, tr')
       /\ DeploymentTracker.get_deployment Sample.tracked_id tr' = Some d
       /\ DeploymentTracker.status d = "destroyed"
       /\ DeploymentTracker.cleanup_destroyed_deployments 30 Sample.twenty_days_later tr'
          = Return (cleaned20, tr20)
       /\ DeploymentTracker.get_deployment Sample.tracked_id tr20 = Some d
       /\ DeploymentTracker.cleanup_destroyed_deployments 30 Sample.forty_days_later tr'
          = Return (cleaned40, tr40)
       /\ ~ In d (DeploymentTracker.list_all_deployments tr40).
Proof.
  assert (Hp : DeploymentTracker.get_deployment Sample.tracked_id Sample.tracked <> None)
    by (vm_compute; discriminate).
  split; [exact Hp|].
  destruct (soft_delete Sample.tracked Sample.tracked_id Sample.noon_and_a_half Hp)
    as (d0 & tr' & _ & Hrm & (d & Hget & Hst & _ & Hd) & _ & _ & Hclean).
  assert (Htr : tr' = snd (DeploymentTracker.remove_deployment Sample.tracked_id
                             Sample.noon_and_a_half Sample.tracked))
    by (now rewrite Hrm).
  destruct (DeploymentTracker.cleanup_destroyed_deployments 30 Sample.twenty_days_later tr')
    as [[cleaned20 tr20]|] eqn:E20;
    [|rewrite Htr in E20; vm_compute in E20; discriminate].
  destruct (DeploymentTracker.cleanup_destroyed_deployments 30 Sample.forty_days_later tr')
    as [[cleaned40 tr40]|] eqn:E40;
    [|rewrite Htr in E40; vm_compute in E40; discriminate].
  destruct (Hclean 30 Sample.twenty_days_later cleaned20 tr20 E20)
    as (c20 & Hc20 & Hkeep & _).
  destruct (Hclean 30 Sample.forty_days_later cleaned40 tr40 E40)
    as (c40 & Hc40 & _ & Hdrop).
  vm_compute in Hc20. injection Hc20 as <-.
  vm_compute in Hc40. injection Hc40 as <-.
  exists d, tr', cleaned20, tr20, cleaned40, tr40. subst d.
  repeat split; auto.
Defined.

(** ** Import of discovered resources *)

Lemma scalar_eqb_refl (v : scalar) : eqb v v = true.
Proof.
  destruct v as [|b|z|s]; simpl; auto.
  - destruct b; reflexivity.
  - apply Z.eqb_refl.
  - apply String.eqb_refl.
Qed.

Lemma str_in_two (s a b : string) :
  str_in s [a; b] = ((s =? a)%string || (s =? b)%string).
Proof.
  unfold str_in. cbn [existsb]. rewrite orb_false_r.
  now rewrite (String.eqb_sym a), (String.eqb_sym b).
Qed.

(** The test of the loop is the match on the natural key. *)
Lemma same_resource_natural_key (prov : string)
    (e : DeploymentTracker.deployment) (dep : CloudDiscovery.discovered) :
  CloudDiscovery.same_resource prov e dep = CloudDiscovery.matches_natural_key prov e dep.
Proof.
  unfold CloudDiscovery.same_resource, CloudDiscovery.matches_natural_key,
    CloudDiscovery.natural_key. rewrite str_in_two.
  destruct (prov =? "aws")%string eqn:Ea; cbn [andb].
  - apply String.eqb_eq in Ea. subst prov. cbn [String.eqb Ascii.eqb Bool.eqb andb orb].
    destruct (eqb _ _); reflexivity.
  - destruct (prov =? "azure")%string eqn:Ez; cbn [andb].
    + apply String.eqb_eq in Ez. subst prov.
      cbn [String.eqb Ascii.eqb Bool.eqb andb orb].
      destruct (eqb _ _); reflexivity.
    + destruct ((prov =? "digitalocean")%string || (prov =? "hetzner")%string);
        cbn [andb]; auto.
      destruct (eqb _ _); reflexivity.
Qed.

Lemma already_tracked_exists (prov : string)
    (existing : list DeploymentTracker.deployment) (dep : CloudDiscovery.discovered) :
  CloudDiscovery.already_tracked prov existing dep = true
  <-> exists e, In e existing /\ CloudDiscovery.matches_natural_key prov e dep = true.
Proof.
  induction existing as [|x l IH]; simpl.
  - split; [discriminate | intros [e [[] _]]].
  - rewrite same_resource_natural_key.
    destruct (CloudDiscovery.matches_natural_key prov x dep) eqn:E.
    + split; auto. intros _. exists x. auto.
    + rewrite IH. split.
      * intros [e [Hin He]]. exists e. auto.
      * intros [e [[<-|Hin] He]]; [congruence|]. exists e. auto.
Qed.

Lemma already_tracked_app (prov : string)
    (l suffix : list DeploymentTracker.deployment) (dep : CloudDiscovery.discovered) :
  CloudDiscovery.already_tracked prov l dep = true ->
  CloudDiscovery.already_tracked prov (l ++ suffix) dep = true.
Proof.
  rewrite !already_tracked_exists. intros [e [Hin He]]. exists e. split; auto.
  apply in_or_app. auto.
Qed.

Lemma extends_refl (tr : DeploymentTracker.t) : DeploymentTracker.extends tr tr.
Proof. intros p r. exists []. now rewrite app_nil_r. Qed.

Lemma extends_trans (a b c : DeploymentTracker.t) :
  DeploymentTracker.extends a b -> DeploymentTracker.extends b c ->
  DeploymentTracker.extends a c.
Proof.
  intros Hab Hbc p r. destruct (Hab p r) as [s1 H1]. destruct (Hbc p r) as [s2 H2].
  exists (s1 ++ s2)%list. now rewrite H2, H1, app_assoc.
Qed.

Lemma appended_extends (d : DeploymentTracker.deployment) (tr tr1 : DeploymentTracker.t) :
  DeploymentTracker.appended d tr tr1 -> DeploymentTracker.extends tr tr1.
Proof.
  intros [Hsame Hother] p r.
  destruct (string_dec p (DeploymentTracker.provider d)) as [->|Hp];
    [destruct (string_dec r (DeploymentTracker.region d)) as [->|Hr]|].
  - exists [d]. exact Hsame.
  - exists []. rewrite app_nil_r. apply Hother. auto.
  - exists []. rewrite app_nil_r. apply Hother. auto.
Qed.

Lemma covered_extends (prov : string) (dep : CloudDiscovery.discovered)
    (tr tr' : DeploymentTracker.t) :
  DeploymentTracker.extends tr tr' ->
  CloudDiscovery.covered prov dep tr = true ->
  CloudDiscovery.covered prov dep tr' = true.
Proof.
  unfold CloudDiscovery.covered. intros Hext H.
  destruct (Hext (CloudDiscovery.d_provider dep) (CloudDiscovery.d_region dep))
    as [suffix ->].
  now apply already_tracked_app.
Qed.

(** The resources of an imported record carry the natural key of the
    discovered resource. *)
Lemma import_resources_key (prov : string) (dep : CloudDiscovery.discovered)
    (res : dict scalar) (d : DeploymentTracker.deployment) :
  CloudDiscovery.known_provider prov = true ->
  CloudDiscovery.import_resources prov dep = Return res ->
  DeploymentTracker.resources d = res ->
  CloudDiscovery.same_resource prov d dep = true.
Proof.
  intros Hk Hres Hd. rewrite same_resource_natural_key.
  unfold CloudDiscovery.matches_natural_key. rewrite Hd. clear Hd.
  apply str_in_true in Hk. simpl in Hk.
  unfold CloudDiscovery.import_resources, item in Hres.
  destruct Hk as [<-|[<-|[<-|[<-|[]]]]]; simpl in Hres |- *.
  - destruct (get "instance_id" (CloudDiscovery.fields dep)) as [v|] eqn:E;
      [|discriminate].
    simpl in Hres. injection Hres as <-. unfold get_or_none. simpl. rewrite E.
    apply scalar_eqb_refl.
  - destruct (get "vm_name" (CloudDiscovery.fields dep)) as [v|] eqn:E; [|discriminate].
    simpl in Hres.
    destruct (get "resource_group" (CloudDiscovery.fields dep)) as [g|]; [|discriminate].
    simpl in Hres. injection Hres as <-. unfold get_or_none. simpl. rewrite E.
    apply scalar_eqb_refl.
  - destruct (get "instance_name" (CloudDiscovery.fields dep)) as [v|] eqn:E;
      [|discriminate].
    simpl in Hres.
    destruct (get "instance_id" (CloudDiscovery.fields dep)) as [g|]; [|discriminate].
    simpl in Hres. injection Hres as <-. unfold get_or_none. simpl. rewrite E.
    apply scalar_eqb_refl.
  - destruct (get "instance_name" (CloudDiscovery.fields dep)) as [v|] eqn:E;
      [|discriminate].
    simpl in Hres.
    destruct (get "instance_id" (CloudDiscovery.fields dep)) as [g|]; [|discriminate].
    simpl in Hres. injection Hres as <-. unfold get_or_none. simpl. rewrite E.
    apply scalar_eqb_refl.
Qed.

Lemma add_deployment_synced (deployment_id prov reg : string) (res : dict scalar)
    (conf : option (dict scalar)) (now : DateTime.t)
    (tr tr1 : DeploymentTracker.t) (id' : string) :
  DeploymentTracker.synced tr ->
  DeploymentTracker.add_deployment deployment_id prov reg res conf now tr
  = Return (id', tr1) ->
  DeploymentTracker.synced tr1.
Proof.
  intros [Hreg _]. unfold DeploymentTracker.add_deployment.
  destruct (DeploymentTracker._estimate_cost prov res conf); [|discriminate].
  cbn [bind]. intros H. injection H as _ <-.
  unfold DeploymentTracker.synced. split.
  - cbn [DeploymentTracker.save_inventory DeploymentTracker.ip_manager].
    destruct (get "public_ip" res); [reflexivity | exact Hreg].
  - left. reflexivity.
Qed.

(** What one turn of the import loop does to a Ledger. *)
Lemma import_one_cases (prov : string) (dep : CloudDiscovery.discovered)
    (now : DateTime.t) (tr : DeploymentTracker.t) :
  CloudDiscovery.known_provider prov = true ->
  match CloudDiscovery.import_one prov dep now tr with
  | Return (tr', false) => tr' = tr /\ CloudDiscovery.covered prov dep tr = true
  | Return (tr', true) =>
      CloudDiscovery.covered prov dep tr = false
      /\ CloudDiscovery.covered prov dep tr' = true
      /\ DeploymentTracker.extends tr tr'
      /\ (DeploymentTracker.synced tr -> DeploymentTracker.synced tr')
  | Raise _ => CloudDiscovery.covered prov dep tr = false
  end.
Proof.
  intros Hk. unfold CloudDiscovery.import_one.
  fold (CloudDiscovery.covered prov dep tr).
  destruct (CloudDiscovery.covered prov dep tr) eqn:Ec; [auto|].
  destruct (CloudDiscovery._generate_deployment_id dep) as [did|]; cbn [bind]; auto.
  destruct (CloudDiscovery.import_resources prov dep) as [res|] eqn:Eres;
    cbn [bind]; auto.
  destruct (DeploymentTracker.add_deployment did _ _ res _ now tr) as [[id' tr1]|] eqn:Eadd;
    cbn [bind snd]; auto.
  split; [reflexivity|].
  pose proof Eadd as Eadd'.
  apply add_deployment_appends in Eadd.
  destruct Eadd as [d (Happ & _ & _ & Hp & Hr & _ & Hres & _)].
  split; [|split].
  - unfold CloudDiscovery.covered. destruct Happ as [Hsame _].
    rewrite Hp, Hr in Hsame. rewrite Hsame.
    apply already_tracked_exists. exists d. split; [apply in_or_app; simpl; auto|].
    rewrite <- same_resource_natural_key.
    eapply import_resources_key; eauto.
  - eapply appended_extends; eauto.
  - intros Hs. eapply add_deployment_synced; eauto.
Qed.

(** Whether a turn raises does not depend on the clock. *)
Lemma import_one_raises_alike (prov : string) (dep : CloudDiscovery.discovered)
    (now1 now2 : DateTime.t) (tr : DeploymentTracker.t) (e : exn) :
  CloudDiscovery.import_one prov dep now1 tr = Raise e ->
  exists e', CloudDiscovery.import_one prov dep now2 tr = Raise e'.
Proof.
  unfold CloudDiscovery.import_one.
  destruct (CloudDiscovery.already_tracked prov _ dep); [discriminate|].
  destruct (CloudDiscovery._generate_deployment_id dep) as [did|]; cbn [bind];
    [|intros _; eexists; reflexivity].
  destruct (CloudDiscovery.import_resources prov dep) as [res|]; cbn [bind];
    [|intros _; eexists; reflexivity].
  unfold DeploymentTracker.add_deployment.
  destruct (DeploymentTracker._estimate_cost _ res _); cbn [bind];
    [discriminate | intros _; eexists; reflexivity].
Qed.

Lemma import_one_covered (prov : string) (dep : CloudDiscovery.discovered)
    (now : DateTime.t) (tr : DeploymentTracker.t) :
  CloudDiscovery.covered prov dep tr = true ->
  CloudDiscovery.import_one prov dep now tr = Return (tr, false).
Proof.
  unfold CloudDiscovery.import_one, CloudDiscovery.covered. now intros ->.
Qed.

Section Replay.
Variables now1 now2 : DateTime.t.

(** A second pass over a list, on a Ledger that extends the one the
    first pass left, imports nothing and stops where the first stopped. *)
Lemma import_list_replay (prov : string) (l : list CloudDiscovery.discovered) :
  CloudDiscovery.known_provider prov = true ->
  forall st,
    CloudDiscovery.raised st = false ->
    let st1 := CloudDiscovery.import_list prov l now1 st in
    DeploymentTracker.extends (CloudDiscovery.tracker st) (CloudDiscovery.tracker st1)
    /\ (DeploymentTracker.synced (CloudDiscovery.tracker st) ->
        DeploymentTracker.synced (CloudDiscovery.tracker st1))
    /\ forall T c,
        DeploymentTracker.extends (CloudDiscovery.tracker st1) T ->
        (CloudDiscovery.raised st1 = true -> T = CloudDiscovery.tracker st1) ->
        CloudDiscovery.import_list prov l now2 (CloudDiscovery.mk_loop T c false)
        = CloudDiscovery.mk_loop T c (CloudDiscovery.raised st1).
Proof.
  intros Hk. induction l as [|dep rest IH]; intros st Hst; cbn zeta.
  - cbn [CloudDiscovery.import_list]. split; [apply extends_refl|].
    split; [auto|]. intros T c _ _. now rewrite Hst.
  - cbn [CloudDiscovery.import_list]. rewrite Hst.
    cbn [CloudDiscovery.raised].
    pose proof (import_one_cases prov dep now1 (CloudDiscovery.tracker st) Hk) as Hone.
    destruct (CloudDiscovery.import_one prov dep now1 (CloudDiscovery.tracker st))
      as [[tr imported]|e] eqn:E1.
    + set (st' := CloudDiscovery.mk_loop tr
                    (if imported then CloudDiscovery.imported_count st + 1
                     else CloudDiscovery.imported_count st) false).
      destruct (IH st' eq_refl) as (Hext & Hsync & Hreplay).
      cbn [CloudDiscovery.tracker st'] in Hext, Hsync.
      assert (Hstep : DeploymentTracker.extends (CloudDiscovery.tracker st) tr
                      /\ (DeploymentTracker.synced (CloudDiscovery.tracker st) ->
                          DeploymentTracker.synced tr)
                      /\ CloudDiscovery.covered prov dep tr = true).
      { destruct imported.
        - destruct Hone as (_ & Hc & He & Hs). auto.
        - destruct Hone as [-> Hc]. split; [apply extends_refl|]. auto. }
      destruct Hstep as (He0 & Hs0 & Hcov).
      split; [eapply extends_trans; eauto|]. split; [auto|].
      intros T c HT Hraised.
      assert (HcT : CloudDiscovery.covered prov dep T = true).
      { eapply covered_extends; [|exact Hcov]. eapply extends_trans; eauto. }
      cbn [CloudDiscovery.tracker CloudDiscovery.imported_count].
      rewrite (import_one_covered prov dep now2 T HcT).
      apply Hreplay; assumption.
    + cbn [CloudDiscovery.tracker CloudDiscovery.raised].
      split; [apply extends_refl|]. split; [auto|].
      intros T c _ HT. rewrite (HT eq_refl).
      cbn [CloudDiscovery.tracker CloudDiscovery.imported_count].
      destruct (import_one_raises_alike prov dep now1 now2 _ e E1) as [e' ->].
      reflexivity.
Qed.

Lemma import_all_raised (ds : dict (list CloudDiscovery.discovered))
    (now : DateTime.t) (st : CloudDiscovery.loop_state) :
  CloudDiscovery.raised st = true -> CloudDiscovery.import_all ds now st = st.
Proof. intros H. destruct ds as [|[p l] rest]; simpl; auto. now rewrite H. Qed.

Lemma import_all_replay (ds : dict (list CloudDiscovery.discovered)) :
  (forall prov, In prov (keys ds) -> CloudDiscovery.known_provider prov = true) ->
  forall st,
    CloudDiscovery.raised st = false ->
    let st1 := CloudDiscovery.import_all ds now1 st in
    DeploymentTracker.extends (CloudDiscovery.tracker st) (CloudDiscovery.tracker st1)
    /\ (DeploymentTracker.synced (CloudDiscovery.tracker st) ->
        DeploymentTracker.synced (CloudDiscovery.tracker st1))
    /\ forall T c,
        DeploymentTracker.extends (CloudDiscovery.tracker st1) T ->
        (CloudDiscovery.raised st1 = true -> T = CloudDiscovery.tracker st1) ->
        CloudDiscovery.import_all ds now2 (CloudDiscovery.mk_loop T c false)
        = CloudDiscovery.mk_loop T c (CloudDiscovery.raised st1).
Proof.
  induction ds as [|[prov l] rest IH]; intros Hkeys st Hst; cbn zeta.
  - cbn [CloudDiscovery.import_all]. split; [apply extends_refl|].
    split; [auto|]. intros T c _ _. now rewrite Hst.
  - cbn [CloudDiscovery.import_all]. rewrite Hst. cbn [CloudDiscovery.raised].
    assert (Hk : CloudDiscovery.known_provider prov = true)
      by (apply Hkeys; simpl; auto).
    assert (Hkeys' : forall p, In p (keys rest) ->
                               CloudDiscovery.known_provider p = true)
      by (intros p Hp; apply Hkeys; simpl; auto).
    destruct (import_list_replay prov l Hk st Hst) as (Hext & Hsync & Hreplay).
    set (mid := CloudDiscovery.import_list prov l now1 st) in *.
    destruct (CloudDiscovery.raised mid) eqn:Emid.
    + rewrite (import_all_raised rest now1 mid Emid).
      split; [exact Hext|]. split; [exact Hsync|].
      intros T c HT Hr. rewrite (Hreplay T c HT (fun _ => Hr Emid)).
      rewrite Emid. now apply import_all_raised.
    + destruct (IH Hkeys' mid Emid) as (Hext' & Hsync' & Hreplay').
      split; [eapply extends_trans; eauto|]. split; [auto|].
      intros T c HT Hr.
      rewrite (Hreplay T c (extends_trans _ _ _ Hext' HT)
                 (fun H => ltac:(discriminate H))).
      apply Hreplay'; assumption.
Qed.

End Replay.

Lemma init_synced (now : DateTime.t) (d : DeploymentTracker.disk)
    (tr : DeploymentTracker.t) :
  DeploymentTracker.init now d = Return tr -> DeploymentTracker.synced tr.
Proof.
  unfold DeploymentTracker.init, IPManager.init, IPManager.load_ip_registry.
  destruct d as [inv backup reg]. cbn [DeploymentTracker.disk_ip_registry
    DeploymentTracker.disk_inventory DeploymentTracker.disk_inventory_backup].
  destruct reg as [|[|r]]; cbn [bind]; try discriminate;
    intros H; injection H as <-;
    destruct inv as [|[|i]]; (split; [reflexivity|]); cbn; auto.
Qed.

Lemma synced_reloads (now : DateTime.t) (tr : DeploymentTracker.t) :
  DeploymentTracker.synced tr ->
  DeploymentTracker.init now (DeploymentTracker.disk_of tr) = Return tr.
Proof.
  destruct tr as [inv file backup [reg regfile]].
  unfold DeploymentTracker.synced, DeploymentTracker.init, DeploymentTracker.disk_of.
  cbn. intros [-> [-> | [-> ->]]]; reflexivity.
Qed.

Lemma init_raises_alike (now1 now2 : DateTime.t) (d : DeploymentTracker.disk) (e : exn) :
  DeploymentTracker.init now1 d = Raise e -> DeploymentTracker.init now2 d = Raise e.
Proof.
  unfold DeploymentTracker.init, IPManager.init, IPManager.load_ip_registry.
  destruct (DeploymentTracker.disk_ip_registry d) as [|[|r]]; cbn [bind]; auto;
    discriminate.
Qed.

(** C4: on discoveries keyed by the four providers, a second import of
    the same discoveries, on the state files that the first import left,
    imports nothing and leaves the files as they are; and a resource is
    skipped exactly when a record of its provider and region in the Ledger
    matches it on the natural key of the provider. *)
Theorem import_idempotent (ds : dict (list CloudDiscovery.discovered))
    (now1 now2 : DateTime.t) (d : DeploymentTracker.disk) :
  (forall prov, In prov (keys ds) -> CloudDiscovery.known_provider prov = true) ->
  (let first := CloudDiscovery.import_discovered_deployments ds now1 d in
   CloudDiscovery.import_discovered_deployments ds now2 (snd first) = (0, snd first))
  /\ (forall prov dep now tr,
        CloudDiscovery.import_one prov dep now tr = Return (tr, false)
        <-> exists existing_dep,
              In existing_dep
                (DeploymentTracker.get_deployments_by_region
                   (CloudDiscovery.d_provider dep) (CloudDiscovery.d_region dep) tr)
              /\ CloudDiscovery.matches_natural_key prov existing_dep dep = true).
Proof.
  intros Hkeys. split.
  - cbn zeta. unfold CloudDiscovery.import_discovered_deployments.
    destruct (DeploymentTracker.init now1 d) as [tr0|e] eqn:E0.
    + cbn [snd].
      destruct (import_all_replay now1 now2 ds Hkeys
                  (CloudDiscovery.mk_loop tr0 0 false) eq_refl)
        as (_ & Hsync & Hreplay).
      cbn [CloudDiscovery.tracker] in Hsync.
      rewrite (synced_reloads now2 _ (Hsync (init_synced _ _ _ E0))).
      rewrite (Hreplay _ 0 (extends_refl _) (fun _ => eq_refl)).
      reflexivity.
    + cbn [snd]. now rewrite (init_raises_alike now1 now2 d e E0).
  - intros prov dep now tr. rewrite <- already_tracked_exists.
    fold (CloudDiscovery.covered prov dep tr). split.
    + unfold CloudDiscovery.import_one. fold (CloudDiscovery.covered prov dep tr).
      destruct (CloudDiscovery.covered prov dep tr); auto.
      destruct (CloudDiscovery._generate_deployment_id dep); cbn [bind];
        [|discriminate].
      destruct (CloudDiscovery.import_resources prov dep); cbn [bind]; [|discriminate].
      destruct (DeploymentTracker.add_deployment _ _ _ _ _ _ _) as [[? ?]|];
        cbn [bind]; discriminate.
    + apply import_one_covered.
Qed.

Lemma import_idempotent_witness :
  let first := CloudDiscovery.import_discovered_deployments Sample.discoveries
                 Sample.noon DeploymentTracker.empty_disk in
  fst first = 2
  /\ CloudDiscovery.import_discovered_deployments Sample.discoveries
       Sample.noon_and_a_half (snd first) = (0, snd first).
Proof.
  intros first. split; [vm_compute; reflexivity|].
  apply (import_idempotent Sample.discoveries Sample.noon Sample.noon_and_a_half
           DeploymentTracker.empty_disk).
  intros prov [<-|[<-|[]]]; reflexivity.
Defined.

(* ================================================================== *)
(** ** Dictionaries: keys, deletion and the position of an entry *)

Lemma get_none_keys {V : Type} (k : string) (d : dict V) :
  get k d = None <-> ~ In k (keys d).
Proof.
  induction d as [|[k' v] d IH]; simpl.
  - tauto.
  - destruct (k' =? k)%string eqn:E.
    + apply String.eqb_eq in E. split; [discriminate | intros H; exfalso; auto].
    + apply String.eqb_neq in E. rewrite IH. tauto.
Qed.

Lemma get_app_absent {V : Type} (k : string) (a b : dict V) :
  get k a = None -> get k (a ++ b)%list = get k b.
Proof.
  induction a as [|[k' v] a IH]; simpl; auto.
  destruct (k' =? k)%string; [discriminate | auto].
Qed.

Lemma del_app_absent {V : Type} (k : string) (a b : dict V) :
  get k a = None -> del k (a ++ b)%list = (a ++ del k b)%list.
Proof.
  induction a as [|[k' v] a IH]; simpl; auto.
  destruct (k' =? k)%string; [discriminate |].
  intros H. now rewrite IH.
Qed.

Lemma set_app_absent {V : Type} (k : string) (v : V) (a b : dict V) :
  get k a = None -> set k v (a ++ b)%list = (a ++ set k v b)%list.
Proof.
  induction a as [|[k' v'] a IH]; simpl; auto.
  destruct (k' =? k)%string; [discriminate |].
  intros H. now rewrite IH.
Qed.

Lemma set_absent {V : Type} (k : string) (v : V) (d : dict V) :
  get k d = None -> set k v d = (d ++ [(k, v)])%list.
Proof.
  induction d as [|[k' v'] d IH]; simpl; auto.
  destruct (k' =? k)%string; [discriminate |].
  intros H. now rewrite IH.
Qed.

(** The entry that [get] finds is the first of its key. *)
Lemma get_split {V : Type} (k : string) (v : V) (d : dict V) :
  get k d = Some v ->
  exists a b, d = (a ++ (k, v) :: b)%list /\ get k a = None.
Proof.
  induction d as [|[k' v'] d IH]; simpl; [discriminate|].
  destruct (k' =? k)%string eqn:E.
  - intros H. injection H as ->. apply String.eqb_eq in E. subst k'.
    exists [], d. split; reflexivity.
  - intros H. destruct (IH H) as [a [b [-> Ha]]].
    exists ((k', v') :: a), b. split; [reflexivity|]. simpl. now rewrite E.
Qed.

(* ================================================================== *)
(** ** IP Allocator: what a returned subnet is *)

Lemma probe_returns_candidate (used : list string) (subnet_second : Z) (fuel : nat) :
  forall b subnet,
    IPManager.in_range b ->
    IPManager.probe fuel used b subnet_second = Some subnet ->
    str_in subnet used = false /\
    exists b', IPManager.in_range b' /\ subnet = IPManager.subnet_str b' subnet_second.
Proof.
  induction fuel as [|fuel IH]; intros b subnet Hb; simpl; [discriminate|].
  destruct (str_in (IPManager.subnet_str b subnet_second) used) eqn:E.
  - apply IH, next_base_in_range.
  - intros H. injection H as <-. split; [exact E|]. now exists b.
Qed.

(** X2: Whenever [generate_client_subnet] returns, the subnet was assigned to
    no deployment before, it is [10.b.s.0/24] with [b] between 10 and 209
    and [s], between 0 and 254, fixed by the timestamp; it is then
    assigned to the deployment, the other assignments are as they were,
    and the registry file holds the new registry. *)
Theorem generate_client_subnet_fresh (fuel : nat) (dep_id : string) (timestamp : Z)
    (now : DateTime.t) (m m' : IPManager.t) (subnet : string) :
  IPManager.generate_client_subnet fuel dep_id timestamp now m = Some (subnet, m') ->
  ~ In subnet (values (IPManager.client_subnets (IPManager.registry m)))
  /\ (exists b, 10 <= b <= 209 /\
        subnet = IPManager.subnet_str b ((timestamp / 200) mod 255))
  /\ 0 <= (timestamp / 200) mod 255 <= 254
  /\ get dep_id (IPManager.client_subnets (IPManager.registry m')) = Some subnet
  /\ (forall d, d <> dep_id ->
        get d (IPManager.client_subnets (IPManager.registry m'))
        = get d (IPManager.client_subnets (IPManager.registry m)))
  /\ IPManager.elastic_ips (IPManager.registry m')
     = IPManager.elastic_ips (IPManager.registry m)
  /\ IPManager.ip_registry m' = Present (Valid (IPManager.registry m')).
Proof.
  unfold IPManager.generate_client_subnet.
  destruct (IPManager.probe fuel _ _ _) as [s|] eqn:Hp; [|discriminate].
  intros H. injection H as <- <-.
  destruct (probe_returns_candidate _ _ _ _ _ (timestamp_base_in_range timestamp) Hp)
    as [Hfree [b [Hb ->]]].
  split.
  { intros Hin. apply str_in_true in Hin. rewrite Hin in Hfree. discriminate. }
  split; [now exists b|].
  split; [pose proof (Z.mod_pos_bound (timestamp / 200) 255); lia|].
  cbn [IPManager.save_ip_registry IPManager.registry IPManager.client_subnets
       IPManager.with_client_subnets IPManager.elastic_ips IPManager.ip_registry].
  split; [apply get_set_same|].
  split; [intros d Hd; apply get_set_other; congruence|].
  split; reflexivity.
Qed.

Lemma generate_client_subnet_fresh_witness :
  exists subnet m',
    IPManager.generate_client_subnet 200 "dep-c" 1700000211 Sample.noon Sample.two_ips
    = Some (subnet, m')
    /\ ~ In subnet (values (IPManager.client_subnets (IPManager.registry Sample.two_ips)))
    /\ (exists b, 10 <= b <= 209 /\
          subnet = IPManager.subnet_str b ((1700000211 / 200) mod 255))
    /\ get "dep-c" (IPManager.client_subnets (IPManager.registry m')) = Some subnet.
Proof.
  eexists. eexists. split; [vm_compute; reflexivity|].
  destruct (generate_client_subnet_fresh 200 "dep-c" 1700000211 Sample.noon Sample.two_ips
              _ _ eq_refl) as (H1 & H2 & _ & H4 & _).
  split; [exact H1|]. split; [exact H2 | exact H4].
Defined.

(* ================================================================== *)
(** ** IP Allocator: registrations *)

(** X3: [register_deployment_ip] stores an active registration under the key
    [provider-region-deployment_id], replacing what the key held; the IP
    is then among the conflicts of the provider and region; no other key
    changes, and the registry file holds the new registry. *)
Theorem register_deployment_ip_listed (dep_id prov reg : string) (ip : scalar)
    (now : DateTime.t) (m : IPManager.t) :
  let key := prov ++ "-" ++ reg ++ "-" ++ dep_id in
  let m' := IPManager.register_deployment_ip dep_id prov reg ip now m in
  In ip (IPManager.check_ip_conflicts prov reg m')
  /\ get key (IPManager.elastic_ips (IPManager.registry m'))
     = Some (IPManager.mk_ip_info ip dep_id prov reg now "active" None None)
  /\ (forall k, k <> key ->
        get k (IPManager.elastic_ips (IPManager.registry m'))
        = get k (IPManager.elastic_ips (IPManager.registry m)))
  /\ IPManager.ip_registry m' = Present (Valid (IPManager.registry m')).
Proof.
  intros key m'. subst m'. unfold IPManager.register_deployment_ip, IPManager.check_ip_conflicts.
  cbn [IPManager.save_ip_registry IPManager.registry IPManager.elastic_ips
       IPManager.with_elastic_ips IPManager.ip_registry].
  fold key. repeat split.
  - apply in_map_iff.
    exists (key, IPManager.mk_ip_info ip dep_id prov reg now "active" None None).
    split; [reflexivity|]. apply filter_In. split; [apply in_set_new|].
    cbn [snd IPManager.provider IPManager.region IPManager.status].
    now rewrite !String.eqb_refl.
  - apply get_set_same.
  - intros k Hk. apply get_set_other. congruence.
Qed.

(** The first entry that a test finds splits the dictionary. *)
Lemma find_split {A : Type} (p : A -> bool) (l : list A) (x : A) :
  find p l = Some x ->
  exists a b, l = (a ++ x :: b)%list /\ find p a = None /\ p x = true.
Proof.
  induction l as [|y l IH]; simpl; [discriminate|].
  destruct (p y) eqn:E.
  - intros H. injection H as ->. exists [], l. auto.
  - intros H. destruct (IH H) as [a [b [-> [Ha Hx]]]].
    exists (y :: a), b. simpl. rewrite E. auto.
Qed.

Lemma release_first_none (dep_id : string) (now : DateTime.t) (e : dict IPManager.ip_info) :
  find (fun kv => (IPManager.deployment_id (snd kv) =? dep_id)%string) e = None ->
  IPManager.release_first dep_id now e = e.
Proof.
  induction e as [|[k info] e IH]; simpl; auto.
  destruct (IPManager.deployment_id info =? dep_id)%string; [discriminate|].
  intros H. now rewrite IH.
Qed.

Lemma release_first_app (dep_id : string) (now : DateTime.t)
    (a b : dict IPManager.ip_info) :
  find (fun kv => (IPManager.deployment_id (snd kv) =? dep_id)%string) a = None ->
  IPManager.release_first dep_id now (a ++ b)%list
  = (a ++ IPManager.release_first dep_id now b)%list.
Proof.
  induction a as [|[k info] a IH]; simpl; auto.
  destruct (IPManager.deployment_id info =? dep_id)%string; [discriminate|].
  intros H. now rewrite IH.
Qed.

Lemma avoid_first_app (dep_id : string) (a b : dict IPManager.ip_info) :
  find (fun kv => (IPManager.deployment_id (snd kv) =? dep_id)%string) a = None ->
  IPManager.avoid_first dep_id (a ++ b)%list
  = option_map (app a) (IPManager.avoid_first dep_id b).
Proof.
  induction a as [|[k info] a IH]; simpl.
  - intros _. now destruct (IPManager.avoid_first dep_id b).
  - destruct (IPManager.deployment_id info =? dep_id)%string; [discriminate|].
    intros H. rewrite IH by exact H.
    now destruct (IPManager.avoid_first dep_id b).
Qed.

Lemma avoid_first_none (dep_id : string) (e : dict IPManager.ip_info) :
  find (fun kv => (IPManager.deployment_id (snd kv) =? dep_id)%string) e = None ->
  IPManager.avoid_first dep_id e = None.
Proof.
  induction e as [|[k info] e IH]; simpl; auto.
  destruct (IPManager.deployment_id info =? dep_id)%string; [discriminate|].
  intros H. now rewrite IH.
Qed.

Lemma find_other_deployment (dep_id d : string) (k : string) (info info' : IPManager.ip_info)
    (a b : dict IPManager.ip_info) :
  IPManager.deployment_id info = dep_id ->
  IPManager.deployment_id info' = dep_id ->
  d <> dep_id ->
  find (fun kv => (IPManager.deployment_id (snd kv) =? d)%string) (a ++ (k, info') :: b)%list
  = find (fun kv => (IPManager.deployment_id (snd kv) =? d)%string) (a ++ (k, info) :: b)%list.
Proof.
  intros H1 H2 Hd. induction a as [|x a IH]; simpl.
  - rewrite H1, H2. destruct (dep_id =? d)%string eqn:E; auto.
    apply String.eqb_eq in E. congruence.
  - now rewrite IH.
Qed.

(** X4: [release_deployment_ip] for a deployment without a registration
    changes no registration, and still rewrites the registry file. One
    with a registration has it marked ["released"] and stamped with the
    time of the call, also when it was released before: the earlier
    stamp is replaced. The registrations that [get_deployment_info] finds
    for the other deployments are as they were, and no entry is added or
    removed. *)
Theorem release_deployment_ip_effect (dep_id : string) (now : DateTime.t)
    (m : IPManager.t) :
  let m' := IPManager.release_deployment_ip dep_id now m in
  (IPManager.get_deployment_info dep_id m = None ->
     IPManager.elastic_ips (IPManager.registry m')
     = IPManager.elastic_ips (IPManager.registry m))
  /\ (forall info, IPManager.get_deployment_info dep_id m = Some info ->
        IPManager.get_deployment_info dep_id m'
        = Some (IPManager.mk_ip_info (IPManager.public_ip info) dep_id
                  (IPManager.provider info) (IPManager.region info)
                  (IPManager.allocated_at info) "released" (Some now)
                  (IPManager.avoid_reason info)))
  /\ (forall d, d <> dep_id ->
        IPManager.get_deployment_info d m' = IPManager.get_deployment_info d m)
  /\ keys (IPManager.elastic_ips (IPManager.registry m'))
     = keys (IPManager.elastic_ips (IPManager.registry m))
  /\ IPManager.ip_registry m' = Present (Valid (IPManager.registry m'))
  /\ IPManager.last_updated (IPManager.registry m') = now.
Proof.
  intros m'. subst m'.
  unfold IPManager.get_deployment_info, IPManager.release_deployment_ip.
  cbn [IPManager.save_ip_registry IPManager.registry IPManager.elastic_ips
       IPManager.with_elastic_ips IPManager.ip_registry IPManager.last_updated].
  set (e := IPManager.elastic_ips (IPManager.registry m)).
  destruct (find (fun kv => (IPManager.deployment_id (snd kv) =? dep_id)%string) e)
    as [[k info]|] eqn:Hf.
  - destruct (find_split _ _ _ Hf) as [a [b [He [Ha Hk]]]].
    cbn [snd] in Hk. apply String.eqb_eq in Hk.
    assert (Hrel : IPManager.release_first dep_id now e
                   = (a ++ (k, IPManager.mk_ip_info (IPManager.public_ip info)
                                 (IPManager.deployment_id info) (IPManager.provider info)
                                 (IPManager.region info) (IPManager.allocated_at info)
                                 "released" (Some now) (IPManager.avoid_reason info))
                         :: b)%list).
    { rewrite He, release_first_app by exact Ha. simpl.
      rewrite Hk, String.eqb_refl. reflexivity. }
    rewrite Hrel. repeat split.
    + discriminate.
    + intros info0 H. simpl in H. injection H as <-.
      rewrite find_app, Ha. simpl. rewrite Hk, String.eqb_refl. reflexivity.
    + intros d Hd. rewrite He. f_equal.
      apply (find_other_deployment dep_id); auto.
    + rewrite He. unfold keys. rewrite !map_app. reflexivity.
  - rewrite release_first_none by exact Hf. rewrite Hf. repeat split; auto.
    discriminate.
Qed.

Lemma count_app {A : Type} (p : A -> bool) (a b : list A) :
  length (filter p (a ++ b)) = (length (filter p a) + length (filter p b))%nat.
Proof. now rewrite filter_app, length_app. Qed.

(** X5: Releasing the active registration of a deployment moves one entry of
    the usage report from active to released; the total stays. *)
Theorem release_moves_one_active (dep_id : string) (now : DateTime.t)
    (m : IPManager.t) (info : IPManager.ip_info) :
  IPManager.get_deployment_info dep_id m = Some info ->
  IPManager.status info = "active" ->
  let before := IPManager.get_ip_usage_report m in
  let after := IPManager.get_ip_usage_report (IPManager.release_deployment_ip dep_id now m) in
  IPManager.total_ips after = IPManager.total_ips before
  /\ S (IPManager.active_ips after) = IPManager.active_ips before
  /\ IPManager.released_ips after = S (IPManager.released_ips before)
  /\ IPManager.report_client_subnets after = IPManager.report_client_subnets before.
Proof.
  unfold IPManager.get_deployment_info, IPManager.get_ip_usage_report,
    IPManager.release_deployment_ip.
  cbn [IPManager.save_ip_registry IPManager.registry IPManager.elastic_ips
       IPManager.with_elastic_ips IPManager.client_subnets
       IPManager.total_ips IPManager.active_ips IPManager.released_ips
       IPManager.report_client_subnets].
  set (e := IPManager.elastic_ips (IPManager.registry m)).
  destruct (find (fun kv => (IPManager.deployment_id (snd kv) =? dep_id)%string) e)
    as [[k i]|] eqn:Hf; [|discriminate].
  simpl. intros H Hst. injection H as ->.
  destruct (find_split _ _ _ Hf) as [a [b [He [Ha Hk]]]].
  cbn [snd] in Hk.
  rewrite He, release_first_app by exact Ha. simpl. rewrite Hk.
  rewrite !count_app, !length_app. unfold IPManager.has_status.
  cbn [filter snd IPManager.status]. rewrite Hst.
  cbn [String.eqb Ascii.eqb Bool.eqb length]. repeat split; lia.
Qed.

Lemma release_moves_one_active_witness :
  let m := IPManager.register_deployment_ip "dep-a" "aws" "us-east-1" (SStr "203.0.113.7")
             Sample.noon Sample.empty_manager in
  let before := IPManager.get_ip_usage_report m in
  let after := IPManager.get_ip_usage_report
                 (IPManager.release_deployment_ip "dep-a" Sample.noon_and_a_half m) in
  (exists info, IPManager.get_deployment_info "dep-a" m = Some info
                /\ IPManager.status info = "active")
  /\ IPManager.total_ips after = IPManager.total_ips before
  /\ S (IPManager.active_ips after) = IPManager.active_ips before
  /\ IPManager.released_ips after = S (IPManager.released_ips before)
  /\ IPManager.report_client_subnets after = IPManager.report_client_subnets before.
Proof.
  cbv zeta. split.
  - eexists. split; [vm_compute; reflexivity | reflexivity].
  - eapply release_moves_one_active; [vm_compute; reflexivity | reflexivity].
Defined.

(* ================================================================== *)
(** ** IP Allocator: the purge of old registrations *)

Lemma cleanup_keys_filter (cutoff_date : DateTime.t) :
  forall (e2 e1 : dict IPManager.ip_info),
    NoDup (keys e2) ->
    (forall k, In k (keys e2) -> get k e1 = None) ->
    IPManager.cleanup_keys cutoff_date (keys e2) (e1 ++ e2)%list
    = Return (e1 ++ filter (fun kv => negb (IPManager.stale cutoff_date (snd kv))) e2)%list.
Proof.
  induction e2 as [|[k info] e2 IH]; intros e1 Hnd Hdis.
  - reflexivity.
  - change (keys ((k, info) :: e2)) with (k :: keys e2).
    cbn [IPManager.cleanup_keys].
    assert (Hk : get k e1 = None) by (apply Hdis; left; reflexivity).
    unfold item. rewrite get_app_absent by exact Hk.
    cbn [get]. rewrite String.eqb_refl. cbn [bind filter snd].
    inversion Hnd as [|? ? Hnotin Hnd']; subst.
    destruct (IPManager.stale cutoff_date info); cbn [negb].
    + rewrite del_app_absent by exact Hk. cbn [del]. rewrite String.eqb_refl.
      apply IH; auto. intros k' Hin. apply Hdis. right. exact Hin.
    + replace (e1 ++ (k, info) :: e2)%list with ((e1 ++ [(k, info)]) ++ e2)%list
        by (now rewrite <- app_assoc).
      rewrite (IH (e1 ++ [(k, info)])%list Hnd').
      * now rewrite <- app_assoc.
      * intros k' Hin. rewrite get_app_absent by (apply Hdis; right; exact Hin).
        simpl. destruct (k =? k')%string eqn:E; auto.
        apply String.eqb_eq in E. subst k'. contradiction.
Qed.

(** X6: [cleanup_old_ips] removes exactly the registrations that are released
    and whose release is before the cutoff, [max_age_days] before the
    call: a registration that is active, marked to avoid, or released
    after the cutoff stays, in its place. The client subnets are not
    touched: a subnet stays assigned when the registration of its
    deployment is purged. The keys of a dictionary are distinct. *)
Theorem cleanup_old_ips_purges (max_age_days : Z) (now cutoff_date : DateTime.t)
    (m : IPManager.t) :
  NoDup (keys (IPManager.elastic_ips (IPManager.registry m))) ->
  DateTime.minus_days now max_age_days = Return cutoff_date ->
  exists m',
    IPManager.cleanup_old_ips max_age_days now m = Return m'
    /\ IPManager.elastic_ips (IPManager.registry m')
       = filter (fun kv =>
                   negb ((IPManager.status (snd kv) =? "released")%string &&
                         match IPManager.released_at (snd kv) with
                         | Some released_date => DateTime.ltb released_date cutoff_date
                         | None => false
                         end))
           (IPManager.elastic_ips (IPManager.registry m))
    /\ IPManager.client_subnets (IPManager.registry m')
       = IPManager.client_subnets (IPManager.registry m)
    /\ IPManager.ip_registry m' = Present (Valid (IPManager.registry m')).
Proof.
  intros Hnd Hcut. unfold IPManager.cleanup_old_ips. rewrite Hcut. cbn [bind].
  pose proof (cleanup_keys_filter cutoff_date
                (IPManager.elastic_ips (IPManager.registry m)) [] Hnd
                (fun _ _ => eq_refl)) as H.
  cbn [app] in H. rewrite H. cbn [bind].
  eexists. split; [reflexivity|].
  cbn [IPManager.save_ip_registry IPManager.registry IPManager.elastic_ips
       IPManager.with_elastic_ips IPManager.client_subnets IPManager.ip_registry].
  repeat split.
Qed.

Lemma cleanup_old_ips_purges_witness :
  NoDup (keys (IPManager.elastic_ips (IPManager.registry Sample.two_ips)))
  /\ DateTime.minus_days Sample.forty_days_later 30 = Return (DateTime.mk 2024 1 25 12 0 0 0)
  /\ exists m',
       IPManager.cleanup_old_ips 30 Sample.forty_days_later Sample.two_ips = Return m'
       /\ keys (IPManager.elastic_ips (IPManager.registry m')) = ["aws-us-east-1-dep-a"].
Proof.
  assert (Hnd : NoDup (keys (IPManager.elastic_ips (IPManager.registry Sample.two_ips)))).
  { vm_compute. repeat constructor; simpl; intuition discriminate. }
  assert (Hcut : DateTime.minus_days Sample.forty_days_later 30
                 = Return (DateTime.mk 2024 1 25 12 0 0 0)) by reflexivity.
  split; [exact Hnd|]. split; [exact Hcut|].
  destruct (cleanup_old_ips_purges 30 Sample.forty_days_later _ Sample.two_ips Hnd Hcut)
    as (m' & Hm & He & _).
  exists m'. split; [exact Hm|]. rewrite He. reflexivity.
Defined.

(* ================================================================== *)
(** ** IP Allocator: forcing a new allocation *)

(** X7: [force_new_ip_allocation] marks the registration that
    [get_deployment_info] finds for the deployment ["avoid"], with the
    reason ["forced_new_allocation"], whatever its status was, and writes
    the registry; the registrations found for the other deployments stay
    as they are. For a deployment without a registration it changes
    nothing and writes nothing. *)
Theorem force_new_ip_allocation_effect (dep_id : string) (now : DateTime.t)
    (m : IPManager.t) :
  let m' := IPManager.force_new_ip_allocation dep_id now m in
  (IPManager.get_deployment_info dep_id m = None -> m' = m)
  /\ (forall info, IPManager.get_deployment_info dep_id m = Some info ->
        IPManager.get_deployment_info dep_id m'
        = Some (IPManager.mk_ip_info (IPManager.public_ip info) dep_id
                  (IPManager.provider info) (IPManager.region info)
                  (IPManager.allocated_at info) "avoid" (IPManager.released_at info)
                  (Some "forced_new_allocation"))
        /\ (forall d, d <> dep_id ->
              IPManager.get_deployment_info d m' = IPManager.get_deployment_info d m)
        /\ keys (IPManager.elastic_ips (IPManager.registry m'))
           = keys (IPManager.elastic_ips (IPManager.registry m))
        /\ IPManager.ip_registry m' = Present (Valid (IPManager.registry m'))).
Proof.
  intros m'. subst m'.
  unfold IPManager.get_deployment_info, IPManager.force_new_ip_allocation.
  set (e := IPManager.elastic_ips (IPManager.registry m)).
  destruct (find (fun kv => (IPManager.deployment_id (snd kv) =? dep_id)%string) e)
    as [[k info]|] eqn:Hf.
  - destruct (find_split _ _ _ Hf) as [a [b [He [Ha Hk]]]].
    cbn [snd] in Hk. apply String.eqb_eq in Hk.
    rewrite He, avoid_first_app by exact Ha. simpl.
    rewrite Hk, String.eqb_refl. simpl.
    split; [discriminate|].
    intros info0 H. injection H as <-.
    repeat split.
    + rewrite find_app, Ha. simpl. rewrite String.eqb_refl. reflexivity.
    + intros d Hd. f_equal. apply (find_other_deployment dep_id); auto.
    + unfold keys. rewrite !map_app. reflexivity.
  - rewrite avoid_first_none by exact Hf. split; [reflexivity | discriminate].
Qed.

(* ================================================================== *)
(** ** Deployment Ledger: where a record is stored and updated *)

(** [store_record] inserts the record between the records of the Ledger,
    which keep their order. *)
Lemma store_record_inserts (rec : DeploymentTracker.deployment)
    (deps : dict (dict (list DeploymentTracker.deployment))) :
  exists a b,
    DeploymentTracker.list_all deps = (a ++ b)%list
    /\ DeploymentTracker.list_all (DeploymentTracker.store_record rec deps)
       = (a ++ rec :: b)%list.
Proof.
  unfold DeploymentTracker.store_record, DeploymentTracker.list_all, mem.
  set (prov := DeploymentTracker.provider rec).
  set (reg := DeploymentTracker.region rec).
  destruct (get prov deps) as [regions|] eqn:Ep.
  - rewrite Ep.
    destruct (get_split _ _ _ Ep) as [A [B [-> HA]]].
    destruct (get reg regions) as [l|] eqn:Er.
    + rewrite Er.
      destruct (get_split _ _ _ Er) as [C [D [-> HC]]].
      rewrite (set_app_absent reg _ C) by exact HC. cbn [set]. rewrite String.eqb_refl.
      rewrite (set_app_absent prov _ A) by exact HA. cbn [set]. rewrite String.eqb_refl.
      rewrite !flat_map_app. cbn [flat_map snd]. rewrite !flat_map_app.
      cbn [flat_map snd].
      exists (flat_map (fun p => flat_map snd (snd p)) A ++ flat_map snd C ++ l)%list,
             (flat_map snd D ++ flat_map (fun p => flat_map snd (snd p)) B)%list.
      rewrite <- !app_assoc. split; reflexivity.
    + rewrite get_set_same.
      rewrite (set_absent reg [] regions Er).
      rewrite (set_app_absent reg _ regions) by exact Er. cbn [set].
      rewrite String.eqb_refl.
      rewrite (set_app_absent prov _ A) by exact HA. cbn [set]. rewrite String.eqb_refl.
      rewrite !flat_map_app. cbn [flat_map snd]. rewrite !flat_map_app.
      cbn [flat_map snd app].
      exists (flat_map (fun p => flat_map snd (snd p)) A ++ flat_map snd regions)%list,
             (flat_map (fun p => flat_map snd (snd p)) B).
      rewrite <- !app_assoc. split; reflexivity.
  - rewrite get_set_same. cbn [get set]. rewrite String.eqb_refl.
    rewrite (set_absent prov [] deps Ep).
    rewrite (set_app_absent prov _ deps) by exact Ep. cbn [set]. rewrite String.eqb_refl.
    rewrite !flat_map_app. cbn [flat_map snd app].
    exists (flat_map (fun p => flat_map snd (snd p)) deps), [].
    rewrite !app_nil_r. split; reflexivity.
Qed.

Section UpdatePlace.
Variable f : DeploymentTracker.deployment -> DeploymentTracker.deployment.
Variable deployment_id : string.

Lemma update_in_list_place (l : list DeploymentTracker.deployment) :
  match DeploymentTracker.update_in_list f deployment_id l with
  | Some l' =>
      exists a d b,
        l = (a ++ d :: b)%list
        /\ find (DeploymentTracker.has_id deployment_id) a = None
        /\ DeploymentTracker.has_id deployment_id d = true
        /\ l' = (a ++ f d :: b)%list
  | None => find (DeploymentTracker.has_id deployment_id) l = None
  end.
Proof.
  induction l as [|x l IH]; simpl; auto.
  destruct (DeploymentTracker.has_id deployment_id x) eqn:Ex.
  - exists [], x, l. auto.
  - destruct (DeploymentTracker.update_in_list f deployment_id l) as [l'|]; simpl; auto.
    destruct IH as (a & d & b & -> & Ha & Hd & ->).
    exists (x :: a), d, b. simpl. rewrite Ex. auto.
Qed.

Lemma update_in_regions_place (regions : dict (list DeploymentTracker.deployment)) :
  match DeploymentTracker.update_in_regions f deployment_id regions with
  | Some regions' =>
      exists a d b,
        flat_map snd regions = (a ++ d :: b)%list
        /\ find (DeploymentTracker.has_id deployment_id) a = None
        /\ DeploymentTracker.has_id deployment_id d = true
        /\ flat_map snd regions' = (a ++ f d :: b)%list
        /\ keys regions' = keys regions
  | None =>
      find (DeploymentTracker.has_id deployment_id) (flat_map snd regions) = None
  end.
Proof.
  induction regions as [|[r l] rest IH]; simpl; auto.
  pose proof (update_in_list_place l) as Hl.
  destruct (DeploymentTracker.update_in_list f deployment_id l) as [l'|].
  - destruct Hl as (a & d & b & -> & Ha & Hd & ->).
    exists a, d, (b ++ flat_map snd rest)%list. simpl.
    rewrite <- !app_assoc. auto.
  - destruct (DeploymentTracker.update_in_regions f deployment_id rest) as [rest'|];
      simpl.
    + destruct IH as (a & d & b & H1 & Ha & Hd & H2 & Hk).
      exists (l ++ a)%list, d, b. rewrite H1, H2, find_app, Hl, Ha, <- !app_assoc.
      unfold keys in *. rewrite Hk. auto.
    + rewrite find_app, Hl. exact IH.
Qed.

Lemma update_in_providers_place
    (deps : dict (dict (list DeploymentTracker.deployment))) :
  match DeploymentTracker.update_in_providers f deployment_id deps with
  | Some deps' =>
      exists a d b,
        DeploymentTracker.list_all deps = (a ++ d :: b)%list
        /\ find (DeploymentTracker.has_id deployment_id) a = None
        /\ DeploymentTracker.has_id deployment_id d = true
        /\ DeploymentTracker.list_all deps' = (a ++ f d :: b)%list
        /\ keys deps' = keys deps
  | None =>
      find (DeploymentTracker.has_id deployment_id) (DeploymentTracker.list_all deps)
      = None
  end.
Proof.
  unfold DeploymentTracker.list_all.
  induction deps as [|[p regions] rest IH]; simpl; auto.
  pose proof (update_in_regions_place regions) as Hr.
  destruct (DeploymentTracker.update_in_regions f deployment_id regions)
    as [regions'|].
  - destruct Hr as (a & d & b & H1 & Ha & Hd & H2 & _).
    exists a, d, (b ++ flat_map (fun p0 => flat_map snd (snd p0)) rest)%list. simpl.
    rewrite H1, H2, <- !app_assoc. auto.
  - destruct (DeploymentTracker.update_in_providers f deployment_id rest) as [rest'|];
      simpl.
    + destruct IH as (a & d & b & H1 & Ha & Hd & H2 & Hk).
      exists (flat_map snd regions ++ a)%list, d, b.
      rewrite H1, H2, find_app, Hr, Ha, <- !app_assoc.
      unfold keys in *. rewrite Hk. auto.
    + rewrite find_app, Hr. exact IH.
Qed.

End UpdatePlace.

Lemma find_replaced_other (x deployment_id : string)
    (d d' : DeploymentTracker.deployment) (a b : list DeploymentTracker.deployment) :
  DeploymentTracker.id d = deployment_id ->
  DeploymentTracker.id d' = deployment_id ->
  x <> deployment_id ->
  find (DeploymentTracker.has_id x) (a ++ d' :: b)
  = find (DeploymentTracker.has_id x) (a ++ d :: b).
Proof.
  intros H1 H2 Hx. rewrite !find_app.
  destruct (find (DeploymentTracker.has_id x) a); auto.
  cbn [find]. unfold DeploymentTracker.has_id. rewrite H1, H2.
  destruct (deployment_id =? x)%string eqn:E; auto.
  apply String.eqb_eq in E. congruence.
Qed.

Lemma find_inserted_other (x : string) (rec : DeploymentTracker.deployment)
    (a b : list DeploymentTracker.deployment) :
  x <> DeploymentTracker.id rec ->
  find (DeploymentTracker.has_id x) (a ++ rec :: b)
  = find (DeploymentTracker.has_id x) (a ++ b).
Proof.
  intros Hx. rewrite !find_app.
  destruct (find (DeploymentTracker.has_id x) a); auto.
  cbn [find]. unfold DeploymentTracker.has_id.
  destruct (DeploymentTracker.id rec =? x)%string eqn:E; auto.
  apply String.eqb_eq in E. congruence.
Qed.

Lemma registered_ip_conflicts (dep_id prov reg : string) (ip : scalar)
    (now : DateTime.t) (m : IPManager.t) :
  In ip (IPManager.check_ip_conflicts prov reg
           (IPManager.register_deployment_ip dep_id prov reg ip now m)).
Proof.
  unfold IPManager.register_deployment_ip, IPManager.check_ip_conflicts.
  cbn [IPManager.save_ip_registry IPManager.registry IPManager.elastic_ips
       IPManager.with_elastic_ips].
  apply in_map_iff.
  exists (prov ++ "-" ++ reg ++ "-" ++ dep_id,
          IPManager.mk_ip_info ip dep_id prov reg now "active" None None).
  split; [reflexivity|]. apply filter_In. split; [apply in_set_new|].
  cbn [snd IPManager.provider IPManager.region IPManager.status].
  now rewrite !String.eqb_refl.
Qed.

(* ================================================================== *)
(** ** Deployment Ledger: add, then look up *)

(** X8: After [add_deployment] returns an id, the lookups of every other id
    are as before and the Ledger has one record more. When the id was not
    in the Ledger, [get_deployment] of it returns the new record: active,
    created at the time of the call, with the given provider, region and
    resources, no client and no destruction stamp. When the resources
    have a ["public_ip"] key, its value is among the IP conflicts of the
    provider and region afterwards. *)
Theorem add_deployment_lookup (deployment_id prov reg : string) (res : dict scalar)
    (conf : option (dict scalar)) (now : DateTime.t)
    (tr tr1 : DeploymentTracker.t) (id' : string) :
  DeploymentTracker.add_deployment deployment_id prov reg res conf now tr
  = Return (id', tr1) ->
  (forall x, x <> id' ->
     DeploymentTracker.get_deployment x tr1 = DeploymentTracker.get_deployment x tr)
  /\ length (DeploymentTracker.list_all_deployments tr1)
     = S (length (DeploymentTracker.list_all_deployments tr))
  /\ (DeploymentTracker.get_deployment id' tr = None ->
      exists d,
        DeploymentTracker.get_deployment id' tr1 = Some d
        /\ DeploymentTracker.id d = id'
        /\ DeploymentTracker.provider d = prov
        /\ DeploymentTracker.region d = reg
        /\ DeploymentTracker.status d = "active"
        /\ DeploymentTracker.created_at d = now
        /\ DeploymentTracker.resources d = res
        /\ DeploymentTracker.clients d = []
        /\ DeploymentTracker.destroyed_at d = None)
  /\ (forall ip_value, get "public_ip" res = Some ip_value ->
        In ip_value (IPManager.check_ip_conflicts prov reg
                       (DeploymentTracker.ip_manager tr1))).
Proof.
  unfold DeploymentTracker.add_deployment.
  destruct (DeploymentTracker._estimate_cost prov res conf) as [c|]; [|discriminate].
  cbn [bind]. intros H. injection H as Hid Htr.
  match type of Htr with
  | context [DeploymentTracker.store_record ?r ?deps] =>
      destruct (store_record_inserts r deps) as [a [b [Hab Hins]]];
      set (rec := r) in *
  end.
  assert (Hall1 : DeploymentTracker.list_all_deployments tr1 = (a ++ rec :: b)%list).
  { subst tr1. exact Hins. }
  assert (Hall : DeploymentTracker.list_all_deployments tr = (a ++ b)%list) by exact Hab.
  assert (Hrec : DeploymentTracker.id rec = id') by exact Hid.
  split; [|split; [|split]].
  - intros x Hx. rewrite !get_deployment_find, Hall1, Hall.
    apply find_inserted_other. congruence.
  - rewrite Hall1, Hall, !length_app. simpl. lia.
  - intros Hnone. exists rec. split; [|subst rec; cbn; repeat split; auto].
    rewrite get_deployment_find, Hall, find_app in Hnone.
    rewrite get_deployment_find, Hall1, find_app.
    destruct (find (DeploymentTracker.has_id id') a); [discriminate|].
    cbn [find]. unfold DeploymentTracker.has_id at 1.
    now rewrite Hrec, String.eqb_refl.
  - intros ip_value Hip. subst tr1.
    cbn [DeploymentTracker.save_inventory DeploymentTracker.ip_manager].
    rewrite Hip. apply registered_ip_conflicts.
Qed.

Lemma add_deployment_lookup_witness :
  exists tr1 d,
    DeploymentTracker.add_deployment "" "aws" "us-east-1" Sample.scenario_resources
      (Some Sample.scenario_config) Sample.noon Sample.fresh_tracker
    = Return (Sample.tracked_id, tr1)
    /\ DeploymentTracker.get_deployment Sample.tracked_id Sample.fresh_tracker = None
    /\ DeploymentTracker.get_deployment Sample.tracked_id tr1 = Some d
    /\ DeploymentTracker.status d = "active"
    /\ DeploymentTracker.created_at d = Sample.noon
    /\ In (SStr "1.2.3.4")
          (IPManager.check_ip_conflicts "aws" "us-east-1" (DeploymentTracker.ip_manager tr1)).
Proof.
  eexists.
  assert (Hadd : DeploymentTracker.add_deployment "" "aws" "us-east-1"
                   Sample.scenario_resources (Some Sample.scenario_config) Sample.noon
                   Sample.fresh_tracker
                 = Return (Sample.tracked_id,
                           snd (Sample.tracked_id, Sample.tracked)))
    by (vm_compute; reflexivity).
  destruct (add_deployment_lookup _ _ _ _ _ _ _ _ _ Hadd) as (_ & _ & Hnew & Hip).
  assert (Hnone : DeploymentTracker.get_deployment Sample.tracked_id Sample.fresh_tracker
                  = None) by reflexivity.
  destruct (Hnew Hnone) as (d & Hget & _ & _ & _ & Hst & Hat & _).
  exists d. split; [exact Hadd|]. split; [exact Hnone|]. split; [exact Hget|].
  split; [exact Hst|]. split; [exact Hat|].
  apply Hip. reflexivity.
Defined.

(* ================================================================== *)
(** ** Deployment Ledger: the state files follow every call *)

Lemma run_call_synced (c : DeploymentTracker.call) (now : DateTime.t)
    (tr : DeploymentTracker.t) :
  DeploymentTracker.synced tr -> DeploymentTracker.synced (DeploymentTracker.run_call c now tr).
Proof.
  intros Hs. destruct c as [did prov reg res conf | did st | did info | did];
    cbn [DeploymentTracker.run_call].
  - destruct (DeploymentTracker.add_deployment did prov reg res conf now tr)
      as [[id' tr1]|] eqn:E; [|exact Hs].
    exact (add_deployment_synced _ _ _ _ _ _ _ _ _ Hs E).
  - unfold DeploymentTracker.update_deployment_status.
    destruct (DeploymentTracker.update_in_providers _ did _); [|exact Hs].
    destruct Hs as [Hreg _]. split; [exact Hreg | left; reflexivity].
  - unfold DeploymentTracker.add_client_to_deployment.
    destruct (DeploymentTracker.update_in_providers _ did _); [|exact Hs].
    destruct Hs as [Hreg _]. split; [exact Hreg | left; reflexivity].
  - unfold DeploymentTracker.remove_deployment.
    destruct (DeploymentTracker.update_in_providers _ did _); [|exact Hs].
    split; [reflexivity | left; reflexivity].
Qed.

Lemma run_calls_synced (cs : list (DeploymentTracker.call * DateTime.t)) :
  forall tr, DeploymentTracker.synced tr ->
             DeploymentTracker.synced (DeploymentTracker.run_calls cs tr).
Proof.
  unfold DeploymentTracker.run_calls.
  induction cs as [|[c now] cs IH]; intros tr Hs; simpl; auto.
  apply IH, run_call_synced, Hs.
Qed.

(** X9: A Ledger built on a state directory and used for any sequence of
    [add_deployment], [update_deployment_status],
    [add_client_to_deployment] and [remove_deployment] calls has written
    all of its state: a Ledger built afterwards on the files it left is
    the same Ledger, inventory and IP registry alike. *)
Theorem ledger_survives_restart (now0 now1 : DateTime.t) (d : DeploymentTracker.disk)
    (tr : DeploymentTracker.t) (cs : list (DeploymentTracker.call * DateTime.t)) :
  DeploymentTracker.init now0 d = Return tr ->
  DeploymentTracker.init now1 (DeploymentTracker.disk_of (DeploymentTracker.run_calls cs tr))
  = Return (DeploymentTracker.run_calls cs tr).
Proof.
  intros Hinit. apply synced_reloads, run_calls_synced.
  exact (init_synced _ _ _ Hinit).
Qed.

Lemma ledger_survives_restart_witness :
  let cs := [(DeploymentTracker.AddDeployment "" "aws" "us-east-1"
                Sample.scenario_resources (Some Sample.scenario_config), Sample.noon);
             (DeploymentTracker.AddClientToDeployment Sample.tracked_id
                [("name", SStr "laptop")], Sample.noon_and_a_half);
             (DeploymentTracker.RemoveDeployment Sample.tracked_id,
              Sample.twenty_days_later)] in
  DeploymentTracker.init Sample.noon DeploymentTracker.empty_disk
  = Return Sample.fresh_tracker
  /\ DeploymentTracker.init Sample.forty_days_later
       (DeploymentTracker.disk_of (DeploymentTracker.run_calls cs Sample.fresh_tracker))
     = Return (DeploymentTracker.run_calls cs Sample.fresh_tracker).
Proof.
  cbv zeta.
  assert (Hinit : DeploymentTracker.init Sample.noon DeploymentTracker.empty_disk
                  = Return Sample.fresh_tracker) by reflexivity.
  split; [exact Hinit|].
  exact (ledger_survives_restart Sample.noon Sample.forty_days_later _ _ _ Hinit).
Defined.

(** X10: A call on a Ledger whose inventory file holds its inventory either
    changes nothing or saves: then the inventory file holds the new
    inventory and the backup file holds the inventory as it was before
    the call, whatever the backup held. *)
Theorem backup_is_previous_inventory (c : DeploymentTracker.call) (now : DateTime.t)
    (tr : DeploymentTracker.t) :
  DeploymentTracker.inventory_file tr = Present (Valid (DeploymentTracker.inventory tr)) ->
  let tr' := DeploymentTracker.run_call c now tr in
  tr' = tr
  \/ (DeploymentTracker.inventory_backup tr' = Present (Valid (DeploymentTracker.inventory tr))
      /\ DeploymentTracker.inventory_file tr'
         = Present (Valid (DeploymentTracker.inventory tr'))
      /\ DeploymentTracker.meta_last_updated
           (DeploymentTracker.metadata (DeploymentTracker.inventory tr')) = Some now).
Proof.
  intros Hfile tr'. subst tr'.
  destruct c as [did prov reg res conf | did st | did info | did];
    cbn [DeploymentTracker.run_call].
  - unfold DeploymentTracker.add_deployment.
    destruct (DeploymentTracker._estimate_cost prov res conf); cbn [bind]; [|now left].
    right. unfold DeploymentTracker.save_inventory.
    cbn [DeploymentTracker.inventory_file DeploymentTracker.inventory_backup
         DeploymentTracker.inventory DeploymentTracker.metadata
         DeploymentTracker.meta_last_updated].
    rewrite Hfile. auto.
  - unfold DeploymentTracker.update_deployment_status.
    destruct (DeploymentTracker.update_in_providers _ did _); cbn [snd]; [|now left].
    right. unfold DeploymentTracker.save_inventory, DeploymentTracker.with_deployments.
    cbn [DeploymentTracker.inventory_file DeploymentTracker.inventory_backup
         DeploymentTracker.inventory DeploymentTracker.metadata
         DeploymentTracker.meta_last_updated].
    rewrite Hfile. auto.
  - unfold DeploymentTracker.add_client_to_deployment.
    destruct (DeploymentTracker.update_in_providers _ did _); cbn [snd]; [|now left].
    right. unfold DeploymentTracker.save_inventory, DeploymentTracker.with_deployments.
    cbn [DeploymentTracker.inventory_file DeploymentTracker.inventory_backup
         DeploymentTracker.inventory DeploymentTracker.metadata
         DeploymentTracker.meta_last_updated].
    rewrite Hfile. auto.
  - unfold DeploymentTracker.remove_deployment.
    destruct (DeploymentTracker.update_in_providers _ did _); cbn [snd]; [|now left].
    right. unfold DeploymentTracker.save_inventory.
    cbn [DeploymentTracker.inventory_file DeploymentTracker.inventory_backup
         DeploymentTracker.inventory DeploymentTracker.metadata
         DeploymentTracker.meta_last_updated].
    rewrite Hfile. auto.
Qed.

Lemma backup_is_previous_inventory_witness :
  let tr' := DeploymentTracker.run_call
               (DeploymentTracker.UpdateDeploymentStatus Sample.tracked_id "stopped")
               Sample.noon_and_a_half Sample.tracked in
  DeploymentTracker.inventory_file Sample.tracked
  = Present (Valid (DeploymentTracker.inventory Sample.tracked))
  /\ DeploymentTracker.inventory_backup tr'
     = Present (Valid (DeploymentTracker.inventory Sample.tracked))
  /\ DeploymentTracker.inventory_file tr'
     = Present (Valid (DeploymentTracker.inventory tr')).
Proof.
  cbv zeta.
  assert (Hfile : DeploymentTracker.inventory_file Sample.tracked
                  = Present (Valid (DeploymentTracker.inventory Sample.tracked)))
    by reflexivity.
  split; [exact Hfile|].
  destruct (backup_is_previous_inventory
              (DeploymentTracker.UpdateDeploymentStatus Sample.tracked_id "stopped")
              Sample.noon_and_a_half Sample.tracked Hfile) as [Hsame | (Hb & Hf & _)].
  - vm_compute in Hsame. discriminate.
  - split; [exact Hb | exact Hf].
Defined.

(* ================================================================== *)
(** ** Deployment Ledger: status, clients and removal *)

(** X11: [update_deployment_status] on an id the Ledger does not hold returns
    false and changes nothing. On an id it holds it returns true: the
    record that [get_deployment] returned has the new status, whatever
    string it is, and the time of the call as ["last_modified"], and
    nothing else of it changes, not ["destroyed_at"] either; the lookups
    of the other ids and the IP registry are as before. *)
Theorem update_deployment_status_effect (deployment_id new_status : string)
    (now : DateTime.t) (tr : DeploymentTracker.t) :
  (DeploymentTracker.get_deployment deployment_id tr = None ->
     DeploymentTracker.update_deployment_status deployment_id new_status now tr
     = (false, tr))
  /\ (forall d, DeploymentTracker.get_deployment deployment_id tr = Some d ->
        exists tr',
          DeploymentTracker.update_deployment_status deployment_id new_status now tr
          = (true, tr')
          /\ DeploymentTracker.get_deployment deployment_id tr'
             = Some (DeploymentTracker.mk_deployment (DeploymentTracker.id d)
                       (DeploymentTracker.provider d) (DeploymentTracker.region d)
                       (DeploymentTracker.created_at d) new_status
                       (DeploymentTracker.resources d) (DeploymentTracker.config d)
                       (DeploymentTracker.tags d) (DeploymentTracker.cost_estimate d)
                       (DeploymentTracker.clients d) (Some now)
                       (DeploymentTracker.destroyed_at d))
          /\ (forall x, x <> deployment_id ->
                DeploymentTracker.get_deployment x tr'
                = DeploymentTracker.get_deployment x tr)
          /\ DeploymentTracker.ip_manager tr' = DeploymentTracker.ip_manager tr
          /\ DeploymentTracker.inventory_file tr'
             = Present (Valid (DeploymentTracker.inventory tr'))).
Proof.
  unfold DeploymentTracker.update_deployment_status.
  pose proof (update_in_providers_place (DeploymentTracker.set_status new_status now)
                deployment_id
                (DeploymentTracker.deployments (DeploymentTracker.inventory tr))) as H.
  destruct (DeploymentTracker.update_in_providers _ deployment_id _) as [deps|].
  - destruct H as (a & d0 & b & Hall & Ha & Hd & Hall' & _).
    split.
    { rewrite get_deployment_find. unfold DeploymentTracker.list_all_deployments.
      rewrite Hall, find_app, Ha. simpl. rewrite Hd. discriminate. }
    intros d Hget. rewrite get_deployment_find in Hget.
    unfold DeploymentTracker.list_all_deployments in Hget.
    rewrite Hall, find_app, Ha in Hget. simpl in Hget. rewrite Hd in Hget.
    injection Hget as <-.
    eexists. split; [reflexivity|].
    assert (Hid : DeploymentTracker.id d0 = deployment_id)
      by (now apply String.eqb_eq in Hd).
    split; [|split; [|split; reflexivity]].
    + rewrite get_deployment_find. unfold DeploymentTracker.list_all_deployments.
      cbn [DeploymentTracker.save_inventory DeploymentTracker.with_deployments
           DeploymentTracker.inventory DeploymentTracker.deployments].
      rewrite Hall', find_app, Ha. cbn [find].
      change (DeploymentTracker.has_id deployment_id
                (DeploymentTracker.set_status new_status now d0))
        with (DeploymentTracker.has_id deployment_id d0).
      rewrite Hd. reflexivity.
    + intros x Hx. rewrite !get_deployment_find.
      unfold DeploymentTracker.list_all_deployments.
      cbn [DeploymentTracker.save_inventory DeploymentTracker.with_deployments
           DeploymentTracker.inventory DeploymentTracker.deployments].
      rewrite Hall', Hall.
      apply (find_replaced_other x deployment_id); auto.
  - split; [reflexivity|].
    intros d Hget. rewrite get_deployment_find in Hget.
    unfold DeploymentTracker.list_all_deployments in Hget. congruence.
Qed.

(** X12: [add_client_to_deployment] on an id the Ledger does not hold returns
    false and changes nothing. On an id it holds, whatever the status of
    the record, it returns true and the record has one client more, the
    last: its name, address and file are those of [client_info], [None]
    where a key is missing, it is active and created at the time of the
    call. The lookups of the other ids are as before. *)
Theorem add_client_to_deployment_effect (deployment_id : string)
    (client_info : dict scalar) (now : DateTime.t) (tr : DeploymentTracker.t) :
  (DeploymentTracker.get_deployment deployment_id tr = None ->
     DeploymentTracker.add_client_to_deployment deployment_id client_info now tr
     = (false, tr))
  /\ (forall d, DeploymentTracker.get_deployment deployment_id tr = Some d ->
        exists tr' d',
          DeploymentTracker.add_client_to_deployment deployment_id client_info now tr
          = (true, tr')
          /\ DeploymentTracker.get_deployment deployment_id tr' = Some d'
          /\ DeploymentTracker.clients d'
             = (DeploymentTracker.clients d
                ++ [DeploymentTracker.mk_client (get_or_none "name" client_info)
                      (get_or_none "ip_address" client_info) now
                      (get_or_none "config_file" client_info) true])%list
          /\ DeploymentTracker.status d' = DeploymentTracker.status d
          /\ DeploymentTracker.last_modified d' = DeploymentTracker.last_modified d
          /\ (forall x, x <> deployment_id ->
                DeploymentTracker.get_deployment x tr'
                = DeploymentTracker.get_deployment x tr)).
Proof.
  unfold DeploymentTracker.add_client_to_deployment.
  pose proof (update_in_providers_place (DeploymentTracker.append_client client_info now)
                deployment_id
                (DeploymentTracker.deployments (DeploymentTracker.inventory tr))) as H.
  destruct (DeploymentTracker.update_in_providers _ deployment_id _) as [deps|].
  - destruct H as (a & d0 & b & Hall & Ha & Hd & Hall' & _).
    split.
    { rewrite get_deployment_find. unfold DeploymentTracker.list_all_deployments.
      rewrite Hall, find_app, Ha. simpl. rewrite Hd. discriminate. }
    intros d Hget. rewrite get_deployment_find in Hget.
    unfold DeploymentTracker.list_all_deployments in Hget.
    rewrite Hall, find_app, Ha in Hget. simpl in Hget. rewrite Hd in Hget.
    injection Hget as <-.
    eexists. exists (DeploymentTracker.append_client client_info now d0).
    split; [reflexivity|].
    assert (Hid : DeploymentTracker.id d0 = deployment_id)
      by (now apply String.eqb_eq in Hd).
    split; [|split; [reflexivity|split; [reflexivity|split; [reflexivity|]]]].
    + rewrite get_deployment_find. unfold DeploymentTracker.list_all_deployments.
      cbn [DeploymentTracker.save_inventory DeploymentTracker.with_deployments
           DeploymentTracker.inventory DeploymentTracker.deployments].
      rewrite Hall', find_app, Ha. cbn [find].
      change (DeploymentTracker.has_id deployment_id
                (DeploymentTracker.append_client client_info now d0))
        with (DeploymentTracker.has_id deployment_id d0).
      rewrite Hd. reflexivity.
    + intros x Hx. rewrite !get_deployment_find.
      unfold DeploymentTracker.list_all_deployments.
      cbn [DeploymentTracker.save_inventory DeploymentTracker.with_deployments
           DeploymentTracker.inventory DeploymentTracker.deployments].
      rewrite Hall', Hall.
      apply (find_replaced_other x deployment_id); auto.
  - split; [reflexivity|].
    intros d Hget. rewrite get_deployment_find in Hget.
    unfold DeploymentTracker.list_all_deployments in Hget. congruence.
Qed.

(** X13: [remove_deployment] on an id the Ledger does not hold returns false
    and changes nothing, the IP registry included. On a record that is
    already destroyed it returns true again and replaces the destruction
    stamp by the time of the second call, so that the age the cleanup
    measures starts anew. The lookups of the other ids are as before. *)
Theorem remove_deployment_again (deployment_id : string) (now1 now2 : DateTime.t)
    (tr : DeploymentTracker.t) :
  (DeploymentTracker.get_deployment deployment_id tr = None ->
     DeploymentTracker.remove_deployment deployment_id now1 tr = (false, tr))
  /\ (forall d, DeploymentTracker.get_deployment deployment_id tr = Some d ->
        exists tr1 tr2,
          DeploymentTracker.remove_deployment deployment_id now1 tr = (true, tr1)
          /\ DeploymentTracker.remove_deployment deployment_id now2 tr1 = (true, tr2)
          /\ DeploymentTracker.get_deployment deployment_id tr2
             = Some (DeploymentTracker.mark_destroyed now2 d)
          /\ (forall x, x <> deployment_id ->
                DeploymentTracker.get_deployment x tr2
                = DeploymentTracker.get_deployment x tr)).
Proof.
  assert (Hone : forall now t d,
            DeploymentTracker.get_deployment deployment_id t = Some d ->
            exists t',
              DeploymentTracker.remove_deployment deployment_id now t = (true, t')
              /\ DeploymentTracker.get_deployment deployment_id t'
                 = Some (DeploymentTracker.mark_destroyed now d)
              /\ (forall x, x <> deployment_id ->
                    DeploymentTracker.get_deployment x t'
                    = DeploymentTracker.get_deployment x t)).
  { intros now t d Hget. unfold DeploymentTracker.remove_deployment.
    pose proof (update_in_providers_place (DeploymentTracker.mark_destroyed now)
                  deployment_id
                  (DeploymentTracker.deployments (DeploymentTracker.inventory t))) as H.
    rewrite get_deployment_find in Hget.
    unfold DeploymentTracker.list_all_deployments in Hget.
    destruct (DeploymentTracker.update_in_providers _ deployment_id _) as [deps|];
      [|congruence].
    destruct H as (a & d0 & b & Hall & Ha & Hd & Hall' & _).
    rewrite Hall, find_app, Ha in Hget. simpl in Hget. rewrite Hd in Hget.
    injection Hget as <-.
    assert (Hid : DeploymentTracker.id d0 = deployment_id)
      by (now apply String.eqb_eq in Hd).
    eexists. split; [reflexivity|]. split.
    - rewrite get_deployment_find. unfold DeploymentTracker.list_all_deployments.
      cbn [DeploymentTracker.save_inventory DeploymentTracker.inventory
           DeploymentTracker.deployments].
      rewrite Hall', find_app, Ha. cbn [find].
      change (DeploymentTracker.has_id deployment_id
                (DeploymentTracker.mark_destroyed now d0))
        with (DeploymentTracker.has_id deployment_id d0).
      rewrite Hd. reflexivity.
    - intros x Hx. rewrite !get_deployment_find.
      unfold DeploymentTracker.list_all_deployments.
      cbn [DeploymentTracker.save_inventory DeploymentTracker.inventory
           DeploymentTracker.deployments].
      rewrite Hall', Hall.
      apply (find_replaced_other x deployment_id); auto. }
  split.
  - intros Hnone. unfold DeploymentTracker.remove_deployment.
    pose proof (update_in_providers_place (DeploymentTracker.mark_destroyed now1)
                  deployment_id
                  (DeploymentTracker.deployments (DeploymentTracker.inventory tr))) as H.
    rewrite get_deployment_find in Hnone.
    unfold DeploymentTracker.list_all_deployments in Hnone.
    destruct (DeploymentTracker.update_in_providers _ deployment_id _) as [deps|];
      [|reflexivity].
    destruct H as (a & d0 & b & Hall & Ha & Hd & _).
    rewrite Hall, find_app, Ha in Hnone. simpl in Hnone. rewrite Hd in Hnone.
    discriminate.
  - intros d Hget.
    destruct (Hone now1 tr d Hget) as (tr1 & Hr1 & Hg1 & Ho1).
    destruct (Hone now2 tr1 _ Hg1) as (tr2 & Hr2 & Hg2 & Ho2).
    exists tr1, tr2. split; [exact Hr1|]. split; [exact Hr2|]. split.
    + rewrite Hg2. reflexivity.
    + intros x Hx. rewrite Ho2, Ho1; auto.
Qed.

(* ================================================================== *)
(** ** Deployment Ledger: the cleanup of destroyed records *)

Lemma cleanup_regions_count (cutoff_date : DateTime.t)
    (regions : dict (list DeploymentTracker.deployment)) :
  snd (DeploymentTracker.cleanup_regions cutoff_date regions)
  = Z.of_nat (length (filter (DeploymentTracker.expired cutoff_date)
                        (flat_map snd regions))).
Proof.
  induction regions as [|[r l] rest IH]; simpl; auto.
  destruct (DeploymentTracker.cleanup_regions cutoff_date rest) as [rest' n].
  simpl in *. rewrite filter_app, length_app, IH. lia.
Qed.

Lemma cleanup_providers_count (cutoff_date : DateTime.t)
    (deps : dict (dict (list DeploymentTracker.deployment))) :
  snd (DeploymentTracker.cleanup_providers cutoff_date deps)
  = Z.of_nat (length (filter (DeploymentTracker.expired cutoff_date)
                        (DeploymentTracker.list_all deps))).
Proof.
  unfold DeploymentTracker.list_all.
  induction deps as [|[p regions] rest IH]; simpl; auto.
  pose proof (cleanup_regions_count cutoff_date regions) as Hr.
  destruct (DeploymentTracker.cleanup_regions cutoff_date regions) as [regions' n].
  destruct (DeploymentTracker.cleanup_providers cutoff_date rest) as [rest' m].
  simpl in *. rewrite filter_app, length_app, Hr, IH. lia.
Qed.

Lemma filter_partition_length {A : Type} (p : A -> bool) (l : list A) :
  length l = (length (filter (fun x => negb (p x)) l) + length (filter p l))%nat.
Proof.
  induction l as [|x l IH]; simpl; auto.
  destruct (p x); simpl; lia.
Qed.

Lemma filter_filter_implied {A : Type} (p q : A -> bool) (l : list A) :
  (forall x, p x = true -> q x = true) ->
  filter p (filter q l) = filter p l.
Proof.
  intros H. induction l as [|x l IH]; simpl; auto.
  destruct (q x) eqn:Eq; simpl.
  - destruct (p x); now rewrite IH.
  - destruct (p x) eqn:Ep; [|exact IH].
    rewrite (H x Ep) in Eq. discriminate.
Qed.

Lemma active_not_expired (cutoff_date : DateTime.t) (d : DeploymentTracker.deployment) :
  (DeploymentTracker.status d =? "active")%string = true ->
  negb (DeploymentTracker.expired cutoff_date d) = true.
Proof.
  intros H. apply String.eqb_eq in H. unfold DeploymentTracker.expired. now rewrite H.
Qed.

(** X14: [cleanup_destroyed_deployments] drops exactly the records that are
    destroyed and whose stamp ([destroyed_at], or [created_at] where
    there is none) is before the cutoff, [days_old] before the call, and
    returns how many they are; the other records stay in their order.
    The active deployments and the IP registry are as before. When
    nothing is dropped no file is written; otherwise the inventory file
    holds the new inventory. *)
Theorem cleanup_destroyed_deployments_count (days_old : Z) (now : DateTime.t)
    (tr tr' : DeploymentTracker.t) (cleaned : Z) :
  DeploymentTracker.cleanup_destroyed_deployments days_old now tr = Return (cleaned, tr') ->
  exists cutoff_date,
    DateTime.minus_days now days_old = Return cutoff_date
    /\ DeploymentTracker.list_all_deployments tr'
       = filter (fun d => negb (DeploymentTracker.expired cutoff_date d))
           (DeploymentTracker.list_all_deployments tr)
    /\ cleaned = Z.of_nat (length (filter (DeploymentTracker.expired cutoff_date)
                                     (DeploymentTracker.list_all_deployments tr)))
    /\ Z.of_nat (length (DeploymentTracker.list_all_deployments tr))
       = Z.of_nat (length (DeploymentTracker.list_all_deployments tr')) + cleaned
    /\ DeploymentTracker.get_active_deployments tr'
       = DeploymentTracker.get_active_deployments tr
    /\ DeploymentTracker.ip_manager tr' = DeploymentTracker.ip_manager tr
    /\ (cleaned = 0 ->
        DeploymentTracker.inventory_file tr' = DeploymentTracker.inventory_file tr
        /\ DeploymentTracker.inventory_backup tr' = DeploymentTracker.inventory_backup tr)
    /\ (0 < cleaned ->
        DeploymentTracker.inventory_file tr'
        = Present (Valid (DeploymentTracker.inventory tr'))).
Proof.
  unfold DeploymentTracker.cleanup_destroyed_deployments.
  destruct (DateTime.minus_days now days_old) as [cutoff_date|]; [|discriminate].
  cbn [bind].
  pose proof (cleanup_providers_flat cutoff_date
                (DeploymentTracker.deployments (DeploymentTracker.inventory tr))) as Hflat.
  pose proof (cleanup_providers_count cutoff_date
                (DeploymentTracker.deployments (DeploymentTracker.inventory tr))) as Hcount.
  destruct (DeploymentTracker.cleanup_providers cutoff_date _) as [deps n].
  cbn [fst snd] in Hflat, Hcount.
  intros H. injection H as Hn Htr. subst cleaned.
  exists cutoff_date. split; [reflexivity|].
  assert (Hall : DeploymentTracker.list_all_deployments tr'
                 = filter (fun d => negb (DeploymentTracker.expired cutoff_date d))
                     (DeploymentTracker.list_all_deployments tr)).
  { subst tr'. unfold DeploymentTracker.list_all_deployments.
    destruct (0 <? n); exact Hflat. }
  split; [exact Hall|]. split; [exact Hcount|].
  split.
  { rewrite Hall, Hcount.
    rewrite (filter_partition_length (DeploymentTracker.expired cutoff_date)
               (DeploymentTracker.list_all_deployments tr)).
    unfold DeploymentTracker.list_all_deployments. lia. }
  split.
  { unfold DeploymentTracker.get_active_deployments. rewrite Hall.
    apply filter_filter_implied. intros d. apply active_not_expired. }
  split; [subst tr'; destruct (0 <? n); reflexivity|].
  split.
  - intros H0. subst tr'. rewrite H0. simpl. auto.
  - intros Hpos. subst tr'. apply Z.ltb_lt in Hpos. rewrite Hpos. reflexivity.
Qed.

Lemma cleanup_destroyed_deployments_count_witness :
  let tr := snd (DeploymentTracker.remove_deployment Sample.tracked_id
                   Sample.noon_and_a_half Sample.tracked) in
  exists tr',
    DeploymentTracker.cleanup_destroyed_deployments 30 Sample.forty_days_later tr
    = Return (1, tr')
    /\ DeploymentTracker.list_all_deployments tr' = []
    /\ DeploymentTracker.ip_manager tr' = DeploymentTracker.ip_manager tr
    /\ DeploymentTracker.inventory_file tr'
       = Present (Valid (DeploymentTracker.inventory tr')).
Proof.
  cbv zeta.
  destruct (DeploymentTracker.cleanup_destroyed_deployments 30 Sample.forty_days_later
              (snd (DeploymentTracker.remove_deployment Sample.tracked_id
                      Sample.noon_and_a_half Sample.tracked)))
    as [[cleaned tr']|e] eqn:E; [|vm_compute in E; discriminate].
  destruct (cleanup_destroyed_deployments_count _ _ _ _ _ E)
    as (cutoff_date & Hcut & Hall & Hc & _ & _ & Hip & _ & Hfile).
  vm_compute in Hcut. injection Hcut as <-.
  vm_compute in Hc. subst cleaned.
  exists tr'. split; [reflexivity|]. split; [rewrite Hall; reflexivity|].
  split; [exact Hip|]. apply Hfile. reflexivity.
Defined.

Lemma cleanup_regions_nonempty (cutoff_date : DateTime.t)
    (regions : dict (list DeploymentTracker.deployment)) (r : string)
    (l : list DeploymentTracker.deployment) :
  In (r, l) (fst (DeploymentTracker.cleanup_regions cutoff_date regions)) -> l <> [].
Proof.
  induction regions as [|[r0 l0] rest IH]; simpl; [tauto|].
  destruct (DeploymentTracker.cleanup_regions cutoff_date rest) as [rest' n].
  simpl in *.
  destruct (filter (fun d => negb (DeploymentTracker.expired cutoff_date d)) l0)
    as [|x xs] eqn:E; simpl; auto.
  intros [H|H]; auto. injection H as _ <-. discriminate.
Qed.

Lemma cleanup_providers_nonempty (cutoff_date : DateTime.t)
    (deps : dict (dict (list DeploymentTracker.deployment))) (p : string)
    (regions : dict (list DeploymentTracker.deployment)) :
  In (p, regions) (fst (DeploymentTracker.cleanup_providers cutoff_date deps)) ->
  regions <> [] /\ forall r l, In (r, l) regions -> l <> [].
Proof.
  induction deps as [|[p0 regions0] rest IH]; simpl; [tauto|].
  pose proof (cleanup_regions_nonempty cutoff_date regions0) as Hr.
  destruct (DeploymentTracker.cleanup_regions cutoff_date regions0) as [regions' n].
  destruct (DeploymentTracker.cleanup_providers cutoff_date rest) as [rest' m].
  simpl in *.
  destruct regions' as [|x xs] eqn:E; simpl; auto.
  intros [H|H]; auto. injection H as _ <-. split; [discriminate|].
  intros r l Hin. exact (Hr r l Hin).
Qed.

Lemma filter_all_kept {A : Type} (p : A -> bool) (l : list A) :
  (forall x, In x l -> p x = true) -> filter p l = l.
Proof.
  intros H. induction l as [|x l IH]; simpl; auto.
  rewrite (H x (or_introl eq_refl)), IH; auto.
  intros y Hy. apply H. now right.
Qed.

Lemma filter_none_kept {A : Type} (p : A -> bool) (l : list A) :
  (forall x, In x l -> p x = false) -> filter p l = [].
Proof.
  intros H. induction l as [|x l IH]; simpl; auto.
  rewrite (H x (or_introl eq_refl)). apply IH.
  intros y Hy. apply H. now right.
Qed.

(** A region list with no expired record, and not empty, is left as it
    is by the cleanup. *)
Lemma cleanup_regions_settled (cutoff_date : DateTime.t)
    (regions : dict (list DeploymentTracker.deployment)) :
  (forall r l, In (r, l) regions ->
     l <> [] /\ forall d, In d l -> DeploymentTracker.expired cutoff_date d = false) ->
  DeploymentTracker.cleanup_regions cutoff_date regions = (regions, 0).
Proof.
  induction regions as [|[r l] rest IH]; intros H; simpl; auto.
  rewrite IH by (intros r0 l0 Hin; apply (H r0 l0); now right).
  destruct (H r l (or_introl eq_refl)) as [Hne Hl].
  rewrite filter_all_kept by (intros x Hx; now rewrite (Hl x Hx)).
  rewrite filter_none_kept by exact Hl.
  destruct l; [contradiction | reflexivity].
Qed.

Lemma cleanup_regions_result (cutoff_date : DateTime.t)
    (regions : dict (list DeploymentTracker.deployment)) (r : string)
    (l : list DeploymentTracker.deployment) :
  In (r, l) (fst (DeploymentTracker.cleanup_regions cutoff_date regions)) ->
  l <> [] /\ forall d, In d l -> DeploymentTracker.expired cutoff_date d = false.
Proof.
  intros Hin. split; [exact (cleanup_regions_nonempty _ _ _ _ Hin)|].
  revert Hin. induction regions as [|[r0 l0] rest IH]; simpl; [tauto|].
  destruct (DeploymentTracker.cleanup_regions cutoff_date rest) as [rest' n].
  simpl in *.
  destruct (filter (fun d => negb (DeploymentTracker.expired cutoff_date d)) l0)
    as [|x xs] eqn:E; simpl; auto.
  intros [H|H]; auto. injection H as _ <-.
  intros d Hd. rewrite <- E in Hd. apply filter_In in Hd.
  destruct Hd as [_ Hd]. now apply negb_true_iff in Hd.
Qed.

Lemma cleanup_providers_settled (cutoff_date : DateTime.t)
    (deps : dict (dict (list DeploymentTracker.deployment))) :
  (forall p regions, In (p, regions) deps ->
     regions <> [] /\
     forall r l, In (r, l) regions ->
       l <> [] /\ forall d, In d l -> DeploymentTracker.expired cutoff_date d = false) ->
  DeploymentTracker.cleanup_providers cutoff_date deps = (deps, 0).
Proof.
  induction deps as [|[p regions] rest IH]; intros H; simpl; auto.
  rewrite IH by (intros p0 r0 Hin; apply (H p0 r0); now right).
  destruct (H p regions (or_introl eq_refl)) as [Hne Hr].
  rewrite (cleanup_regions_settled cutoff_date regions Hr).
  destruct regions; [contradiction | reflexivity].
Qed.

Lemma cleanup_providers_result (cutoff_date : DateTime.t)
    (deps : dict (dict (list DeploymentTracker.deployment))) (p : string)
    (regions : dict (list DeploymentTracker.deployment)) :
  In (p, regions) (fst (DeploymentTracker.cleanup_providers cutoff_date deps)) ->
  regions <> [] /\
  forall r l, In (r, l) regions ->
    l <> [] /\ forall d, In d l -> DeploymentTracker.expired cutoff_date d = false.
Proof.
  induction deps as [|[p0 regions0] rest IH]; simpl; [tauto|].
  pose proof (cleanup_regions_result cutoff_date regions0) as Hr.
  destruct (DeploymentTracker.cleanup_regions cutoff_date regions0) as [regions' n].
  destruct (DeploymentTracker.cleanup_providers cutoff_date rest) as [rest' m].
  simpl in *.
  destruct regions' as [|x xs] eqn:E; simpl; auto.
  intros [H|H]; auto. injection H as _ <-. split; [discriminate|].
  intros r l Hin. exact (Hr r l Hin).
Qed.

(** X15: After [cleanup_destroyed_deployments] the inventory has no provider
    without a region and no region without a record, also when the call
    dropped no record; and a second cleanup with the same age at the
    same time drops nothing and changes nothing. *)
Theorem cleanup_destroyed_deployments_settles (days_old : Z) (now : DateTime.t)
    (tr tr' : DeploymentTracker.t) (cleaned : Z) :
  DeploymentTracker.cleanup_destroyed_deployments days_old now tr = Return (cleaned, tr') ->
  (forall p regions,
     In (p, regions) (DeploymentTracker.deployments (DeploymentTracker.inventory tr')) ->
     regions <> [] /\ forall r l, In (r, l) regions -> l <> [])
  /\ DeploymentTracker.cleanup_destroyed_deployments days_old now tr' = Return (0, tr').
Proof.
  unfold DeploymentTracker.cleanup_destroyed_deployments.
  destruct (DateTime.minus_days now days_old) as [cutoff_date|]; [|discriminate].
  cbn [bind].
  pose proof (cleanup_providers_result cutoff_date
                (DeploymentTracker.deployments (DeploymentTracker.inventory tr))) as Hres.
  destruct (DeploymentTracker.cleanup_providers cutoff_date
              (DeploymentTracker.deployments (DeploymentTracker.inventory tr)))
    as [deps n].
  cbn [fst] in Hres.
  intros H. injection H as Hn Htr.
  assert (Hdeps : DeploymentTracker.deployments (DeploymentTracker.inventory tr') = deps).
  { subst tr'. destruct (0 <? n); reflexivity. }
  rewrite Hdeps. split.
  - intros p regions Hin. destruct (Hres p regions Hin) as [Hne Hr].
    split; [exact Hne|]. intros r l Hl. exact (proj1 (Hr r l Hl)).
  - rewrite (cleanup_providers_settled cutoff_date deps Hres).
    cbn [Z.ltb Z.compare]. f_equal. f_equal.
    rewrite <- Hdeps. destruct tr' as [[deps' meta] file backup ipm]. reflexivity.
Qed.

Lemma cleanup_destroyed_deployments_settles_witness :
  let tr := snd (DeploymentTracker.remove_deployment Sample.tracked_id
                   Sample.noon_and_a_half Sample.tracked) in
  exists tr',
    DeploymentTracker.cleanup_destroyed_deployments 30 Sample.forty_days_later tr
    = Return (1, tr')
    /\ DeploymentTracker.deployments (DeploymentTracker.inventory tr') = []
    /\ DeploymentTracker.cleanup_destroyed_deployments 30 Sample.forty_days_later tr'
       = Return (0, tr').
Proof.
  cbv zeta.
  destruct (DeploymentTracker.cleanup_destroyed_deployments 30 Sample.forty_days_later
              (snd (DeploymentTracker.remove_deployment Sample.tracked_id
                      Sample.noon_and_a_half Sample.tracked)))
    as [[cleaned tr']|e] eqn:E; [|vm_compute in E; discriminate].
  destruct (cleanup_destroyed_deployments_settles _ _ _ _ _ E) as [_ Hagain].
  pose proof E as E'. vm_compute in E'. injection E' as Hc Ht.
  exists tr'. split; [now rewrite <- Hc|]. split; [now rewrite <- Ht|]. exact Hagain.
Defined.

(* ================================================================== *)
(** ** Deployment Ledger: the cost of an unknown instance type *)

Lemma instance_pricing_providers (prov : string) (table : dict Q) :
  get prov DeploymentTracker.instance_pricing = Some table ->
  prov = "aws" \/ prov = "azure" \/ prov = "digitalocean" \/ prov = "hetzner".
Proof.
  unfold DeploymentTracker.instance_pricing. cbn [get].
  destruct ("aws" =? prov)%string eqn:E1; [apply String.eqb_eq in E1; auto|].
  destruct ("azure" =? prov)%string eqn:E2; [apply String.eqb_eq in E2; auto|].
  destruct ("digitalocean" =? prov)%string eqn:E3; [apply String.eqb_eq in E3; auto|].
  destruct ("hetzner" =? prov)%string eqn:E4; [apply String.eqb_eq in E4; auto 6|].
  discriminate.
Qed.

Lemma get_price_in {V : Type} (k : string) (v : V) (d : dict V) :
  get k d = Some v -> In v (values d).
Proof.
  intros H. apply get_in in H. unfold values. apply in_map_iff. exists (k, v). auto.
Qed.

(** X16: An instance type that the price table of the provider does not list
    is priced as the cheapest type of that provider: the estimate is the
    one of that type, whatever the resources are. *)
Theorem estimate_cost_unknown_instance_type (prov instance_type : string)
    (table : dict Q) (res c : dict scalar) :
  get prov DeploymentTracker.instance_pricing = Some table ->
  get "instance_type" c = Some (SStr instance_type) ->
  instance_type <> "" ->
  get instance_type table = None ->
  exists cheapest price,
    get cheapest table = Some price
    /\ (forall q, In q (values table) -> (price <= q)%Q)
    /\ DeploymentTracker._estimate_cost prov res (Some c)
       = DeploymentTracker._estimate_cost prov res
           (Some [("instance_type", SStr cheapest)]).
Proof.
  intros Htable Hc Hne Hnone.
  assert (Hleft : forall base,
            DeploymentTracker.min_price (values table) = base ->
            forall cheapest, cheapest <> "" -> get cheapest table = Some base ->
            DeploymentTracker._estimate_cost prov res (Some c)
            = DeploymentTracker._estimate_cost prov res
                (Some [("instance_type", SStr cheapest)])).
  { intros base Hmin cheapest Hch Hget.
    unfold DeploymentTracker._estimate_cost.
    destruct c as [|kv c']; [discriminate|].
    unfold get_or_none. rewrite Hc. cbn [get String.eqb Ascii.eqb Bool.eqb].
    cbn [truthy]. rewrite Htable.
    apply String.eqb_neq in Hne. apply String.eqb_neq in Hch.
    rewrite Hne, Hch. cbn [negb DeploymentTracker.table_get].
    rewrite Hnone, Hget, Hmin. reflexivity. }
  destruct (instance_pricing_providers prov table Htable) as [-> | [-> | [-> | ->]]];
    vm_compute in Htable; injection Htable as <-.
  - exists "t3.nano", 3.80%Q. split; [reflexivity|]. split.
    + intros q Hq. cbn in Hq.
      repeat (destruct Hq as [<-|Hq]; [unfold Qle; cbn; lia|]). contradiction.
    + apply (Hleft 3.80%Q); [reflexivity | discriminate | reflexivity].
  - exists "Standard_B1s", 3.80%Q. split; [reflexivity|]. split.
    + intros q Hq. cbn in Hq.
      repeat (destruct Hq as [<-|Hq]; [unfold Qle; cbn; lia|]). contradiction.
    + apply (Hleft 3.80%Q); [reflexivity | discriminate | reflexivity].
  - exists "s-1vcpu-1gb", 6.00%Q. split; [reflexivity|]. split.
    + intros q Hq. cbn in Hq.
      repeat (destruct Hq as [<-|Hq]; [unfold Qle; cbn; lia|]). contradiction.
    + apply (Hleft 6.00%Q); [reflexivity | discriminate | reflexivity].
  - exists "cx11", 3.60%Q. split; [reflexivity|]. split.
    + intros q Hq. cbn in Hq.
      repeat (destruct Hq as [<-|Hq]; [unfold Qle; cbn; lia|]). contradiction.
    + apply (Hleft 3.60%Q); [reflexivity | discriminate | reflexivity].
Qed.

Lemma estimate_cost_unknown_instance_type_witness :
  get "aws" DeploymentTracker.instance_pricing
  = Some [("t3.nano", 3.80); ("t3.micro", 7.60); ("t3.small", 15.20);
          ("t3.medium", 30.40); ("t3.large", 60.80); ("t2.micro", 8.50);
          ("t2.small", 16.80); ("t2.medium", 33.70)]%Q
  /\ exists cheapest,
       DeploymentTracker._estimate_cost "aws" Sample.scenario_resources
         (Some [("instance_type", SStr "m5.large")])
       = DeploymentTracker._estimate_cost "aws" Sample.scenario_resources
           (Some [("instance_type", SStr cheapest)]).
Proof.
  split; [reflexivity|].
  destruct (estimate_cost_unknown_instance_type "aws" "m5.large" _
              Sample.scenario_resources [("instance_type", SStr "m5.large")]
              eq_refl eq_refl ltac:(discriminate) eq_refl)
    as (cheapest & price & _ & _ & H).
  exists cheapest. exact H.
Defined.

(* ================================================================== *)
(** ** Deployment Ledger: a removed deployment is no longer active *)

Lemma in_replaced_other (deployment_id : string)
    (d d0 d0' : DeploymentTracker.deployment) (a b : list DeploymentTracker.deployment) :
  DeploymentTracker.id d0 = deployment_id ->
  DeploymentTracker.id d0' = deployment_id ->
  DeploymentTracker.id d <> deployment_id ->
  In d (a ++ d0' :: b) <-> In d (a ++ d0 :: b).
Proof.
  intros H0 H0' Hd. rewrite !in_app_iff. simpl.
  split; (intros [H|[H|H]]; auto; subst; contradiction).
Qed.

(** X17: In a Ledger whose ids are distinct, after [remove_deployment]
    returns true no active deployment has the id; the active deployments
    with other ids are those of before. *)
Theorem removed_deployment_not_active (deployment_id : string) (now : DateTime.t)
    (tr tr' : DeploymentTracker.t) :
  NoDup (map DeploymentTracker.id (DeploymentTracker.list_all_deployments tr)) ->
  DeploymentTracker.remove_deployment deployment_id now tr = (true, tr') ->
  (forall d, In d (DeploymentTracker.get_active_deployments tr') ->
             DeploymentTracker.id d <> deployment_id)
  /\ (forall d, DeploymentTracker.id d <> deployment_id ->
        (In d (DeploymentTracker.get_active_deployments tr')
         <-> In d (DeploymentTracker.get_active_deployments tr))).
Proof.
  intros Hnd. unfold DeploymentTracker.remove_deployment.
  pose proof (update_in_providers_place (DeploymentTracker.mark_destroyed now)
                deployment_id
                (DeploymentTracker.deployments (DeploymentTracker.inventory tr))) as H.
  destruct (DeploymentTracker.update_in_providers _ deployment_id _) as [deps|];
    [|discriminate].
  destruct H as (a & d0 & b & Hall & Ha & Hd0 & Hall' & _).
  intros Htr. injection Htr as <-.
  assert (Hid : DeploymentTracker.id d0 = deployment_id)
    by (now apply String.eqb_eq in Hd0).
  unfold DeploymentTracker.get_active_deployments, DeploymentTracker.list_all_deployments
    in *.
  cbn [DeploymentTracker.save_inventory DeploymentTracker.inventory
       DeploymentTracker.deployments].
  rewrite Hall'. rewrite Hall in Hnd |- *.
  split.
  - intros d Hin Heq. apply filter_In in Hin. destruct Hin as [Hin Hact].
    rewrite map_app in Hnd. cbn [map] in Hnd.
    apply in_app_iff in Hin. destruct Hin as [Hin|[Hin|Hin]].
    + apply NoDup_remove_2 in Hnd. apply Hnd. apply in_or_app. left.
      rewrite Hid, <- Heq. now apply in_map.
    + subst d. discriminate.
    + apply NoDup_remove_2 in Hnd. apply Hnd. apply in_or_app. right.
      rewrite Hid, <- Heq. now apply in_map.
  - intros d Hd. rewrite !filter_In.
    rewrite (in_replaced_other deployment_id d d0
               (DeploymentTracker.mark_destroyed now d0)); auto. tauto.
Qed.

Lemma removed_deployment_not_active_witness :
  NoDup (map DeploymentTracker.id (DeploymentTracker.list_all_deployments Sample.tracked))
  /\ DeploymentTracker.get_active_deployments Sample.tracked <> []
  /\ exists tr',
       DeploymentTracker.remove_deployment Sample.tracked_id Sample.noon_and_a_half
         Sample.tracked = (true, tr')
       /\ DeploymentTracker.get_active_deployments tr' = [].
Proof.
  assert (Hnd : NoDup (map DeploymentTracker.id
                         (DeploymentTracker.list_all_deployments Sample.tracked))).
  { vm_compute. repeat constructor. simpl. tauto. }
  split; [exact Hnd|]. split; [vm_compute; discriminate|].
  eexists. split; [reflexivity|].
  destruct (removed_deployment_not_active Sample.tracked_id Sample.noon_and_a_half
              Sample.tracked _ Hnd eq_refl) as [Hnone _].
  destruct (DeploymentTracker.get_active_deployments _) as [|d l] eqn:E; [reflexivity|].
  exfalso. apply (Hnone d (or_introl eq_refl)).
  vm_compute in E. discriminate.
Defined.

(* ================================================================== *)
(** ** Discovery: what an import adds to the Ledger *)

Lemma add_deployment_inserts (deployment_id prov reg : string) (res : dict scalar)
    (conf : option (dict scalar)) (now : DateTime.t)
    (tr tr1 : DeploymentTracker.t) (id' : string) :
  DeploymentTracker.add_deployment deployment_id prov reg res conf now tr
  = Return (id', tr1) ->
  exists a b rec,
    DeploymentTracker.list_all_deployments tr = (a ++ b)%list
    /\ DeploymentTracker.list_all_deployments tr1 = (a ++ rec :: b)%list.
Proof.
  unfold DeploymentTracker.add_deployment.
  destruct (DeploymentTracker._estimate_cost prov res conf) as [c|]; [|discriminate].
  cbn [bind]. intros H. injection H as _ Htr.
  match type of Htr with
  | context [DeploymentTracker.store_record ?r ?deps] =>
      destruct (store_record_inserts r deps) as [a [b [Hab Hins]]];
      exists a, b, r
  end.
  split; [exact Hab|]. subst tr1. exact Hins.
Qed.

Lemma import_one_step (prov : string) (dep : CloudDiscovery.discovered)
    (now : DateTime.t) (tr : DeploymentTracker.t) :
  match CloudDiscovery.import_one prov dep now tr with
  | Return (tr', imported) =>
      (DeploymentTracker.synced tr -> DeploymentTracker.synced tr')
      /\ length (DeploymentTracker.list_all_deployments tr')
         = (length (DeploymentTracker.list_all_deployments tr)
            + (if imported then 1 else 0))%nat
      /\ (forall rec, In rec (DeploymentTracker.list_all_deployments tr) ->
                      In rec (DeploymentTracker.list_all_deployments tr'))
  | Raise _ => True
  end.
Proof.
  unfold CloudDiscovery.import_one.
  destruct (CloudDiscovery.already_tracked prov _ dep).
  { split; [auto|]. split; [lia | auto]. }
  destruct (CloudDiscovery._generate_deployment_id dep) as [did|]; cbn [bind]; auto.
  destruct (CloudDiscovery.import_resources prov dep) as [res|]; cbn [bind]; auto.
  destruct (DeploymentTracker.add_deployment did _ _ res _ now tr) as [[id' tr1]|] eqn:Eadd;
    cbn [bind snd]; auto.
  split; [intros Hs; eapply add_deployment_synced; eauto|].
  destruct (add_deployment_inserts _ _ _ _ _ _ _ _ _ Eadd) as (a & b & rec & Hab & Hins).
  rewrite Hab, Hins. split.
  - rewrite !length_app. simpl. lia.
  - intros r Hr. apply in_app_iff in Hr. apply in_app_iff. simpl. tauto.
Qed.

Lemma import_list_counts (prov : string) (now : DateTime.t)
    (l : list CloudDiscovery.discovered) :
  forall st,
    let st1 := CloudDiscovery.import_list prov l now st in
    CloudDiscovery.imported_count st <= CloudDiscovery.imported_count st1
      <= CloudDiscovery.imported_count st + Z.of_nat (length l)
    /\ Z.of_nat (length (DeploymentTracker.list_all_deployments (CloudDiscovery.tracker st1)))
       = Z.of_nat (length (DeploymentTracker.list_all_deployments (CloudDiscovery.tracker st)))
         + (CloudDiscovery.imported_count st1 - CloudDiscovery.imported_count st)
    /\ (DeploymentTracker.synced (CloudDiscovery.tracker st) ->
        DeploymentTracker.synced (CloudDiscovery.tracker st1))
    /\ (forall rec,
          In rec (DeploymentTracker.list_all_deployments (CloudDiscovery.tracker st)) ->
          In rec (DeploymentTracker.list_all_deployments (CloudDiscovery.tracker st1))).
Proof.
  induction l as [|dep rest IH]; intros st; cbn zeta.
  - cbn [CloudDiscovery.import_list length]. (split; [lia|]; split; [lia|]; split; auto).
  - cbn [CloudDiscovery.import_list].
    destruct (CloudDiscovery.raised st).
    { cbn [length]. (split; [lia|]; split; [lia|]; split; auto). }
    pose proof (import_one_step prov dep now (CloudDiscovery.tracker st)) as Hone.
    destruct (CloudDiscovery.import_one prov dep now (CloudDiscovery.tracker st))
      as [[tr imported]|e].
    + destruct Hone as (Hs & Hlen & Hin).
      match goal with
      | |- context [CloudDiscovery.import_list prov rest now ?s] =>
          destruct (IH s) as (Hb & Hl & Hs' & Hin'); set (st' := s) in *
      end.
      cbn [CloudDiscovery.tracker CloudDiscovery.imported_count st'] in Hb, Hl, Hs', Hin'.
      cbn [length]. split; [destruct imported; lia|].
      split; [rewrite Hl; destruct imported; lia|].
      split; auto.
    + cbn [CloudDiscovery.tracker CloudDiscovery.imported_count length].
      (split; [lia|]; split; [lia|]; split; auto).
Qed.

Lemma count_discovered_from (l : list (list CloudDiscovery.discovered)) (n : Z) :
  fold_left (fun n provider_deps => n + Z.of_nat (length provider_deps)) l n
  = n + fold_left (fun n provider_deps => n + Z.of_nat (length provider_deps)) l 0.
Proof.
  revert n. induction l as [|x l IH]; intros n; simpl; [lia|].
  rewrite IH, (IH (Z.of_nat (length x))). lia.
Qed.

Lemma count_discovered_cons (prov : string) (l : list CloudDiscovery.discovered)
    (ds : dict (list CloudDiscovery.discovered)) :
  CloudDiscovery.count_discovered ((prov, l) :: ds)
  = Z.of_nat (length l) + CloudDiscovery.count_discovered ds.
Proof.
  unfold CloudDiscovery.count_discovered. cbn [values map snd fold_left].
  now rewrite count_discovered_from.
Qed.

Lemma count_discovered_nonneg (ds : dict (list CloudDiscovery.discovered)) :
  0 <= CloudDiscovery.count_discovered ds.
Proof.
  induction ds as [|[p l] ds IH]; [reflexivity|].
  rewrite count_discovered_cons. lia.
Qed.

Lemma import_all_counts (now : DateTime.t) (ds : dict (list CloudDiscovery.discovered)) :
  forall st,
    let st1 := CloudDiscovery.import_all ds now st in
    CloudDiscovery.imported_count st <= CloudDiscovery.imported_count st1
      <= CloudDiscovery.imported_count st + CloudDiscovery.count_discovered ds
    /\ Z.of_nat (length (DeploymentTracker.list_all_deployments (CloudDiscovery.tracker st1)))
       = Z.of_nat (length (DeploymentTracker.list_all_deployments (CloudDiscovery.tracker st)))
         + (CloudDiscovery.imported_count st1 - CloudDiscovery.imported_count st)
    /\ (DeploymentTracker.synced (CloudDiscovery.tracker st) ->
        DeploymentTracker.synced (CloudDiscovery.tracker st1))
    /\ (forall rec,
          In rec (DeploymentTracker.list_all_deployments (CloudDiscovery.tracker st)) ->
          In rec (DeploymentTracker.list_all_deployments (CloudDiscovery.tracker st1))).
Proof.
  induction ds as [|[prov l] rest IH]; intros st; cbn zeta.
  - cbn [CloudDiscovery.import_all]. unfold CloudDiscovery.count_discovered. simpl.
    (split; [lia|]; split; [lia|]; split; auto).
  - cbn [CloudDiscovery.import_all]. rewrite count_discovered_cons.
    pose proof (count_discovered_nonneg rest) as Hnn.
    destruct (CloudDiscovery.raised st).
    { (split; [lia|]; split; [lia|]; split; auto). }
    destruct (import_list_counts prov now l st) as (Hb & Hl & Hs & Hin).
    destruct (IH (CloudDiscovery.import_list prov l now st)) as (Hb' & Hl' & Hs' & Hin').
    split; [lia|]. split; [lia|]. split; auto.
Qed.

(** X18: [import_discovered_deployments] on state files that a Ledger loads
    leaves files that load again; the Ledger has then as many records
    more as the returned count, which is at most the number of resources
    given; and every record of before is still there. *)
Theorem import_counts_new_records (ds : dict (list CloudDiscovery.discovered))
    (now now' : DateTime.t) (d : DeploymentTracker.disk) (tr0 : DeploymentTracker.t) :
  DeploymentTracker.init now d = Return tr0 ->
  exists imported tr1,
    CloudDiscovery.import_discovered_deployments ds now d
    = (imported, DeploymentTracker.disk_of tr1)
    /\ DeploymentTracker.init now' (DeploymentTracker.disk_of tr1) = Return tr1
    /\ 0 <= imported <= CloudDiscovery.count_discovered ds
    /\ Z.of_nat (length (DeploymentTracker.list_all_deployments tr1))
       = Z.of_nat (length (DeploymentTracker.list_all_deployments tr0)) + imported
    /\ (forall rec, In rec (DeploymentTracker.list_all_deployments tr0) ->
                    In rec (DeploymentTracker.list_all_deployments tr1)).
Proof.
  intros Hinit. unfold CloudDiscovery.import_discovered_deployments. rewrite Hinit.
  destruct (import_all_counts now ds (CloudDiscovery.mk_loop tr0 0 false))
    as (Hb & Hl & Hs & Hin).
  cbn [CloudDiscovery.tracker CloudDiscovery.imported_count] in Hb, Hl, Hs, Hin.
  eexists. eexists. split; [reflexivity|].
  split; [apply synced_reloads, Hs; exact (init_synced _ _ _ Hinit)|].
  split; [lia|]. split; [lia | exact Hin].
Qed.

Lemma import_counts_new_records_witness :
  DeploymentTracker.init Sample.noon DeploymentTracker.empty_disk
  = Return Sample.fresh_tracker
  /\ exists tr1,
       CloudDiscovery.import_discovered_deployments Sample.discoveries Sample.noon
         DeploymentTracker.empty_disk
       = (2, DeploymentTracker.disk_of tr1)
       /\ length (DeploymentTracker.list_all_deployments tr1) = 2%nat.
Proof.
  assert (Hinit : DeploymentTracker.init Sample.noon DeploymentTracker.empty_disk
                  = Return Sample.fresh_tracker) by reflexivity.
  split; [exact Hinit|].
  destruct (import_counts_new_records Sample.discoveries Sample.noon Sample.noon
              DeploymentTracker.empty_disk Sample.fresh_tracker Hinit)
    as (imported & tr1 & Himp & _ & _ & Hlen & _).
  assert (Hc : imported = 2) by (vm_compute in Himp; congruence).
  subst imported. exists tr1. split; [exact Himp|].
  change (length (DeploymentTracker.list_all_deployments Sample.fresh_tracker))
    with 0%nat in Hlen. lia.
Defined.

(* ================================================================== *)
(** ** Discovery: synchronisation with the cloud *)

Lemma import_bound (ds : dict (list CloudDiscovery.discovered)) (now : DateTime.t)
    (d : DeploymentTracker.disk) :
  0 <= fst (CloudDiscovery.import_discovered_deployments ds now d)
    <= CloudDiscovery.count_discovered ds.
Proof.
  unfold CloudDiscovery.import_discovered_deployments.
  pose proof (count_discovered_nonneg ds) as Hnn.
  destruct (DeploymentTracker.init now d) as [tr0|e]; cbn [fst]; [|lia].
  destruct (import_all_counts now ds (CloudDiscovery.mk_loop tr0 0 false)) as (Hb & _).
  cbn [CloudDiscovery.imported_count] in Hb. lia.
Qed.

Lemma known_provider_four (prov : string) :
  CloudDiscovery.known_provider prov
  = ((prov =? "aws")%string || (prov =? "azure")%string ||
     (prov =? "digitalocean")%string || (prov =? "hetzner")%string).
Proof.
  unfold CloudDiscovery.known_provider, str_in. cbn [existsb].
  rewrite !(String.eqb_sym _ prov).
  destruct (prov =? "aws")%string, (prov =? "azure")%string,
    (prov =? "digitalocean")%string, (prov =? "hetzner")%string; reflexivity.
Qed.

(** X19: [sync_with_cloud] raises only [ValueError], and only for a provider
    name that is not empty and not one of the four. Otherwise the
    discovered count is the number of resources it reports, the imported
    count is what the import of them returned, between 0 and the
    discovered count, and the already known count is the difference,
    which is not negative. *)
Theorem sync_with_cloud_counts (provider : option string) (c : CloudDiscovery.cloud)
    (now : DateTime.t) (d : DeploymentTracker.disk) :
  match CloudDiscovery.sync_with_cloud provider c now d with
  | Return (results, d') =>
      CloudDiscovery.results_discovered results
      = CloudDiscovery.count_discovered (CloudDiscovery.results_deployments results)
      /\ CloudDiscovery.import_discovered_deployments
           (CloudDiscovery.results_deployments results) now d
         = (CloudDiscovery.results_imported results, d')
      /\ 0 <= CloudDiscovery.results_imported results
           <= CloudDiscovery.results_discovered results
      /\ CloudDiscovery.results_already_known results
         = CloudDiscovery.results_discovered results
           - CloudDiscovery.results_imported results
      /\ 0 <= CloudDiscovery.results_already_known results
  | Raise e =>
      e = ValueError
      /\ exists prov, provider = Some prov /\ prov <> ""
                      /\ CloudDiscovery.known_provider prov = false
  end.
Proof.
  assert (Hall :
    match (let all_deployments := CloudDiscovery.discover_all_deployments c in
           let discovered := CloudDiscovery.count_discovered all_deployments in
           let '(imported, d') :=
             CloudDiscovery.import_discovered_deployments all_deployments now d in
           Return (CloudDiscovery.mk_results discovered imported (discovered - imported)
                     all_deployments, d')) with
    | Return (results, d') =>
        CloudDiscovery.results_discovered results
        = CloudDiscovery.count_discovered (CloudDiscovery.results_deployments results)
        /\ CloudDiscovery.import_discovered_deployments
             (CloudDiscovery.results_deployments results) now d
           = (CloudDiscovery.results_imported results, d')
        /\ 0 <= CloudDiscovery.results_imported results
             <= CloudDiscovery.results_discovered results
        /\ CloudDiscovery.results_already_known results
           = CloudDiscovery.results_discovered results
             - CloudDiscovery.results_imported results
        /\ 0 <= CloudDiscovery.results_already_known results
    | Raise e =>
        e = ValueError
        /\ exists prov, provider = Some prov /\ prov <> ""
                        /\ CloudDiscovery.known_provider prov = false
    end).
  { cbv zeta.
    pose proof (import_bound (CloudDiscovery.discover_all_deployments c) now d) as Hb.
    destruct (CloudDiscovery.import_discovered_deployments
                (CloudDiscovery.discover_all_deployments c) now d)
      as [imported d'] eqn:Eimp.
    cbn [fst] in Hb.
    cbn [CloudDiscovery.results_discovered CloudDiscovery.results_imported
         CloudDiscovery.results_already_known CloudDiscovery.results_deployments].
    repeat split; try lia; exact Eimp. }
  unfold CloudDiscovery.sync_with_cloud.
  destruct provider as [prov|]; [|exact Hall].
  destruct (prov =? "")%string eqn:Eempty; [exact Hall|].
  clear Hall.
  destruct ((prov =? "aws")%string || (prov =? "azure")%string ||
            (prov =? "digitalocean")%string || (prov =? "hetzner")%string) eqn:Ek.
  - pose proof (import_bound [(prov, c prov)] now d) as Hb.
    rewrite count_discovered_cons in Hb.
    change (CloudDiscovery.count_discovered []) with 0 in Hb.
    destruct (CloudDiscovery.import_discovered_deployments [(prov, c prov)] now d)
      as [imported d'] eqn:Eimp.
    cbn [fst] in Hb.
    cbn [CloudDiscovery.results_discovered CloudDiscovery.results_imported
         CloudDiscovery.results_already_known CloudDiscovery.results_deployments].
    rewrite count_discovered_cons.
    change (CloudDiscovery.count_discovered []) with 0.
    repeat split; try lia; exact Eimp.
  - split; [reflexivity|]. exists prov. split; [reflexivity|].
    split; [now apply String.eqb_neq in Eempty|].
    rewrite known_provider_four. exact Ek.
Qed.

Lemma import_twice (ds : dict (list CloudDiscovery.discovered))
    (now1 now2 : DateTime.t) (d : DeploymentTracker.disk) :
  (forall prov, In prov (keys ds) -> CloudDiscovery.known_provider prov = true) ->
  CloudDiscovery.import_discovered_deployments ds now2
    (snd (CloudDiscovery.import_discovered_deployments ds now1 d))
  = (0, snd (CloudDiscovery.import_discovered_deployments ds now1 d)).
Proof.
  intros Hkeys. unfold CloudDiscovery.import_discovered_deployments.
  destruct (DeploymentTracker.init now1 d) as [tr0|e] eqn:E0.
  - cbn [snd].
    destruct (import_all_replay now1 now2 ds Hkeys
                (CloudDiscovery.mk_loop tr0 0 false) eq_refl)
      as (_ & Hsync & Hreplay).
    cbn [CloudDiscovery.tracker] in Hsync.
    rewrite (synced_reloads now2 _ (Hsync (init_synced _ _ _ E0))).
    rewrite (Hreplay _ 0 (extends_refl _) (fun _ => eq_refl)).
    reflexivity.
  - cbn [snd]. now rewrite (init_raises_alike now1 now2 d e E0).
Qed.

Lemma add_found_keys (prov : string) (found : list CloudDiscovery.discovered)
    (discoveries : dict (list CloudDiscovery.discovered)) (k : string) :
  In k (keys (CloudDiscovery.add_found prov found discoveries)) ->
  k = prov \/ In k (keys discoveries).
Proof.
  unfold CloudDiscovery.add_found. destruct found as [|x xs]; [auto|].
  generalize (x :: xs). intros v.
  induction discoveries as [|[k0 v0] rest IH]; simpl.
  - intros [H|[]]; auto.
  - destruct (k0 =? prov)%string; simpl; [tauto|].
    intros [H|H]; auto. destruct (IH H); auto.
Qed.

Lemma discover_all_deployments_keys (c : CloudDiscovery.cloud) (k : string) :
  In k (keys (CloudDiscovery.discover_all_deployments c)) ->
  CloudDiscovery.known_provider k = true.
Proof.
  unfold CloudDiscovery.discover_all_deployments. cbv zeta. intros H.
  apply add_found_keys in H. destruct H as [->|H]; [reflexivity|].
  apply add_found_keys in H. destruct H as [->|H]; [reflexivity|].
  apply add_found_keys in H. destruct H as [->|H]; [reflexivity|].
  apply add_found_keys in H. destruct H as [->|[]]. reflexivity.
Qed.

(** X20: When the cloud shows the same resources again, a second
    [sync_with_cloud], on the state files that the first left, reports
    the same discovered count, imports nothing, counts every resource as
    already known and leaves the files as they are. *)
Theorem sync_with_cloud_twice (provider : option string) (c : CloudDiscovery.cloud)
    (now1 now2 : DateTime.t) (d d' : DeploymentTracker.disk)
    (results : CloudDiscovery.sync_results) :
  CloudDiscovery.sync_with_cloud provider c now1 d = Return (results, d') ->
  CloudDiscovery.sync_with_cloud provider c now2 d'
  = Return (CloudDiscovery.mk_results (CloudDiscovery.results_discovered results) 0
              (CloudDiscovery.results_discovered results)
              (CloudDiscovery.results_deployments results), d').
Proof.
  assert (Hall : forall ds discovered,
            (forall prov, In prov (keys ds) -> CloudDiscovery.known_provider prov = true) ->
            (let '(imported, d0) := CloudDiscovery.import_discovered_deployments ds now1 d in
             Return (CloudDiscovery.mk_results discovered imported (discovered - imported)
                       ds, d0)) = Return (results, d') ->
            (let '(imported, d0) := CloudDiscovery.import_discovered_deployments ds now2 d' in
             Return (CloudDiscovery.mk_results discovered imported (discovered - imported)
                       ds, d0))
            = Return (CloudDiscovery.mk_results (CloudDiscovery.results_discovered results)
                        0 (CloudDiscovery.results_discovered results)
                        (CloudDiscovery.results_deployments results), d')).
  { intros ds discovered Hkeys.
    pose proof (import_twice ds now1 now2 d Hkeys) as Htwice.
    destruct (CloudDiscovery.import_discovered_deployments ds now1 d) as [imported d0].
    cbn [snd] in Htwice. intros H. injection H as <- <-. rewrite Htwice.
    cbn [CloudDiscovery.results_discovered CloudDiscovery.results_deployments].
    now rewrite Z.sub_0_r. }
  unfold CloudDiscovery.sync_with_cloud. cbv zeta.
  destruct provider as [prov|].
  - destruct (prov =? "")%string.
    + apply Hall. apply discover_all_deployments_keys.
    + destruct ((prov =? "aws")%string || (prov =? "azure")%string ||
                (prov =? "digitalocean")%string || (prov =? "hetzner")%string) eqn:Ek;
        [|discriminate].
      apply Hall. intros p [<-|[]].
      rewrite known_provider_four. exact Ek.
  - apply Hall. apply discover_all_deployments_keys.
Qed.

Lemma sync_with_cloud_twice_witness :
  exists results d',
    CloudDiscovery.sync_with_cloud None Sample.cloud_of_two Sample.noon
      DeploymentTracker.empty_disk = Return (results, d')
    /\ CloudDiscovery.results_discovered results = 2
    /\ CloudDiscovery.results_imported results = 2
    /\ CloudDiscovery.sync_with_cloud None Sample.cloud_of_two Sample.noon_and_a_half d'
       = Return (CloudDiscovery.mk_results 2 0 2
                   (CloudDiscovery.results_deployments results), d').
Proof.
  destruct (CloudDiscovery.sync_with_cloud None Sample.cloud_of_two Sample.noon
              DeploymentTracker.empty_disk) as [[results d']|e] eqn:E;
    [|vm_compute in E; discriminate].
  pose proof (sync_with_cloud_twice None Sample.cloud_of_two Sample.noon
                Sample.noon_and_a_half _ _ _ E) as Htwice.
  assert (Hd : CloudDiscovery.results_discovered results = 2)
    by (vm_compute in E; injection E as <- _; reflexivity).
  assert (Hi : CloudDiscovery.results_imported results = 2)
    by (vm_compute in E; injection E as <- _; reflexivity).
  exists results, d'. split; [reflexivity|]. split; [exact Hd|]. split; [exact Hi|].
  rewrite Hd in Htwice. exact Htwice.
Defined.

(* ================================================================== *)
(** ** Provisioning: what [run_terraform] returns *)

(** X21: [run_terraform] for an apply returns true, returns false or raises
    [ValidationError], nothing else. It returns false exactly when the
    checks before its commands return false. It returns true exactly
    when those checks pass, the plan succeeds and, outside a dry run,
    the init and the apply succeed and the validation of the deployment
    passes; in a dry run neither the init nor the validation matters. *)
Theorem run_terraform_outcomes (i : nat) (prov reg : string) (dry_run : bool)
    (uid : string) (w : ProxyGen.region_run) :
  let r := fst (ProxyGen.run_terraform i prov reg dry_run uid w) in
  (r = Return true \/ r = Return false \/ r = Raise ValidationError)
  /\ (r = Return false <-> ProxyGen.preflight w = Return false)
  /\ (r = Return true <->
      ProxyGen.preflight w = Return true
      /\ ProxyGen.plan_cmd w = Return tt
      /\ (dry_run = false ->
          ProxyGen.init_cmd w = Return tt
          /\ ProxyGen.apply_cmd w = Return tt
          /\ ProxyGen._validate_terraform_deployment (ProxyGen.probe w) = true)).
Proof.
  unfold ProxyGen.run_terraform.
  destruct (ProxyGen.preflight w) as [[|]|ex].
  - destruct dry_run; cbn [ProxyGen.commands ProxyGen.run_commands negb orb andb
                           ProxyGen.is_plan ProxyGen.is_apply ProxyGen.cmd_run].
    + destruct (ProxyGen.plan_cmd w) as [[]|ex]; cbn.
      * split; [auto|]. split; [split; discriminate|].
        split; [intros _; repeat split; discriminate | reflexivity].
      * split; [auto|]. split; [split; discriminate|].
        split; [discriminate | intros (_ & H & _); discriminate].
    + destruct (ProxyGen.init_cmd w) as [[]|ex1]; cbn.
      2: { split; [auto|]. split; [split; discriminate|].
           split; [discriminate|]. intros (_ & _ & H).
           destruct (H eq_refl) as (H1 & _). discriminate. }
      destruct (ProxyGen.plan_cmd w) as [[]|ex2]; cbn.
      2: { split; [auto|]. split; [split; discriminate|].
           split; [discriminate | intros (_ & H & _); discriminate]. }
      destruct (ProxyGen.apply_cmd w) as [[]|ex3]; cbn.
      2: { split; [auto|]. split; [split; discriminate|].
           split; [discriminate|]. intros (_ & _ & H).
           destruct (H eq_refl) as (_ & H1 & _). discriminate. }
      destruct (ProxyGen._validate_terraform_deployment (ProxyGen.probe w)); cbn.
      * split; [auto|]. split; [split; discriminate|].
        split; [intros _; repeat split; reflexivity | reflexivity].
      * split; [auto|]. split; [split; discriminate|].
        split; [discriminate|]. intros (_ & _ & H).
        destruct (H eq_refl) as (_ & _ & H1). discriminate.
  - cbn. split; [auto|]. split; [split; reflexivity|].
    split; [discriminate | intros (H & _); discriminate].
  - cbn. split; [destruct ex; auto|].
    split; [split; [destruct ex|]; discriminate|].
    split; [destruct ex; discriminate | intros (H & _); discriminate].
Qed.

(* ================================================================== *)
(** ** Provisioning: a dry run *)

Lemma run_terraform_dry_run_events (i : nat) (prov reg uid : string)
    (w : ProxyGen.region_run) (ev : ProxyGen.event) :
  In ev (snd (ProxyGen.run_terraform i prov reg true uid w)) ->
  ev = ProxyGen.EvRunTerraform i reg \/ ev = ProxyGen.EvCommand ProxyGen.Plan reg
  \/ exists target, ev = ProxyGen.EvCleanup target.
Proof.
  unfold ProxyGen.run_terraform.
  destruct (ProxyGen.preflight w) as [[|]|ex]; cbn.
  - destruct (ProxyGen.plan_cmd w) as [[]|ex]; cbn.
    + intros [<-|[<-|[]]]; auto.
    + intros [<-|[<-|[<-|[]]]]; eauto.
  - intros [<-|[]]; auto.
  - intros [<-|[]]; auto.
Qed.

Lemma deploy_regions_dry_run (e : ProxyGen.env) (cfg : ProxyGen.config) (prov : string)
    (instance_type uid : string) (regions : list string) :
  forall (i : nat) (tr tr' : DeploymentTracker.t) (res : outcome bool)
         (evs : list ProxyGen.event),
    ProxyGen.deploy_regions e cfg prov true instance_type uid i regions tr
    = (res, tr', evs) ->
    tr' = tr
    /\ forall ev, In ev evs ->
         (exists j r, ev = ProxyGen.EvRunTerraform j r)
         \/ (exists r, ev = ProxyGen.EvCommand ProxyGen.Plan r)
         \/ (exists target, ev = ProxyGen.EvCleanup target)
         \/ (exists r, ev = ProxyGen.EvOutput r).
Proof.
  induction regions as [|reg rest IH]; intros i tr tr' res evs.
  - cbn. intros H. injection H as <- <- <-. split; [reflexivity|]. intros ev [].
  - cbn [ProxyGen.deploy_regions].
    pose proof (run_terraform_dry_run_events i prov reg uid (ProxyGen.runs e i)) as Hev.
    destruct (ProxyGen.run_terraform i prov reg true uid (ProxyGen.runs e i))
      as [applied evs1].
    cbn [snd] in Hev.
    assert (Hev1 : forall ev, In ev evs1 ->
              (exists j r, ev = ProxyGen.EvRunTerraform j r)
              \/ (exists r, ev = ProxyGen.EvCommand ProxyGen.Plan r)
              \/ (exists target, ev = ProxyGen.EvCleanup target)
              \/ (exists r, ev = ProxyGen.EvOutput r)).
    { intros ev Hin. destruct (Hev ev Hin) as [->|[->|Hc]]; eauto 6. }
    destruct applied as [[|]|ex].
    + destruct (ProxyGen.get_terraform_output (ProxyGen.runs e i)) as [server_info|ex].
      * cbn [negb andb].
        destruct (ProxyGen.deploy_regions e cfg prov true instance_type uid (S i) rest tr)
          as [[r0 tr0] evs0] eqn:Erest.
        intros H. injection H as <- <- <-.
        destruct (IH _ _ _ _ _ Erest) as [-> Hevs0].
        split; [reflexivity|]. intros ev Hin.
        apply in_app_or in Hin. destruct Hin as [Hin|Hin]; [|auto].
        apply in_app_or in Hin. destruct Hin as [Hin|[<-|[]]]; [auto|eauto 6].
      * intros H. injection H as <- <- <-. split; [reflexivity|].
        intros ev Hin. apply in_app_or in Hin.
        destruct Hin as [Hin|[<-|[]]]; [auto|eauto 6].
    + intros H. injection H as <- <- <-. split; [reflexivity | exact Hev1].
    + intros H. injection H as <- <- <-. split; [reflexivity | exact Hev1].
Qed.

(** X22: A dry run of [deploy] leaves the Ledger as it is, and of the outside
    it only runs the checks of [run_terraform], the plan, the cleanup
    after a failed plan and the reading of the outputs: no init, no
    apply, no configuration of a server and no tracking. *)
Theorem deploy_dry_run (e : ProxyGen.env) (cfg : ProxyGen.config) (prov : string)
    (regions : list string) (instance_type : option string)
    (tr tr' : DeploymentTracker.t) (res : outcome bool) (evs : list ProxyGen.event) :
  ProxyGen.deploy e cfg prov regions true instance_type tr = (res, tr', evs) ->
  tr' = tr
  /\ forall ev, In ev evs ->
       (exists j r, ev = ProxyGen.EvRunTerraform j r)
       \/ (exists r, ev = ProxyGen.EvCommand ProxyGen.Plan r)
       \/ (exists target, ev = ProxyGen.EvCleanup target)
       \/ (exists r, ev = ProxyGen.EvOutput r).
Proof.
  intros H. apply deploy_enters_loop in H.
  destruct H as [(_ & -> & ->) | [it Hrun]].
  - split; [reflexivity|]. intros ev [].
  - exact (deploy_regions_dry_run _ _ _ _ _ _ _ _ _ _ _ Hrun).
Qed.

Lemma deploy_dry_run_witness :
  exists evs,
    ProxyGen.deploy Sample.all_succeed Sample.aws_config "aws" ["us-east-1"; "us-west-2"]
      true None Sample.fresh_tracker
    = (Return true, Sample.fresh_tracker, evs)
    /\ ~ In (ProxyGen.EvCommand ProxyGen.Apply "us-east-1") evs
    /\ In (ProxyGen.EvCommand ProxyGen.Plan "us-west-2") evs.
Proof.
  eexists. split; [vm_compute; reflexivity|].
  match goal with
  | |- ~ In _ ?evs /\ _ =>
      destruct (deploy_dry_run Sample.all_succeed Sample.aws_config "aws"
                  ["us-east-1"; "us-west-2"] None Sample.fresh_tracker
                  Sample.fresh_tracker (Return true) evs ltac:(vm_compute; reflexivity))
        as [_ Hevs]
  end.
  split.
  - intros Hin. destruct (Hevs _ Hin) as [(j & r & H)|[(r & H)|[(t & H)|(r & H)]]];
      discriminate.
  - simpl. auto 10.
Defined.

(* ================================================================== *)
(** ** Provisioning: validation comes before any action *)

(** X23: When a requested region is not among the regions that the
    configuration lists for the provider, [deploy] runs no Terraform
    command, reads no output, configures and tracks nothing, and leaves
    the Ledger as it is, also when the regions before it are valid: it
    returns false, or raises [KeyError] when the configuration has no
    entry for the provider. *)
Theorem deploy_validates_first (e : ProxyGen.env) (cfg : ProxyGen.config) (prov : string)
    (regions : list string) (dry_run : bool) (instance_type : option string)
    (tr : DeploymentTracker.t) (bad : string) :
  In bad regions ->
  (forall valid_regions, get prov (ProxyGen.config_regions cfg) = Some valid_regions ->
                         ~ In bad valid_regions) ->
  exists res,
    ProxyGen.deploy e cfg prov regions dry_run instance_type tr = (res, tr, [])
    /\ (res = Return false \/ res = Raise (KeyError prov)).
Proof.
  intros Hbad Hcfg. unfold ProxyGen.deploy.
  destruct (negb (str_in prov ["aws"; "azure"; "digitalocean"; "hetzner"])); [eauto|].
  destruct (str_in prov ["hetzner"; "digitalocean"] &&
            negb (str_in (ProxyGen.user_response e) ["yes"; "y"])); [eauto|].
  unfold item.
  destruct (get prov (ProxyGen.config_regions cfg)) as [valid_regions|] eqn:Eget;
    [|eauto].
  assert (Hinv : ProxyGen.all_valid valid_regions regions = false).
  { unfold ProxyGen.all_valid.
    destruct (forallb (fun r => str_in r valid_regions) regions) eqn:Eall; [|reflexivity].
    rewrite forallb_forall in Eall. specialize (Eall bad Hbad).
    apply str_in_true in Eall. exfalso. exact (Hcfg valid_regions eq_refl Eall). }
  rewrite Hinv. cbn [negb]. eauto.
Qed.

Lemma deploy_validates_first_witness :
  In "mars-1" ["us-east-1"; "mars-1"]
  /\ ProxyGen.deploy Sample.all_succeed Sample.aws_config "aws" ["us-east-1"; "mars-1"]
       false None Sample.fresh_tracker
     = (Return false, Sample.fresh_tracker, []).
Proof.
  assert (Hin : In "mars-1" ["us-east-1"; "mars-1"]) by (simpl; auto).
  split; [exact Hin|].
  destruct (deploy_validates_first Sample.all_succeed Sample.aws_config "aws"
              ["us-east-1"; "mars-1"] false None Sample.fresh_tracker "mars-1" Hin)
    as (res & Hrun & Hres).
  - intros valid_regions H. vm_compute in H. injection H as <-.
    simpl. intros [H|[H|[H|[]]]]; discriminate.
  - rewrite Hrun. destruct Hres as [->| ->]; [reflexivity|].
    vm_compute in Hrun. discriminate.
Defined.

(* ================================================================== *)
(** ** Provisioning: a completed deploy *)

Lemma tracked_ids_app (a b : list ProxyGen.event) :
  ProxyGen.tracked_ids (a ++ b) = (ProxyGen.tracked_ids a ++ ProxyGen.tracked_ids b)%list.
Proof. unfold ProxyGen.tracked_ids. apply flat_map_app. Qed.

Lemma run_commands_tracks_nothing (cmds : list ProxyGen.tf_cmd) (dry_run : bool)
    (prov reg uid : string) (w : ProxyGen.region_run) :
  ProxyGen.tracked_ids (snd (ProxyGen.run_commands cmds dry_run prov reg uid w)) = [].
Proof.
  induction cmds as [|c cmds IH]; cbn [ProxyGen.run_commands]; [reflexivity|].
  destruct (negb dry_run || ProxyGen.is_plan c); [|exact IH].
  destruct (ProxyGen.cmd_run w c); [|reflexivity].
  destruct (ProxyGen.is_apply c && negb dry_run &&
            negb (ProxyGen._validate_terraform_deployment (ProxyGen.probe w)));
    [reflexivity|].
  destruct (ProxyGen.run_commands cmds dry_run prov reg uid w) as [r0 evs].
  exact IH.
Qed.

Lemma run_terraform_tracks_nothing (i : nat) (prov reg : string) (dry_run : bool)
    (uid : string) (w : ProxyGen.region_run) :
  ProxyGen.tracked_ids (snd (ProxyGen.run_terraform i prov reg dry_run uid w)) = [].
Proof.
  unfold ProxyGen.run_terraform.
  destruct (ProxyGen.preflight w) as [[|]|ex]; [|reflexivity|reflexivity].
  pose proof (run_commands_tracks_nothing (ProxyGen.commands dry_run) dry_run
                prov reg uid w) as H.
  destruct (ProxyGen.run_commands (ProxyGen.commands dry_run) dry_run prov reg uid w)
    as [r0 evs].
  exact H.
Qed.

Lemma deploy_regions_completed (e : ProxyGen.env) (cfg : ProxyGen.config)
    (prov : string) (instance_type uid : string) (regions : list string) :
  forall (i : nat) (tr tr' : DeploymentTracker.t) (evs : list ProxyGen.event),
    ProxyGen.deploy_regions e cfg prov false instance_type uid i regions tr
    = (Return true, tr', evs) ->
    ProxyGen.tracked_ids evs
    = map (fun ir => ProxyGen.deploy_id prov (snd ir)
                       (ProxyGen.tracked_at (ProxyGen.runs e (fst ir))))
          (combine (seq i (length regions)) regions)
    /\ length (DeploymentTracker.list_all_deployments tr')
       = (length (DeploymentTracker.list_all_deployments tr) + length regions)%nat
    /\ (forall rec, In rec (DeploymentTracker.list_all_deployments tr) ->
                    In rec (DeploymentTracker.list_all_deployments tr')).
Proof.
  induction regions as [|reg rest IH]; intros i tr tr' evs.
  - cbn. intros H. injection H as <- <-. split; [reflexivity|]. split; [lia | auto].
  - cbn [ProxyGen.deploy_regions].
    pose proof (run_terraform_tracks_nothing i prov reg false uid (ProxyGen.runs e i))
      as Hnone.
    destruct (ProxyGen.run_terraform i prov reg false uid (ProxyGen.runs e i))
      as [applied evs1].
    cbn [snd] in Hnone.
    destruct applied as [[|]|ex]; [|discriminate|discriminate].
    destruct (ProxyGen.get_terraform_output (ProxyGen.runs e i)) as [server_info|ex]
      eqn:Eout; [|discriminate].
    assert (Hne : DeploymentTracker.is_empty server_info = false).
    { unfold ProxyGen.get_terraform_output in Eout.
      destruct (ProxyGen.terraform_output (ProxyGen.runs e i)); [|discriminate].
      cbn in Eout. injection Eout as <-. reflexivity. }
    rewrite Hne. cbn [negb andb].
    destruct (ProxyGen.configure_wireguard server_info (ProxyGen.runs e i))
      as [[|]|ex]; [|discriminate|discriminate].
    destruct (DeploymentTracker.add_deployment _ prov reg server_info _ _ tr)
      as [[id1 tr1]|ex] eqn:Eadd; [|discriminate].
    destruct (ProxyGen.deploy_regions e cfg prov false instance_type uid (S i) rest tr1)
      as [[r0 tr0] evs0] eqn:Erest.
    intros H. injection H as -> <- <-.
    destruct (IH _ _ _ _ Erest) as (Hids & Hlen & Hin).
    destruct (add_deployment_inserts _ _ _ _ _ _ _ _ _ Eadd) as (a & b & rec & Hab & Hins).
    split; [|split].
    + rewrite !tracked_ids_app, Hnone. cbn [ProxyGen.tracked_ids flat_map app].
      fold (ProxyGen.tracked_ids evs0). rewrite Hids. reflexivity.
    + rewrite Hlen, Hins, Hab, !length_app. simpl. lia.
    + intros r Hr. apply Hin. rewrite Hins. rewrite Hab in Hr.
      apply in_app_iff in Hr. apply in_app_iff. simpl. tauto.
Qed.

(** X24: When [deploy], not in a dry run, returns true, it has tracked one
    deployment per requested region, in the order of the call, each under
    the id of the provider, the region and the second at which it was
    tracked; the Ledger has that many records more and every record of
    before is still there. *)
Theorem deploy_completed (e : ProxyGen.env) (cfg : ProxyGen.config) (prov : string)
    (regions : list string) (instance_type : option string)
    (tr tr' : DeploymentTracker.t) (evs : list ProxyGen.event) :
  ProxyGen.deploy e cfg prov regions false instance_type tr = (Return true, tr', evs) ->
  ProxyGen.tracked_ids evs
  = map (fun ir => ProxyGen.deploy_id prov (snd ir)
                     (ProxyGen.tracked_at (ProxyGen.runs e (fst ir))))
        (combine (seq 0 (length regions)) regions)
  /\ length (DeploymentTracker.list_all_deployments tr')
     = (length (DeploymentTracker.list_all_deployments tr) + length regions)%nat
  /\ (forall rec, In rec (DeploymentTracker.list_all_deployments tr) ->
                  In rec (DeploymentTracker.list_all_deployments tr')).
Proof.
  intros H. apply deploy_enters_loop in H.
  destruct H as [(Hne & _) | [it Hrun]]; [congruence|].
  exact (deploy_regions_completed _ _ _ _ _ _ _ _ _ _ Hrun).
Qed.

Lemma deploy_completed_witness :
  exists tr' evs,
    ProxyGen.deploy Sample.all_succeed Sample.aws_config "aws" ["us-east-1"; "us-west-2"]
      false None Sample.fresh_tracker
    = (Return true, tr', evs)
    /\ ProxyGen.tracked_ids evs
       = ["aws-us-east-1-20240115-120000"; "aws-us-west-2-20240115-120000"]
    /\ length (DeploymentTracker.list_all_deployments tr') = 2%nat.
Proof.
  destruct (ProxyGen.deploy Sample.all_succeed Sample.aws_config "aws"
              ["us-east-1"; "us-west-2"] false None Sample.fresh_tracker)
    as [[res tr'] evs] eqn:E.
  assert (Hres : res = Return true) by (vm_compute in E; congruence).
  subst res.
  destruct (deploy_completed _ _ _ _ _ _ _ _ E) as (Hids & Hlen & _).
  exists tr', evs. split; [reflexivity|]. split.
  - rewrite Hids. vm_compute. reflexivity.
  - rewrite Hlen. reflexivity.
Defined.

(* ================================================================== *)
(** ** Destruction by id *)

Lemma update_status_known (deployment_id new_status : string) (now : DateTime.t)
    (tr : DeploymentTracker.t) (d : DeploymentTracker.deployment) :
  DeploymentTracker.get_deployment deployment_id tr = Some d ->
  let tr' := snd (DeploymentTracker.update_deployment_status deployment_id new_status
                    now tr) in
  DeploymentTracker.get_deployment deployment_id tr'
  = Some (DeploymentTracker.set_status new_status now d)
  /\ (forall x, x <> deployment_id ->
        DeploymentTracker.get_deployment x tr' = DeploymentTracker.get_deployment x tr)
  /\ DeploymentTracker.ip_manager tr' = DeploymentTracker.ip_manager tr.
Proof.
  intros Hget. cbv zeta. unfold DeploymentTracker.update_deployment_status.
  pose proof (update_in_providers_place (DeploymentTracker.set_status new_status now)
                deployment_id
                (DeploymentTracker.deployments (DeploymentTracker.inventory tr))) as H.
  rewrite get_deployment_find in Hget.
  unfold DeploymentTracker.list_all_deployments in Hget.
  destruct (DeploymentTracker.update_in_providers _ deployment_id _) as [deps|];
    [|congruence].
  destruct H as (a & d0 & b & Hall & Ha & Hd & Hall' & _).
  rewrite Hall, find_app, Ha in Hget. simpl in Hget. rewrite Hd in Hget.
  injection Hget as <-.
  assert (Hid : DeploymentTracker.id d0 = deployment_id)
    by (now apply String.eqb_eq in Hd).
  cbn [snd]. split; [|split; [|reflexivity]].
  - rewrite get_deployment_find. unfold DeploymentTracker.list_all_deployments.
    cbn [DeploymentTracker.save_inventory DeploymentTracker.with_deployments
         DeploymentTracker.inventory DeploymentTracker.deployments].
    rewrite Hall', find_app, Ha. cbn [find].
    change (DeploymentTracker.has_id deployment_id
              (DeploymentTracker.set_status new_status now d0))
      with (DeploymentTracker.has_id deployment_id d0).
    rewrite Hd. reflexivity.
  - intros x Hx. rewrite !get_deployment_find.
    unfold DeploymentTracker.list_all_deployments.
    cbn [DeploymentTracker.save_inventory DeploymentTracker.with_deployments
         DeploymentTracker.inventory DeploymentTracker.deployments].
    rewrite Hall', Hall.
    apply (find_replaced_other x deployment_id); auto.
Qed.

(** X25: When [destroy_by_id] returns true, the deployment was in the Ledger,
    active, and the destruction was forced or confirmed with ["yes"].
    Afterwards its record has the status ["destroyed"] and the time of
    the call as ["last_modified"], but no ["destroyed_at"] is written and
    the IP registry is untouched, so that the address of the deployment
    stays registered as active. A record that had no ["destroyed_at"]
    is therefore aged by the cleanup from its creation. The lookups of
    the other ids are as before, and another [destroy_by_id] of the id
    returns false and does nothing. *)
Theorem destroy_by_id_marks_only (e : ProxyGen.destroy_env) (deployment_id : string)
    (force : bool) (now : DateTime.t) (tr tr' : DeploymentTracker.t)
    (evs : list ProxyGen.destroy_event) :
  ProxyGen.destroy_by_id e deployment_id force now tr = (Return true, tr', evs) ->
  exists d d',
    DeploymentTracker.get_deployment deployment_id tr = Some d
    /\ DeploymentTracker.status d = "active"
    /\ (force = true \/ ProxyGen.confirmation e = "yes")
    /\ DeploymentTracker.get_deployment deployment_id tr' = Some d'
    /\ d' = DeploymentTracker.mk_deployment (DeploymentTracker.id d)
              (DeploymentTracker.provider d) (DeploymentTracker.region d)
              (DeploymentTracker.created_at d) "destroyed"
              (DeploymentTracker.resources d) (DeploymentTracker.config d)
              (DeploymentTracker.tags d) (DeploymentTracker.cost_estimate d)
              (DeploymentTracker.clients d) (Some now)
              (DeploymentTracker.destroyed_at d)
    /\ DeploymentTracker.ip_manager tr' = DeploymentTracker.ip_manager tr
    /\ (forall x, x <> deployment_id ->
          DeploymentTracker.get_deployment x tr' = DeploymentTracker.get_deployment x tr)
    /\ (DeploymentTracker.destroyed_at d = None ->
        forall cutoff_date,
          DeploymentTracker.expired cutoff_date d'
          = DateTime.ltb (DeploymentTracker.created_at d) cutoff_date)
    /\ (forall e2 force2 now2,
          ProxyGen.destroy_by_id e2 deployment_id force2 now2 tr'
          = (Return false, tr', [])).
Proof.
  unfold ProxyGen.destroy_by_id at 1.
  destruct (DeploymentTracker.get_deployment deployment_id tr) as [d|] eqn:Hget;
    [|discriminate].
  destruct (DeploymentTracker.status d =? "active")%string eqn:Hst; cbn [negb];
    [|discriminate].
  apply String.eqb_eq in Hst.
  destruct (negb force && negb (ProxyGen.confirmation e =? "yes")%string) eqn:Hconf;
    [discriminate|].
  destruct (ProxyGen.destroy_run e) as [[|]|ex]; [|discriminate|discriminate].
  destruct (ProxyGen.unlink_configs e) as [u|ex]; [|discriminate].
  intros H. injection H as <- <-.
  destruct (update_status_known deployment_id "destroyed" now tr d Hget)
    as (Hget' & Hother & Hip).
  exists d, (DeploymentTracker.set_status "destroyed" now d).
  split; [reflexivity|]. split; [exact Hst|]. split.
  { destruct force; [auto|]. right. cbn in Hconf.
    apply negb_false_iff in Hconf. now apply String.eqb_eq in Hconf. }
  split; [exact Hget'|]. split; [reflexivity|]. split; [exact Hip|].
  split; [exact Hother|]. split.
  - intros Hnone cutoff_date. unfold DeploymentTracker.expired,
      DeploymentTracker.destroyed_since.
    cbn [DeploymentTracker.set_status DeploymentTracker.status
         DeploymentTracker.destroyed_at DeploymentTracker.created_at].
    rewrite Hnone. reflexivity.
  - intros e2 force2 now2. unfold ProxyGen.destroy_by_id. rewrite Hget'.
    reflexivity.
Qed.

Lemma destroy_by_id_marks_only_witness :
  let e := ProxyGen.mk_destroy_env "yes" (Return true) (Return tt) in
  exists tr' evs d',
    ProxyGen.destroy_by_id e Sample.tracked_id false Sample.forty_days_later Sample.tracked
    = (Return true, tr', evs)
    /\ DeploymentTracker.get_deployment Sample.tracked_id tr' = Some d'
    /\ DeploymentTracker.status d' = "destroyed"
    /\ DeploymentTracker.destroyed_at d' = None
    /\ IPManager.check_ip_conflicts "aws" "us-east-1" (DeploymentTracker.ip_manager tr')
       = [SStr "1.2.3.4"]
    /\ DeploymentTracker.expired (DateTime.mk 2024 1 25 12 0 0 0) d' = true.
Proof.
  cbv zeta.
  destruct (ProxyGen.destroy_by_id (ProxyGen.mk_destroy_env "yes" (Return true) (Return tt))
              Sample.tracked_id false Sample.forty_days_later Sample.tracked)
    as [[res tr'] evs] eqn:E.
  assert (Hres : res = Return true) by (vm_compute in E; congruence).
  subst res.
  destruct (destroy_by_id_marks_only _ _ _ _ _ _ _ E)
    as (d & d' & Hget & Hst & _ & Hget' & Hd' & Hip & _ & Hage & _).
  assert (Hd : d = match DeploymentTracker.get_deployment Sample.tracked_id Sample.tracked
                   with Some x => x | None => d end) by (now rewrite Hget).
  exists tr', evs, d'. split; [reflexivity|]. split; [exact Hget'|].
  split; [rewrite Hd'; reflexivity|].
  split; [rewrite Hd', Hd; reflexivity|].
  split; [rewrite Hip; reflexivity|].
  rewrite Hage by (rewrite Hd; reflexivity). rewrite Hd. reflexivity.
Defined.

(** X26: [destroy_by_id] returns false, with the Ledger as it was and nothing
    done outside, for an id that the Ledger does not hold and for a
    record that is not active; for an active record, without [force], an
    answer other than ["yes"] (in any case of letters) does the same
    after the prompt. The Terraform destroy runs only for an active
    record after that, and the Ledger changes only when it returned
    true. *)
Theorem destroy_by_id_refuses (e : ProxyGen.destroy_env) (deployment_id : string)
    (force : bool) (now : DateTime.t) (tr : DeploymentTracker.t) :
  (DeploymentTracker.get_deployment deployment_id tr = None ->
     ProxyGen.destroy_by_id e deployment_id force now tr = (Return false, tr, []))
  /\ (forall d, DeploymentTracker.get_deployment deployment_id tr = Some d ->
        DeploymentTracker.status d <> "active" ->
        ProxyGen.destroy_by_id e deployment_id force now tr = (Return false, tr, []))
  /\ (forall d, DeploymentTracker.get_deployment deployment_id tr = Some d ->
        DeploymentTracker.status d = "active" ->
        force = false -> ProxyGen.confirmation e <> "yes" ->
        ProxyGen.destroy_by_id e deployment_id force now tr
        = (Return false, tr, [ProxyGen.EvPrompt]))
  /\ (forall res tr' evs,
        ProxyGen.destroy_by_id e deployment_id force now tr = (res, tr', evs) ->
        (forall prov reg, In (ProxyGen.EvDestroy prov reg) evs ->
           exists d, DeploymentTracker.get_deployment deployment_id tr = Some d
                     /\ DeploymentTracker.status d = "active"
                     /\ DeploymentTracker.provider d = prov
                     /\ DeploymentTracker.region d = reg
                     /\ (force = true \/ ProxyGen.confirmation e = "yes"))
        /\ (ProxyGen.destroy_run e <> Return true -> tr' = tr)).
Proof.
  unfold ProxyGen.destroy_by_id.
  split; [intros ->; reflexivity|].
  split.
  { intros d -> Hst. apply String.eqb_neq in Hst. now rewrite Hst. }
  split.
  { intros d -> Hst -> Hconf. apply String.eqb_eq in Hst.
    apply String.eqb_neq in Hconf. now rewrite Hst, Hconf. }
  intros res tr' evs.
  destruct (DeploymentTracker.get_deployment deployment_id tr) as [d|].
  2: { intros H. injection H as <- <- <-. split; [intros p r []|auto]. }
  destruct (DeploymentTracker.status d =? "active")%string eqn:Hst; cbn [negb].
  2: { intros H. injection H as <- <- <-. split; [intros p r []|auto]. }
  apply String.eqb_eq in Hst.
  destruct (negb force && negb (ProxyGen.confirmation e =? "yes")%string) eqn:Hconf.
  { intros H. injection H as <- <- <-.
    split; [intros p r [H|[]]; discriminate | auto]. }
  assert (Hok : force = true \/ ProxyGen.confirmation e = "yes").
  { destruct force; [auto|]. right. cbn in Hconf.
    apply negb_false_iff in Hconf. now apply String.eqb_eq in Hconf. }
  assert (Hev : forall l prov reg,
            In (ProxyGen.EvDestroy prov reg)
               (((if force then [] else [ProxyGen.EvPrompt])
                 ++ [ProxyGen.EvDestroy (DeploymentTracker.provider d)
                       (DeploymentTracker.region d)]) ++ l) ->
            (forall x, In x l -> forall p r, x <> ProxyGen.EvDestroy p r) ->
            exists d0, Some d = Some d0
                       /\ DeploymentTracker.status d0 = "active"
                       /\ DeploymentTracker.provider d0 = prov
                       /\ DeploymentTracker.region d0 = reg
                       /\ (force = true \/ ProxyGen.confirmation e = "yes")).
  { intros l prov reg Hin Hl. exists d. split; [reflexivity|]. split; [exact Hst|].
    apply in_app_or in Hin. destruct Hin as [Hin|Hin].
    - apply in_app_or in Hin. destruct Hin as [Hin|[Hin|[]]].
      + destruct force; [destruct Hin|]. destruct Hin as [Hin|[]]. discriminate.
      + injection Hin as <- <-. auto.
    - exfalso. exact (Hl _ Hin prov reg eq_refl). }
  destruct (ProxyGen.destroy_run e) as [[|]|ex].
  - destruct (ProxyGen.unlink_configs e) as [u|ex];
      intros H; injection H as <- <- <-;
      (split; [|intros Hne; congruence]);
      intros prov reg Hin;
      apply (Hev [ProxyGen.EvUnlinkConfigs
                    (DeploymentTracker.provider d ++ "-" ++ DeploymentTracker.region d)]
               prov reg Hin);
      intros x [<-|[]] p r; discriminate.
  - intros H. injection H as <- <- <-. split; [|reflexivity].
    intros prov reg Hin. apply (Hev [] prov reg); [now rewrite app_nil_r|].
    intros x [].
  - intros H. injection H as <- <- <-. split; [|reflexivity].
    intros prov reg Hin. apply (Hev [] prov reg); [now rewrite app_nil_r|].
    intros x [].
Qed.

(* ================================================================== *)
(** ** Cost Model: bandwidth tiers *)

Lemma pricing_providers (prov : string) (pp : CostEstimator.provider_pricing) :
  get prov CostEstimator.pricing = Some pp ->
  prov = "aws" \/ prov = "azure" \/ prov = "digitalocean" \/ prov = "hetzner".
Proof.
  unfold CostEstimator.pricing. cbn [get].
  destruct ("aws" =? prov)%string eqn:E1; [apply String.eqb_eq in E1; auto|].
  destruct ("azure" =? prov)%string eqn:E2; [apply String.eqb_eq in E2; auto|].
  destruct ("digitalocean" =? prov)%string eqn:E3; [apply String.eqb_eq in E3; auto|].
  destruct ("hetzner" =? prov)%string eqn:E4; [apply String.eqb_eq in E4; auto 6|].
  discriminate.
Qed.

Lemma Qle_bool_false (x y : Q) : Qle_bool x y = false -> (y < x)%Q.
Proof.
  intros H. apply Qnot_le_lt. intros Hle. apply Qle_bool_iff in Hle. congruence.
Qed.

Ltac tier_cases :=
  repeat match goal with
         | |- context [Qle_bool ?a ?b] =>
             let E := fresh "E" in
             destruct (Qle_bool a b) eqn:E;
             [apply Qle_bool_iff in E | apply Qle_bool_false in E]
         end.

(** X27: The bandwidth cost never decreases when the bandwidth grows, for AWS,
    DigitalOcean and Hetzner at every bandwidth, and for Azure up to
    51205 GB. Above 51205 GB the Azure cost is 0, while it is positive
    at 51205 GB. *)
Theorem bandwidth_cost_monotone :
  (forall prov bw1 bw2 c1 c2,
     (bw1 <= bw2)%Q ->
     (prov = "azure" -> (bw2 <= 51205)%Q) ->
     CostEstimator.calculate_bandwidth_cost prov bw1 = Return c1 ->
     CostEstimator.calculate_bandwidth_cost prov bw2 = Return c2 ->
     (c1 <= c2)%Q)
  /\ (forall bw, (51205 < bw)%Q ->
        CostEstimator.calculate_bandwidth_cost "azure" bw = Return 0%Q)
  /\ (exists c, CostEstimator.calculate_bandwidth_cost "azure" 51205 = Return c
                /\ (0 < c)%Q).
Proof.
  split; [|split].
  - intros prov bw1 bw2 c1 c2 Hle Haz.
    unfold CostEstimator.calculate_bandwidth_cost, item.
    destruct (get prov CostEstimator.pricing) as [pp|] eqn:Hp; [|discriminate].
    cbn [bind]. intros H1 H2. injection H1 as <-. injection H2 as <-.
    destruct (pricing_providers prov pp Hp) as [-> | [-> | [-> | ->]]];
      vm_compute in Hp; injection Hp as <-;
      cbn [CostEstimator.bandwidth_tiers CostEstimator.tier CostEstimator.bandwidth
           get String.eqb Ascii.eqb Bool.eqb].
    + tier_cases; lra.
    + specialize (Haz eq_refl). tier_cases; lra.
    + tier_cases; lra.
    + unfold Qdiv. change (/ 1024)%Q with (1 # 1024)%Q. tier_cases; lra.
  - intros bw Hbw. unfold CostEstimator.calculate_bandwidth_cost, item.
    change (get "azure" CostEstimator.pricing)
      with (Some (match get "azure" CostEstimator.pricing with
                  | Some pp => pp
                  | None => CostEstimator.mk_pricing [] [] [] 0 []
                  end)).
    cbn [bind]. f_equal.
    cbn [CostEstimator.bandwidth_tiers String.eqb Ascii.eqb Bool.eqb].
    tier_cases; try lra. reflexivity.
  - eexists. split; [vm_compute; reflexivity|]. unfold Qlt. cbn. lia.
Qed.

(* ================================================================== *)
(** ** Cost Model: sorting by a price *)

Section SortBy.
Context {A : Type}.
Variable key : A -> Q.


Lemma insert_by_perm (x : A) (l : list A) :
  Permutation (CostEstimator.insert_by key x l) (x :: l).
Proof.
  induction l as [|y l IH]; simpl; [reflexivity|].
  destruct (Qle_bool (key y) (key x)); [|reflexivity].
  rewrite IH. apply perm_swap.
Qed.

Lemma sort_by_perm_from (l acc : list A) :
  Permutation (fold_left (fun sorted x => CostEstimator.insert_by key x sorted) l acc)
              (l ++ acc).
Proof.
  revert acc. induction l as [|x l IH]; intros acc; simpl; [reflexivity|].
  rewrite IH, insert_by_perm. symmetry. apply Permutation_middle.
Qed.

Lemma sort_by_perm (l : list A) : Permutation (CostEstimator.sort_by key l) l.
Proof.
  unfold CostEstimator.sort_by. rewrite sort_by_perm_from. now rewrite app_nil_r.
Qed.

Lemma insert_by_hd (a x : A) (l : list A) :
  CostEstimator.by_key key a x ->
  HdRel (CostEstimator.by_key key) a l ->
  HdRel (CostEstimator.by_key key) a (CostEstimator.insert_by key x l).
Proof.
  intros Hax Hl. destruct l as [|y l]; simpl; [auto|].
  destruct (Qle_bool (key y) (key x)); [|auto].
  inversion Hl; subst. auto.
Qed.

Lemma insert_by_sorted (x : A) (l : list A) :
  Sorted (CostEstimator.by_key key) l ->
  Sorted (CostEstimator.by_key key) (CostEstimator.insert_by key x l).
Proof.
  induction l as [|y l IH]; intros Hs; simpl; [auto|].
  inversion Hs as [|? ? Hl Hy]; subst.
  destruct (Qle_bool (key y) (key x)) eqn:E.
  - apply Qle_bool_iff in E. constructor; [auto|]. now apply insert_by_hd.
  - apply Qle_bool_false in E. constructor; [exact Hs|].
    constructor. unfold CostEstimator.by_key. lra.
Qed.

Lemma sort_by_sorted_from (l acc : list A) :
  Sorted (CostEstimator.by_key key) acc ->
  Sorted (CostEstimator.by_key key)
    (fold_left (fun sorted x => CostEstimator.insert_by key x sorted) l acc).
Proof.
  revert acc. induction l as [|x l IH]; intros acc Hs; simpl; [exact Hs|].
  apply IH, insert_by_sorted, Hs.
Qed.

Lemma sort_by_sorted (l : list A) :
  StronglySorted (CostEstimator.by_key key) (CostEstimator.sort_by key l).
Proof.
  apply Sorted_StronglySorted.
  - intros a b c Hab Hbc. unfold CostEstimator.by_key in *. lra.
  - apply sort_by_sorted_from. constructor.
Qed.

End SortBy.

Lemma strongly_sorted_impl {A : Type} (R S : A -> A -> Prop) (l : list A) :
  (forall a b, R a b -> S a b) -> StronglySorted R l -> StronglySorted S l.
Proof.
  intros HRS Hs. induction Hs as [|a l Hl IH Hall]; constructor; auto.
  eapply Forall_impl; [|exact Hall]. intros b. apply HRS.
Qed.

(* ================================================================== *)
(** ** Cost Model: comparison of the providers *)



(* ================================================================== *)
(** ** Cost Model: smaller and larger instance types *)

Lemma Qlt_bool_iff (x y : Q) : CostEstimator.Qlt_bool x y = true <-> (x < y)%Q.
Proof.
  unfold CostEstimator.Qlt_bool. rewrite negb_true_iff. split.
  - apply Qle_bool_false.
  - intros H. destruct (Qle_bool y x) eqn:E; [|reflexivity].
    apply Qle_bool_iff in E. lra.
Qed.

(** X29: For an instance type of the provider's table, [get_smaller_instances]
    returns exactly the types of the table that cost less per hour, the
    dearest first, and [get_larger_instances] exactly those that cost
    more, the cheapest first; the type itself, and a type of the same
    price, is in neither list. An unknown provider or instance type
    raises [KeyError]. *)
Theorem smaller_and_larger_instances (prov current : string) :
  match CostEstimator.get_smaller_instances prov current,
        CostEstimator.get_larger_instances prov current with
  | Return smaller, Return larger =>
      exists pp current_price,
        get prov CostEstimator.pricing = Some pp
        /\ get current (CostEstimator.instances pp) = Some current_price
        /\ (forall i, In i smaller <->
              In i (keys (CostEstimator.instances pp))
              /\ (CostEstimator.instance_price pp i < current_price)%Q)
        /\ (forall i, In i larger <->
              In i (keys (CostEstimator.instances pp))
              /\ (current_price < CostEstimator.instance_price pp i)%Q)
        /\ StronglySorted (fun a b => (CostEstimator.instance_price pp b
                                       <= CostEstimator.instance_price pp a)%Q) smaller
        /\ StronglySorted (fun a b => (CostEstimator.instance_price pp a
                                       <= CostEstimator.instance_price pp b)%Q) larger
  | Raise e1, Raise e2 =>
      e1 = e2
      /\ ((get prov CostEstimator.pricing = None /\ e1 = KeyError prov)
          \/ (exists pp, get prov CostEstimator.pricing = Some pp
                         /\ get current (CostEstimator.instances pp) = None
                         /\ e1 = KeyError current))
  | _, _ => False
  end.
Proof.
  unfold CostEstimator.get_smaller_instances, CostEstimator.get_larger_instances, item.
  destruct (get prov CostEstimator.pricing) as [pp|] eqn:Hp; cbn [bind]; [|auto].
  destruct (get current (CostEstimator.instances pp)) as [current_price|] eqn:Hc;
    cbn [bind]; [|split; [reflexivity|]; right; eauto].
  exists pp, current_price. split; [reflexivity|]. split; [exact Hc|].
  split; [|split; [|split]].
  - intros i. split.
    + intros Hin. apply (Permutation_in _ (sort_by_perm _ _)) in Hin.
      apply filter_In in Hin. destruct Hin as [Hin Hlt].
      apply Qlt_bool_iff in Hlt. auto.
    + intros [Hin Hlt].
      apply (Permutation_in _ (Permutation_sym (sort_by_perm _ _))).
      apply filter_In. split; [exact Hin|]. now apply Qlt_bool_iff.
  - intros i. split.
    + intros Hin. apply (Permutation_in _ (sort_by_perm _ _)) in Hin.
      apply filter_In in Hin. destruct Hin as [Hin Hlt].
      apply Qlt_bool_iff in Hlt. auto.
    + intros [Hin Hlt].
      apply (Permutation_in _ (Permutation_sym (sort_by_perm _ _))).
      apply filter_In. split; [exact Hin|]. now apply Qlt_bool_iff.
  - eapply strongly_sorted_impl;
      [|apply (sort_by_sorted (fun i => (- CostEstimator.instance_price pp i)%Q))].
    intros a b H. unfold CostEstimator.by_key in H. lra.
  - apply (sort_by_sorted (CostEstimator.instance_price pp)).
Qed.

(* ================================================================== *)
(** ** Cost Model: when an estimate is given *)

(** X30: [estimate_monthly_cost] returns an estimate exactly for an instance
    type of the provider's table, and raises [ValueError] otherwise, for
    an unknown provider as for an unknown type. A region that the
    provider's table does not list is priced with the multiplier 1.0: the
    totals and the breakdown are those of a listed region of multiplier
    1.0. *)
Theorem estimate_monthly_cost_defined (prov instance_type reg : string)
    (bandwidth_gb storage_gb hours_per_month : Q) (now : DateTime.t) :
  (CostEstimator.known_instance prov instance_type = true ->
     exists e,
       CostEstimator.estimate_monthly_cost prov instance_type reg bandwidth_gb
         storage_gb hours_per_month now = Return e
       /\ CostEstimator.e_provider e = prov
       /\ CostEstimator.e_region e = reg
       /\ CostEstimator.e_instance_type e = instance_type
       /\ CostEstimator.estimated_at e = now)
  /\ (CostEstimator.known_instance prov instance_type = false ->
        CostEstimator.estimate_monthly_cost prov instance_type reg bandwidth_gb
          storage_gb hours_per_month now = Raise ValueError)
  /\ (forall pp base e e1,
        get prov CostEstimator.pricing = Some pp ->
        get reg (CostEstimator.regions pp) = None ->
        get base (CostEstimator.regions pp) = Some 1.0%Q ->
        CostEstimator.estimate_monthly_cost prov instance_type reg bandwidth_gb
          storage_gb hours_per_month now = Return e ->
        CostEstimator.estimate_monthly_cost prov instance_type base bandwidth_gb
          storage_gb hours_per_month now = Return e1 ->
        CostEstimator.total_monthly e = CostEstimator.total_monthly e1
        /\ CostEstimator.total_yearly e = CostEstimator.total_yearly e1
        /\ CostEstimator.e_breakdown e = CostEstimator.e_breakdown e1).
Proof.
  unfold CostEstimator.known_instance, CostEstimator.estimate_monthly_cost,
    CostEstimator.calculate_bandwidth_cost, item, mem.
  destruct (get prov CostEstimator.pricing) as [pp|].
  - destruct (get instance_type (CostEstimator.instances pp)) as [hourly|].
    + cbn [bind]. split; [intros _; eexists; split; [reflexivity|]; auto|].
      split; [discriminate|].
      intros pp0 base e e1 Hpp Hreg Hbase He He1.
      injection Hpp as <-. rewrite Hreg in He. rewrite Hbase in He1.
      injection He as <-. injection He1 as <-. cbn. auto.
    + split; [discriminate|]. split; [reflexivity|].
      intros pp0 base e e1 _ _ _ He. discriminate.
  - split; [discriminate|]. split; [reflexivity|].
    intros pp0 base e e1 H. discriminate.
Qed.
